(** * tiny-imagenet-200.py: the training harness, embedded and verified

    The script trains a torchvision ResNet on an image-folder dataset and
    prints per-epoch loss and accuracy.  This development embeds the script
    (the five model wrappers, [train], [test], [main] and [MODEL_MAP]) as
    state-passing functions and proves the properties stated for it.

    Conventions of the embedding.
    - Python [int] is [Z]; Python [float] is an exact rational [Q], so every
      statement about losses and learning rates is a statement of exact
      arithmetic (what the floating-point run approximates).
    - The libraries the script calls (torch, torchvision, argparse, the
      Python builtins [int] and [float]) are collaborators: their data and
      operations are the fields of the class [Backend]; what the run finds
      on the machine (accelerator, files, generator states) is a [World].
    - Effects are threaded through the monad [M]: a process state [Proc]
      (environment variables, cudnn flags, generator states, console and
      call log) and an exception result.
    - A data loader is iterated eagerly: the batches of an epoch are
      produced before the loop body runs. *)

From Stdlib Require Import ZArith QArith Qpower Lia.
From stdpp Require Import base gmap strings list.

Local Open Scope Z_scope.

(** ** Python values at the boundary *)

(** The four generators the script seeds (lines 158-161). *)
Inductive Source := TorchCpu | TorchCuda | PyRandom | NumpyRandom.

Record RngState (R : Type) := MkRngState {
  torch_cpu : R;
  torch_cuda : R;
  py_random : R;
  np_random : R
}.
Arguments MkRngState {R}.
Arguments torch_cpu {R}.
Arguments torch_cuda {R}.
Arguments py_random {R}.
Arguments np_random {R}.

Inductive Device := Cpu | Cuda.

(** torchvision transforms, as the script composes them (lines 176-194). *)
Inductive Transform :=
| RandomResizedCrop (size : Z)
| RandomHorizontalFlip
| Resize (size : Z)
| CenterCrop (size : Z)
| ToTensor
| Normalize (mean std : list Q).

(** The arguments of one [torch.hub.load] call. *)
Record HubCall := MkHubCall {
  hub_repo : string;
  hub_entry : string;
  hub_pretrained : bool;
  hub_num_classes : Z
}.

(** Reduction of [nn.CrossEntropyLoss]. *)
Inductive Reduction := ReduceMean | ReduceSum.

(** ** The collaborating libraries *)

Class Backend := {
  Rng : Type;       (* state of one pseudo-random generator *)
  Raw : Type;       (* an image file of the dataset *)
  Image : Type;     (* a transformed input tensor *)
  Logits : Type;    (* one row of the network's output *)
  Weights : Type;   (* parameters and buffers of a network *)
  Grads : Type;     (* the .grad fields of the parameters *)
  Accum : Type;     (* Adadelta's per-parameter accumulators *)
  (* builtins int() and float() on a command-line word *)
  py_int : string -> option Z;
  py_float : string -> option Q;
  (* the generator state a seeding call installs *)
  seed_gen : Source -> Z -> Rng;
  (* dataset[i]: load one file and run the composed transforms on it *)
  apply_transforms : list Transform -> RngState Rng -> Raw -> Image * RngState Rng;
  (* RandomSampler: the order of one shuffled epoch *)
  randperm : RngState Rng -> list (Raw * Z) -> list (Raw * Z) * RngState Rng;
  randperm_Permutation : forall g l, Permutation (fst (randperm g l)) l;
  (* torch.hub.load: build the network, initialising or loading weights *)
  hub_load : HubCall -> RngState Rng -> Weights * RngState Rng;
  (* model(data) in training mode (batch statistics, buffers updated) and
     in evaluation mode (a function of the weights and the batch) *)
  forward_train : Weights -> list Image -> list Logits * Weights;
  forward_eval : Weights -> list Image -> list Logits;
  (* cross entropy of one row against its label, and the row's arg-max *)
  cross_entropy : Logits -> Z -> Q;
  argmax : Logits -> Z;
  (* optimizer.zero_grad() and loss.backward() for a batch loss *)
  zero_grads : Grads;
  backward : Reduction -> Weights -> list Image -> list Z -> Grads -> Grads;
  (* optim.Adadelta: fresh accumulators and one update *)
  adadelta_init : Weights -> Accum;
  adadelta_step : Q -> Accum -> Grads -> Weights -> Weights * Accum
}.

(** ** Exceptions, process state and the monad of the script *)

Inductive ArgError :=
| InvalidInt (flag value : string)
| InvalidFloat (flag value : string)
| InvalidChoice (flag value : string) (choices : list string)
| RequiredMissing (flags : list string)
| Unrecognized (tokens : list string).

Inductive Exn :=
| ArgparseError (e : ArgError)      (* parser.error: usage message, exit status 2 *)
| HelpExit                          (* -h: help text, exit status 0 *)
| ValueError (what : string)
| TypeError (what : string)
| KeyError (key : string)
| FileNotFoundError (path : string)
| ZeroDivisionError.

Inductive Res (A : Type) :=
| Ret (a : A)
| Raise (e : Exn).
Arguments Ret {A}.
Arguments Raise {A}.

(** What the run prints and which library constructors it calls, in
    program order. *)
Inductive Event :=
| ESeed (src : Source) (value : Z)
| EPrintDevice (d : Device)
| EPrintVGA (n : Z)
| EImageFolder (root : string) (tf : list Transform)
| EDataLoader (batch_size : Z) (shuffle : bool) (num_workers : Z) (pin_memory : bool)
| EHubLoad (call : HubCall)
| EPrintEpoch (epoch : Z)
| EPbarUpdate (n : Z)
| EPbarPostfix (loss : Q)
| EPrintTrainTime
| EPrintTest (avg_loss : Q) (correct total : Z) (percent : Q)
| EPrintTestTime
| ESchedulerStep.

Section Script.
Context `{B : Backend}.

Record Proc := MkProc {
  environ : gmap string string;
  cudnn_deterministic : bool;
  cudnn_benchmark : bool;
  rng : RngState Rng;
  log : list Event
}.

Definition M (A : Type) : Type := Proc -> Res A * Proc.

Definition ret {A} (a : A) : M A := fun p => (Ret a, p).

Definition bind {A C} (m : M A) (k : A -> M C) : M C :=
  fun p => match m p with
           | (Ret a, p') => k a p'
           | (Raise e, p') => (Raise e, p')
           end.

Definition raise {A} (e : Exn) : M A := fun p => (Raise e, p).

Definition emit (evs : list Event) : M unit :=
  fun p => (Ret tt, MkProc (environ p) (cudnn_deterministic p) (cudnn_benchmark p)
                            (rng p) (log p ++ evs)).

Definition setenv (k v : string) : M unit :=
  fun p => (Ret tt, MkProc (<[k := v]> (environ p)) (cudnn_deterministic p)
                            (cudnn_benchmark p) (rng p) (log p)).

Definition set_cudnn_deterministic (b : bool) : M unit :=
  fun p => (Ret tt, MkProc (environ p) b (cudnn_benchmark p) (rng p) (log p)).

Definition set_cudnn_benchmark (b : bool) : M unit :=
  fun p => (Ret tt, MkProc (environ p) (cudnn_deterministic p) b (rng p) (log p)).

Definition get_environ : M (gmap string string) := fun p => (Ret (environ p), p).

(** Run a randomised library call on the process's generators. *)
Definition with_rng {A} (f : RngState Rng -> A * RngState Rng) : M A :=
  fun p => let '(a, g) := f (rng p) in
           (Ret a, MkProc (environ p) (cudnn_deterministic p) (cudnn_benchmark p)
                          g (log p)).

End Script.

Notation "'let*' x := m 'in' k" := (bind m (fun x => k))
  (at level 10, x pattern, m at level 100, k at level 200).

(** ** Lists and sums *)

Definition Qsum (l : list Q) : Q := fold_right Qplus 0%Q l.

(** [enumerate(xs)]: each element with its index, from 0. *)
Definition enumerate {A} (l : list A) : list (Z * A) :=
  combine (map Z.of_nat (seq 0 (length l))) l.

(** [range(a, b)]. *)
Definition py_range (a b : Z) : list Z :=
  map (fun i => a + Z.of_nat i) (seq 0 (Z.to_nat (b - a))).

(** Consecutive slices of [n] elements, the last one shorter when [n] does
    not divide the length (a batch sampler with drop_last=False).  The fuel
    is the length of the list, enough for every [n >= 1]. *)
Fixpoint chunks_fuel {A} (fuel n : nat) (l : list A) : list (list A) :=
  match fuel with
  | O => []
  | S fuel' =>
      match l with
      | [] => []
      | _ :: _ => take n l :: chunks_fuel fuel' n (drop n l)
      end
  end.

Definition chunks {A} (n : nat) (l : list A) : list (list A) :=
  chunks_fuel (length l) n l.

(** ** The model wrappers (lines 20-85) and MODEL_MAP (lines 210-216) *)

Inductive ModelClass :=
| ImageNet_Resnet18
| ImageNet_Resnet34
| ImageNet_Resnet50
| ImageNet_Resnet101
| ImageNet_Resnet152.

(** The [torch.hub.load] call in each wrapper's [__init__]. *)
Definition init_call (c : ModelClass) : HubCall :=
  match c with
  | ImageNet_Resnet18 => MkHubCall "pytorch/vision:v0.6.0" "resnet18" false 200
  | ImageNet_Resnet34 => MkHubCall "pytorch/vision:v0.6.0" "resnet34" false 200
  | ImageNet_Resnet50 => MkHubCall "pytorch/vision:v0.6.0" "resnet50" false 200
  | ImageNet_Resnet101 => MkHubCall "pytorch/vision:v0.6.0" "resnet101" false 200
  | ImageNet_Resnet152 => MkHubCall "pytorch/vision:v0.6.0" "resnet152" false 200
  end.

Definition MODEL_MAP : list (string * ModelClass) :=
  [ ("resnet18", ImageNet_Resnet18);
    ("resnet34", ImageNet_Resnet34);
    ("resnet50", ImageNet_Resnet50);
    ("resnet101", ImageNet_Resnet101);
    ("resnet152", ImageNet_Resnet152) ].

(** [d.keys()] and [d[k]] on a dict kept in insertion order. *)
Definition dict_keys {V} (d : list (string * V)) : list string := map fst d.

Fixpoint dict_get {V} (d : list (string * V)) (k : string) : option V :=
  match d with
  | [] => None
  | (k', v) :: d' => if String.eqb k k' then Some v else dict_get d' k
  end.

Section Objects.
Context `{B : Backend}.

(** An instance of a wrapper: the hub call that built [self.model], the
    network's weights and gradients, and the flags of [nn.Module]. *)
Record Model := MkModel {
  hub_call : HubCall;
  weights : Weights;
  grads : Grads;
  training : bool;
  placed_on : Device
}.

(** Width of the output layer: the resnet entry points build the final
    fully connected layer with [num_classes] outputs. *)
Definition output_width (m : Model) : Z := hub_num_classes (hub_call m).

Definition pretrained (m : Model) : bool := hub_pretrained (hub_call m).

(** [cls()]: a new module is in training mode, on the CPU, without
    gradients. *)
Definition construct (c : ModelClass) : M Model :=
  let call := init_call c in
  let* _ := emit [EHubLoad call] in
  let* w := with_rng (hub_load call) in
  ret (MkModel call w zero_grads true Cpu).

(** [model.to(device)], [model.train()], [model.eval()]. *)
Definition to_device (d : Device) (m : Model) : Model :=
  MkModel (hub_call m) (weights m) (grads m) (training m) d.

Definition set_training (b : bool) (m : Model) : Model :=
  MkModel (hub_call m) (weights m) (grads m) b (placed_on m).

(** [model(data)]: the forward pass of the mode the module is in. *)
Definition call_model (m : Model) (data : list Image) : list Logits * Model :=
  if training m then
    let '(out, w) := forward_train (weights m) data in
    (out, MkModel (hub_call m) w (grads m) (training m) (placed_on m))
  else (forward_eval (weights m) data, m).

(** [criterion(output, target)] for [nn.CrossEntropyLoss(reduction=r)]. *)
Definition criterion_apply (r : Reduction) (output : list Logits) (target : list Z) : Q :=
  let total := Qsum (map (fun ot => cross_entropy (fst ot) (snd ot)) (combine output target)) in
  match r with
  | ReduceSum => total
  | ReduceMean => (total / inject_Z (Z.of_nat (length target)))%Q
  end.

(** [pred.eq(target.view_as(pred)).sum().item()] for the arg-max [pred]. *)
Definition count_correct (output : list Logits) (target : list Z) : Z :=
  Z.of_nat (length (filter (fun ot => argmax (fst ot) =? snd ot) (combine output target))).

(** [optim.Adadelta] over the model's parameters. *)
Record Optimizer := MkOptimizer {
  lr : Q;
  accum : Accum
}.

Definition Adadelta (m : Model) (rate : Q) : M Optimizer :=
  if Qle_bool 0 rate then ret (MkOptimizer rate (adadelta_init (weights m)))
  else raise (ValueError "Invalid learning rate").

Definition zero_grad (m : Model) : Model :=
  MkModel (hub_call m) (weights m) zero_grads (training m) (placed_on m).

Definition loss_backward (r : Reduction) (w : Weights) (data : list Image)
    (target : list Z) (m : Model) : Model :=
  MkModel (hub_call m) (weights m) (backward r w data target (grads m))
          (training m) (placed_on m).

Definition optimizer_step (o : Optimizer) (m : Model) : Model * Optimizer :=
  let '(w, a) := adadelta_step (lr o) (accum o) (grads m) (weights m) in
  (MkModel (hub_call m) w (grads m) (training m) (placed_on m), MkOptimizer (lr o) a).

(** [StepLR(optimizer, step_size, gamma)].  The constructor performs the
    initial step, which moves [last_epoch] from -1 to 0 and leaves the rate
    as it is. *)
Record StepLR := MkStepLR {
  step_size : Z;
  gamma : Q;
  last_epoch : Z
}.

Definition StepLR_get_lr (s : StepLR) (rate : Q) : Q :=
  if (last_epoch s =? 0) || negb (last_epoch s mod step_size s =? 0)
  then rate else (rate * gamma s)%Q.

Definition scheduler_step (s : StepLR) (o : Optimizer) : StepLR * Optimizer :=
  let s' := MkStepLR (step_size s) (gamma s) (last_epoch s + 1) in
  (s', MkOptimizer (StepLR_get_lr s' (lr o)) (accum o)).

Definition StepLR_new (o : Optimizer) (size : Z) (g : Q) : StepLR * Optimizer :=
  scheduler_step (MkStepLR size g (-1)) o.

(** ** The data supply: ImageFolder and DataLoader *)

Record Dataset := MkDataset {
  samples : list (Raw * Z);
  transform : list Transform
}.

Inductive KwVal := KInt (n : Z) | KBool (b : bool).

Record DataLoader := MkDataLoader {
  dataset : Dataset;
  batch_size : Z;
  shuffle : bool;
  num_workers : Z;
  pin_memory : bool
}.

Definition kw_int (kw : gmap string KwVal) (k : string) (default : Z) : M Z :=
  match kw !! k with
  | None => ret default
  | Some (KInt n) => ret n
  | Some (KBool _) => raise (TypeError k)
  end.

Definition kw_bool (kw : gmap string KwVal) (k : string) (default : bool) : M bool :=
  match kw !! k with
  | None => ret default
  | Some (KBool b) => ret b
  | Some (KInt _) => raise (TypeError k)
  end.

(** [torch.utils.data.DataLoader(ds, **kw)] with the library's defaults;
    a batch size that is not positive is refused. *)
Definition DataLoader_new (ds : Dataset) (kw : gmap string KwVal) : M DataLoader :=
  let* bs := kw_int kw "batch_size" 1 in
  let* sh := kw_bool kw "shuffle" false in
  let* nw := kw_int kw "num_workers" 0 in
  let* pm := kw_bool kw "pin_memory" false in
  if bs <=? 0 then raise (ValueError "batch_size should be a positive integer value")
  else
    let* _ := emit [EDataLoader bs sh nw pm] in
    ret (MkDataLoader ds bs sh nw pm).

(** [len(loader.dataset)] and [len(loader)]. *)
Definition len_dataset (L : DataLoader) : Z :=
  Z.of_nat (length (samples (dataset L))).

Definition len_loader (L : DataLoader) : Z :=
  (len_dataset L + batch_size L - 1) / batch_size L.

(** The samples of one epoch in the order the sampler visits them, each
    loaded through the dataset's transforms. *)
Fixpoint fetch (tf : list Transform) (g : RngState Rng) (l : list (Raw * Z))
    : list (Image * Z) * RngState Rng :=
  match l with
  | [] => ([], g)
  | (r, y) :: l' =>
      let '(x, g1) := apply_transforms tf g r in
      let '(xs, g2) := fetch tf g1 l' in
      ((x, y) :: xs, g2)
  end.

Definition sample_stream (L : DataLoader) (g : RngState Rng)
    : list (Image * Z) * RngState Rng :=
  let '(order, g1) :=
    if shuffle L then randperm g (samples (dataset L)) else (samples (dataset L), g) in
  fetch (transform (dataset L)) g1 order.

Definition collate (b : list (Image * Z)) : list Image * list Z :=
  (map fst b, map snd b).

Definition batches_of (L : DataLoader) (stream : list (Image * Z))
    : list (list Image * list Z) :=
  map collate (chunks (Z.to_nat (batch_size L)) stream).

(** [iter(loader)], run to the end. *)
Definition iterate (L : DataLoader) : M (list (list Image * list Z)) :=
  let* stream := with_rng (sample_stream L) in
  ret (batches_of L stream).

End Objects.

(** ** Command-line arguments (lines 133-147) *)

(** [args], the namespace [parse_args] returns. *)
Module Namespace.
Record t := Mk {
  data : option string;
  batch_size : Z;
  test_batch_size : Z;
  epochs : Z;
  lr : Q;
  no_cuda : bool;
  gpu_num : string;
  model : string
}.
Definition set_data (v : string) (a : t) : t :=
  Mk (Some v) (batch_size a) (test_batch_size a) (epochs a) (lr a) (no_cuda a) (gpu_num a) (model a).
Definition set_batch_size (v : Z) (a : t) : t :=
  Mk (data a) v (test_batch_size a) (epochs a) (lr a) (no_cuda a) (gpu_num a) (model a).
Definition set_test_batch_size (v : Z) (a : t) : t :=
  Mk (data a) (batch_size a) v (epochs a) (lr a) (no_cuda a) (gpu_num a) (model a).
Definition set_epochs (v : Z) (a : t) : t :=
  Mk (data a) (batch_size a) (test_batch_size a) v (lr a) (no_cuda a) (gpu_num a) (model a).
Definition set_lr (v : Q) (a : t) : t :=
  Mk (data a) (batch_size a) (test_batch_size a) (epochs a) v (no_cuda a) (gpu_num a) (model a).
Definition set_no_cuda (v : bool) (a : t) : t :=
  Mk (data a) (batch_size a) (test_batch_size a) (epochs a) (lr a) v (gpu_num a) (model a).
Definition set_gpu_num (v : string) (a : t) : t :=
  Mk (data a) (batch_size a) (test_batch_size a) (epochs a) (lr a) (no_cuda a) v (model a).
Definition set_model (v : string) (a : t) : t :=
  Mk (data a) (batch_size a) (test_batch_size a) (epochs a) (lr a) (no_cuda a) (gpu_num a) v.
End Namespace.

(** One occurrence on the command line, as argparse splits the words:
    a declared option with the word it consumes, the [--no_cuda] switch,
    [-h], or a word that no declared option consumes. *)
Inductive Arg :=
| ArgData (v : string)
| ArgBatchSize (v : string)
| ArgTestBatchSize (v : string)
| ArgEpochs (v : string)
| ArgLr (v : string)
| ArgNoCuda
| ArgGpuNum (v : string)
| ArgModel (v : string)
| ArgHelp
| ArgExtra (word : string).

(** ** [train] (lines 87-108) and [test] (lines 110-129) *)

Section Loops.
Context `{B : Backend}.

(** The variables of the training loop. *)
Record TrainLoop := MkTrainLoop {
  loop_model : Model;
  loop_optimizer : Optimizer;
  training_loss_sum : Q;
  processed_samples : Z;
  pbar : list Event
}.

(** One iteration of [for batch_idx, (data, target) in enumerate(train_loader)];
    [n_batches] is [len(train_loader)].  Moving a tensor to the device does
    not change its content. *)
Definition train_batch (device : Device) (criterion : Reduction) (n_batches : Z)
    (st : TrainLoop) (it : Z * (list Image * list Z)) : TrainLoop :=
  let '(batch_idx, (data, target)) := it in
  let m0 := zero_grad (loop_model st) in
  let '(output, m1) := call_model m0 data in
  let loss := criterion_apply criterion output target in
  let m2 := loss_backward criterion (weights m0) data target m1 in
  let '(m3, o3) := optimizer_step (loop_optimizer st) m2 in
  let sum := (training_loss_sum st + loss)%Q in
  let processed := processed_samples st + Z.of_nat (length data) in
  if (2000 <? processed) || (batch_idx =? n_batches - 1) then
    MkTrainLoop m3 o3 sum 0
      (pbar st ++ [EPbarUpdate processed;
                   EPbarPostfix (loss / inject_Z (Z.of_nat (length data)))%Q])
  else
    MkTrainLoop m3 o3 sum processed (pbar st).

Definition train_loop (device : Device) (criterion : Reduction) (n_batches : Z)
    (model : Model) (optimizer : Optimizer) (batches : list (list Image * list Z))
    : TrainLoop :=
  fold_left (train_batch device criterion n_batches) (enumerate batches)
            (MkTrainLoop model optimizer 0%Q 0 []).

Definition train (args : Namespace.t) (model : Model) (device : Device)
    (train_loader : DataLoader) (optimizer : Optimizer) (criterion : Reduction)
    (epoch : Z) : M (Model * Optimizer) :=
  let model := set_training true model in
  let* batches := iterate train_loader in
  let st := train_loop device criterion (len_loader train_loader) model optimizer batches in
  let* _ := emit (pbar st) in
  if len_dataset train_loader =? 0 then raise ZeroDivisionError
  else
    let* _ := emit [EPbarPostfix (training_loss_sum st / inject_Z (len_dataset train_loader))%Q;
                    EPrintTrainTime] in
    ret (loop_model st, loop_optimizer st).

(** The variables of the evaluation loop. *)
Record TestLoop := MkTestLoop {
  eval_model : Model;
  test_loss : Q;
  correct : Z
}.

(** One iteration of [for data, target in test_loader], under
    [torch.no_grad()]. *)
Definition test_batch (device : Device) (criterion : Reduction)
    (st : TestLoop) (b : list Image * list Z) : TestLoop :=
  let '(data, target) := b in
  let '(output, m1) := call_model (eval_model st) data in
  MkTestLoop m1
    (test_loss st + criterion_apply criterion output target)%Q
    (correct st + count_correct output target).

Definition test_loop (device : Device) (criterion : Reduction) (model : Model)
    (batches : list (list Image * list Z)) : TestLoop :=
  fold_left (test_batch device criterion) batches (MkTestLoop model 0%Q 0).

Definition test (model : Model) (device : Device) (test_loader : DataLoader)
    (criterion : Reduction) : M Model :=
  let model := set_training false model in
  let* batches := iterate test_loader in
  let st := test_loop device criterion model batches in
  if len_dataset test_loader =? 0 then raise ZeroDivisionError
  else
    let n := len_dataset test_loader in
    let* _ := emit [EPrintTest (test_loss st / inject_Z n)%Q (correct st) n
                               (100 * inject_Z (correct st) / inject_Z n)%Q;
                    EPrintTestTime] in
    ret (eval_model st).

End Loops.

(** ** [main] (lines 132-208) *)

Section Main.
Context `{B : Backend}.

(** The defaults of the [add_argument] declarations; [data] has none. *)
Definition defaults : Namespace.t :=
  Namespace.Mk None 128 1000 10 (1 # 10) false "0" "resnet18".

(** The action argparse takes at one occurrence: convert with the
    declared [type], check the declared [choices], store.  Words that no
    option consumes are collected and reported at the end. *)
Definition take_action (acc : Namespace.t * list string) (a : Arg)
    : Res (Namespace.t * list string) :=
  let '(ns, extras) := acc in
  match a with
  | ArgData v => Ret (Namespace.set_data v ns, extras)
  | ArgBatchSize v =>
      match py_int v with
      | Some n => Ret (Namespace.set_batch_size n ns, extras)
      | None => Raise (ArgparseError (InvalidInt "--batch_size" v))
      end
  | ArgTestBatchSize v =>
      match py_int v with
      | Some n => Ret (Namespace.set_test_batch_size n ns, extras)
      | None => Raise (ArgparseError (InvalidInt "--test_batch_size" v))
      end
  | ArgEpochs v =>
      match py_int v with
      | Some n => Ret (Namespace.set_epochs n ns, extras)
      | None => Raise (ArgparseError (InvalidInt "--epochs" v))
      end
  | ArgLr v =>
      match py_float v with
      | Some r => Ret (Namespace.set_lr r ns, extras)
      | None => Raise (ArgparseError (InvalidFloat "--lr" v))
      end
  | ArgNoCuda => Ret (Namespace.set_no_cuda true ns, extras)
  | ArgGpuNum v => Ret (Namespace.set_gpu_num v ns, extras)
  | ArgModel v =>
      if existsb (String.eqb v) (dict_keys MODEL_MAP)
      then Ret (Namespace.set_model v ns, extras)
      else Raise (ArgparseError (InvalidChoice "--model" v (dict_keys MODEL_MAP)))
  | ArgHelp => Raise HelpExit
  | ArgExtra w => Ret (ns, extras ++ [w])
  end.

Fixpoint consume (acc : Namespace.t * list string) (argv : list Arg)
    : Res (Namespace.t * list string) :=
  match argv with
  | [] => Ret acc
  | a :: argv' =>
      match take_action acc a with
      | Ret acc' => consume acc' argv'
      | Raise e => Raise e
      end
  end.

(** [parser.parse_args()]: the occurrences in order, then the required
    options, then the words left over. *)
Definition parse_args (argv : list Arg) : Res Namespace.t :=
  match consume (defaults, []) argv with
  | Raise e => Raise e
  | Ret (ns, extras) =>
      match Namespace.data ns with
      | None => Raise (ArgparseError (RequiredMissing ["--data"]))
      | Some _ =>
          match extras with
          | [] => Ret ns
          | _ :: _ => Raise (ArgparseError (Unrecognized extras))
          end
      end
  end.

Definition lift {A} (r : Res A) : M A := fun p => (r, p).

(** Whether a run returned, rather than raised. *)
Definition succeeded {A} (x : Res A * Proc) : bool :=
  match fst x with
  | Ret _ => true
  | Raise _ => false
  end.

(** The exception a run ended with, if it raised. *)
Definition raised {A} (x : Res A * Proc) : option Exn :=
  match fst x with
  | Ret _ => None
  | Raise e => Some e
  end.

(** What the run finds on the machine: whether torch sees an accelerator
    under the environment variables in force, and the image folders
    ([None] for a root that does not exist, otherwise the images found
    under it with their class indices, possibly none). *)
Record World := MkWorld {
  cuda_is_available : gmap string string -> bool;
  image_folder : string -> option (list (Raw * Z))
}.

(** [os.path.join(a, b)] for a relative [b]. *)
Definition path_join (a b : string) : string :=
  if String.eqb a "" then b
  else if String.eqb (String.substring (String.length a - 1)%nat 1%nat a) "/"
       then String.append a b
       else String.append a (String.append "/" b).

(** [datasets.ImageFolder(root, tf)].  torchvision refuses at construction
    a root that does not exist and a root under which it finds no image
    (FileNotFoundError for both since torchvision 0.10; older versions
    report the second as a RuntimeError), so a dataset that is built holds
    at least one sample. *)
Definition ImageFolder (W : World) (root : string) (tf : list Transform) : M Dataset :=
  let* _ := emit [EImageFolder root tf] in
  match image_folder W root with
  | Some (x :: l) => ret (MkDataset (x :: l) tf)
  | Some [] | None => raise (FileNotFoundError root)
  end.

(** The four seeding calls (lines 158-161).  [torch.manual_seed] seeds
    the generators of all devices. *)
Definition seed_source (src : Source) (v : Z) (g : RngState Rng) : RngState Rng :=
  match src with
  | TorchCpu => MkRngState (seed_gen TorchCpu v) (seed_gen TorchCuda v) (py_random g) (np_random g)
  | TorchCuda => MkRngState (torch_cpu g) (seed_gen TorchCuda v) (py_random g) (np_random g)
  | PyRandom => MkRngState (torch_cpu g) (torch_cuda g) (seed_gen PyRandom v) (np_random g)
  | NumpyRandom => MkRngState (torch_cpu g) (torch_cuda g) (py_random g) (seed_gen NumpyRandom v)
  end.

Definition seed (src : Source) (v : Z) : M unit :=
  let* _ := emit [ESeed src v] in
  with_rng (fun g => (tt, seed_source src v g)).

Definition cuda_kwargs : gmap string KwVal :=
  <["num_workers" := KInt 2]> (<["pin_memory" := KBool true]> (<["shuffle" := KBool true]> ∅)).

(** [d.update(u)]: the entries of [u] win. *)
Definition dict_update (d u : gmap string KwVal) : gmap string KwVal := u ∪ d.

Definition normalize : Transform :=
  Normalize [485 # 1000; 456 # 1000; 406 # 1000] [229 # 1000; 224 # 1000; 225 # 1000].

Definition train_transforms : list Transform :=
  [RandomResizedCrop 224; RandomHorizontalFlip; ToTensor; normalize].

Definition test_transforms : list Transform :=
  [Resize 256; CenterCrop 224; ToTensor; normalize].

(** The objects [main] has built when the epoch loop starts, and the ones
    the loop rebinds or mutates. *)
Record Run := MkRun {
  run_args : Namespace.t;
  run_device : Device;
  run_train_loader : DataLoader;
  run_test_loader : DataLoader;
  run_model : Model;
  run_criterion : Reduction;
  run_optimizer : Optimizer;
  run_scheduler : StepLR
}.

(** Lines 149-153. *)
Definition use_cuda_of (W : World) (args : Namespace.t) (env : gmap string string) : bool :=
  negb (Namespace.no_cuda args) && cuda_is_available W env.

(** Lines 167-174: the keyword arguments of the two loaders; the
    accelerator's entries are added to both. *)
Definition train_kwargs_of (use_cuda : bool) (args : Namespace.t) : gmap string KwVal :=
  let train_kwargs : gmap string KwVal := {["batch_size" := KInt (Namespace.batch_size args)]} in
  if use_cuda then dict_update train_kwargs cuda_kwargs else train_kwargs.

Definition test_kwargs_of (use_cuda : bool) (args : Namespace.t) : gmap string KwVal :=
  let test_kwargs : gmap string KwVal := {["batch_size" := KInt (Namespace.test_batch_size args)]} in
  if use_cuda then dict_update test_kwargs cuda_kwargs else test_kwargs.

(** Lines 149-161: the environment variables, the device choice, the
    cudnn flags and the seeds.  The value is [use_cuda]. *)
Definition configure (W : World) (args : Namespace.t) : M bool :=
  let* _ := setenv "CUDA_DEVICE_ORDER" "PCI_BUS_ID" in
  let* _ := setenv "CUDA_VISIBLE_DEVICES" (Namespace.gpu_num args) in
  let* env := get_environ in
  let use_cuda := use_cuda_of W args env in
  let* _ := set_cudnn_deterministic true in
  let* _ := set_cudnn_benchmark false in
  let* _ := seed TorchCpu 42 in
  let* _ := seed TorchCuda 42 in
  let* _ := seed PyRandom 42 in
  let* _ := seed NumpyRandom 42 in
  ret use_cuda.

(** Lines 163-202: the banner, the datasets and loaders, the model, the
    criterion, the optimizer and the scheduler. *)
Definition build (W : World) (args : Namespace.t) (use_cuda : bool) : M Run :=
  let device := if use_cuda then Cuda else Cpu in
  let* _ := emit [EPrintDevice device] in
  let* _ := (if use_cuda then
               match py_int (Namespace.gpu_num args) with
               | Some n => emit [EPrintVGA n]
               | None => raise (ValueError "invalid literal for int()")
               end
             else ret tt) in
  let train_kwargs := train_kwargs_of use_cuda args in
  let test_kwargs := test_kwargs_of use_cuda args in
  let* root := (match Namespace.data args with
                | Some d => ret d
                | None => raise (TypeError "expected str, not NoneType")
                end) in
  let* train_set := ImageFolder W (path_join root "train") train_transforms in
  let* test_set := ImageFolder W (path_join root "val") test_transforms in
  let* train_loader := DataLoader_new train_set train_kwargs in
  let* test_loader := DataLoader_new test_set test_kwargs in
  let* cls := (match dict_get MODEL_MAP (Namespace.model args) with
               | Some c => ret c
               | None => raise (KeyError (Namespace.model args))
               end) in
  let* m := construct cls in
  let model := to_device device m in
  let criterion := ReduceSum in
  let* optimizer := Adadelta model (Namespace.lr args) in
  let '(scheduler, optimizer) := StepLR_new optimizer 1 (7 # 10) in
  ret (MkRun args device train_loader test_loader model criterion optimizer scheduler).

(** Lines 149-202, after the arguments are parsed. *)
Definition startup_with (W : World) (args : Namespace.t) : M Run :=
  let* use_cuda := configure W args in
  build W args use_cuda.

Definition startup (W : World) (argv : list Arg) : M Run :=
  let* args := lift (parse_args argv) in
  startup_with W args.

(** The body of [for epoch in range(1, args.epochs + 1)] (lines 205-208). *)
Definition epoch_body (r : Run) (epoch : Z) : M Run :=
  let* _ := emit [EPrintEpoch epoch] in
  let* (model, optimizer) :=
    train (run_args r) (run_model r) (run_device r) (run_train_loader r)
          (run_optimizer r) (run_criterion r) epoch in
  let* model := test model (run_device r) (run_test_loader r) (run_criterion r) in
  let* _ := emit [ESchedulerStep] in
  let '(scheduler, optimizer) := scheduler_step (run_scheduler r) optimizer in
  ret (MkRun (run_args r) (run_device r) (run_train_loader r) (run_test_loader r)
             model (run_criterion r) optimizer scheduler).

Fixpoint for_each {S A} (body : S -> A -> M S) (l : list A) (s : S) : M S :=
  match l with
  | [] => ret s
  | a :: l' => let* s' := body s a in for_each body l' s'
  end.

Definition epoch_loop (r : Run) : M Run :=
  for_each epoch_body (py_range 1 (Namespace.epochs (run_args r) + 1)) r.

(** [main()]; the value returned is the state of the objects at exit. *)
Definition main (W : World) (argv : list Arg) : M Run :=
  let* r := startup W argv in
  epoch_loop r.

End Main.

(** ** Observations on the log, and the progress policy as stated

    [spec_flushes pending lens] follows the words of the progress policy:
    walking the batch sizes [lens] of an epoch with [pending] samples not
    yet reported, a flush happens exactly when the pending count exceeds
    2000 or the batch is the last one; it reports the pending count and
    resets it to zero. *)
Fixpoint spec_flushes (pending : Z) (lens : list Z) : list Z :=
  match lens with
  | [] => []
  | n :: rest =>
      let pending' := pending + n in
      if (2000 <? pending') || (match rest with [] => true | _ :: _ => false end)
      then pending' :: spec_flushes 0 rest
      else spec_flushes pending' rest
  end.

(** The amounts passed to [pbar.update], in order. *)
Definition pbar_updates (evs : list Event) : list Z :=
  omap (fun e => match e with EPbarUpdate n => Some n | _ => None end) evs.

(** The events a computation appended to a log that had [n] entries. *)
Definition appended (n : nat) (evs : list Event) : list Event := drop n evs.

Section Observations.
Context `{B : Backend}.

(** [len(data)] of a batch. *)
Definition batch_len (b : list Image * list Z) : Z := Z.of_nat (length (fst b)).

(** The loss [train_batch] computes for a batch, from the loop state. *)
Definition batch_loss (criterion : Reduction) (st : TrainLoop) (b : list Image * list Z) : Q :=
  criterion_apply criterion (fst (call_model (zero_grad (loop_model st)) (fst b))) (snd b).

(** The per-batch losses of an epoch, each computed as [train_batch]
    computes it, with the weights the loop has reached at that batch. *)
Fixpoint loop_losses (device : Device) (criterion : Reduction) (n_batches : Z)
    (st : TrainLoop) (ibs : list (Z * (list Image * list Z))) : list Q :=
  match ibs with
  | [] => []
  | ib :: rest =>
      batch_loss criterion st (snd ib)
      :: loop_losses device criterion n_batches
                     (train_batch device criterion n_batches st ib) rest
  end.

Definition train_losses (model : Model) (device : Device) (L : DataLoader)
    (optimizer : Optimizer) (criterion : Reduction) (g : RngState Rng) : list Q :=
  loop_losses device criterion (len_loader L)
              (MkTrainLoop (set_training true model) optimizer 0%Q 0 [])
              (enumerate (batches_of L (fst (sample_stream L g)))).

(** The loss of one sample under a per-sample forward pass [row]. *)
Definition sample_loss (row : Weights -> Image -> Logits) (w : Weights)
    (xy : Image * Z) : Q :=
  cross_entropy (row w (fst xy)) (snd xy).

(** The per-batch losses of an evaluation pass with weights [w], and the
    number of rows of the pass whose arg-max is the row's label. *)
Definition eval_losses (criterion : Reduction) (w : Weights)
    (batches : list (list Image * list Z)) : list Q :=
  map (fun b => criterion_apply criterion (forward_eval w (fst b)) (snd b)) batches.

Definition eval_rows (w : Weights) (batches : list (list Image * list Z))
    : list (Logits * Z) :=
  concat (map (fun b => combine (forward_eval w (fst b)) (snd b)) batches).

Definition eval_hits (w : Weights) (batches : list (list Image * list Z)) : Z :=
  Z.of_nat (length (filter (fun ot => argmax (fst ot) =? snd ot) (eval_rows w batches))).

(** The device and the shuffle flags of the two loaders of a startup that
    returned. *)
Definition loader_flags (x : Res Run * Proc) : option (Device * bool * bool) :=
  match fst x with
  | Ret r => Some (run_device r, shuffle (run_train_loader r), shuffle (run_test_loader r))
  | Raise _ => None
  end.

(** The environment after lines 149-150. *)
Definition configured_environ (args : Namespace.t) (env : gmap string string)
    : gmap string string :=
  <["CUDA_VISIBLE_DEVICES" := Namespace.gpu_num args]>
    (<["CUDA_DEVICE_ORDER" := "PCI_BUS_ID"]> env).

(** The generators after the seeding calls of lines 158-161. *)
Definition seeded_rng : RngState Rng :=
  MkRngState (seed_gen TorchCpu 42) (seed_gen TorchCuda 42)
             (seed_gen PyRandom 42) (seed_gen NumpyRandom 42).

(** [n] calls of [scheduler.step()] in a row. *)
Fixpoint steps (n : nat) (so : StepLR * Optimizer) : StepLR * Optimizer :=
  match n with
  | O => so
  | S n' => let so' := steps n' so in scheduler_step (fst so') (snd so')
  end.

(** Every event a computation appends to the log satisfies [P]. *)
Definition logs {A} (P : Event -> Prop) (m : M A) : Prop :=
  forall p : Proc, exists evs : list Event,
    log (snd (m p)) = log p ++ evs /\ Forall P evs.

End Observations.

(** The events of lines 149-202, and the events of the epoch loop. *)
Definition is_startup_event (e : Event) : bool :=
  match e with
  | ESeed _ _ | EPrintDevice _ | EPrintVGA _ | EImageFolder _ _
  | EDataLoader _ _ _ _ | EHubLoad _ => true
  | _ => false
  end.

Definition is_seed (e : Event) : bool :=
  match e with ESeed _ _ => true | _ => false end.

Definition is_scheduler_step (e : Event) : bool :=
  match e with ESchedulerStep => true | _ => false end.

Definition is_epoch_banner (e : Event) : bool :=
  match e with EPrintEpoch _ => true | _ => false end.

(** What [train] and [test] print. *)
Definition is_report_event (e : Event) : bool :=
  match e with
  | EPbarUpdate _ | EPbarPostfix _ | EPrintTrainTime
  | EPrintTest _ _ _ _ | EPrintTestTime => true
  | _ => false
  end.

Definition startup_only (e : Event) : Prop :=
  is_startup_event e = true /\ is_seed e = false.

Definition count_events (f : Event -> bool) (evs : list Event) : nat :=
  length (filter (fun e => f e = true) evs).

(** The seeding calls of lines 158-161, as logged. *)
Definition seed_events : list Event :=
  [ESeed TorchCpu 42; ESeed TorchCuda 42; ESeed PyRandom 42; ESeed NumpyRandom 42].

(** The last value shown in the progress bar's postfix. *)
Definition postfix_values (evs : list Event) : list Q :=
  omap (fun e => match e with EPbarPostfix q => Some q | _ => None end) evs.

Definition reported_loss (evs : list Event) : option Q := last (postfix_values evs).

(** ** Further observations on runs *)

Definition Zsum (l : list Z) : Z := fold_right Z.add 0 l.

(** The numbers of the epoch banners, in order. *)
Definition epoch_numbers (evs : list Event) : list Z :=
  omap (fun e => match e with EPrintEpoch n => Some n | _ => None end) evs.

Definition is_pbar_event (e : Event) : bool :=
  match e with EPbarUpdate _ | EPbarPostfix _ => true | _ => false end.

Definition is_train_time (e : Event) : bool :=
  match e with EPrintTrainTime => true | _ => false end.

Definition is_test_summary (e : Event) : bool :=
  match e with EPrintTest _ _ _ _ => true | _ => false end.

Definition is_test_time (e : Event) : bool :=
  match e with EPrintTestTime => true | _ => false end.

Definition is_vga_line (e : Event) : bool :=
  match e with EPrintVGA _ => true | _ => false end.

(** What lines 163-165 print: the device line and, on the accelerator,
    the VGA line with the integer read from [gpu_num]. *)
Definition device_lines (use_cuda : bool) (n : Z) : list Event :=
  if use_cuda then [EPrintDevice Cuda; EPrintVGA n] else [EPrintDevice Cpu].

(** The two image folders of lines 179-194, in the order they are read. *)
Definition folder_events (root : string) : list Event :=
  [EImageFolder (path_join root "train") train_transforms;
   EImageFolder (path_join root "val") test_transforms].

(** A loader of lines 196-197 as it is created with or without the
    accelerator's keyword arguments. *)
Definition loader_event (use_cuda : bool) (bs : Z) : Event :=
  EDataLoader bs use_cuda (if use_cuda then 2 else 0) use_cuda.

(** The exceptions a run can end with: those of the parser, of a library
    constructor refusing a value, of an image folder that is missing or
    holds no image, and of the division by the size of an empty dataset. *)
Definition expected_exn (e : Exn) : bool :=
  match e with
  | KeyError _ | TypeError _ => false
  | _ => true
  end.

(** The exceptions of the startup after parsing: a value a library
    constructor (or [int]) refuses, and an image folder that is missing or
    holds no image. *)
Definition build_exn (e : Exn) : Prop :=
  match e with ValueError _ | FileNotFoundError _ => True | _ => False end.

(** The exceptions of the argument parser. *)
Definition parser_exn (e : Exn) : Prop :=
  match e with ArgparseError _ | HelpExit => True | _ => False end.

(** Startup events that are neither seeding calls nor the VGA line. *)
Definition quiet_startup (e : Event) : Prop :=
  is_startup_event e = true /\ is_seed e = false /\ is_vga_line e = false.

(** The words given to each option, by occurrence. *)
Definition sel_data (a : Arg) : option string :=
  match a with ArgData v => Some v | _ => None end.
Definition sel_batch_size (a : Arg) : option string :=
  match a with ArgBatchSize v => Some v | _ => None end.
Definition sel_test_batch_size (a : Arg) : option string :=
  match a with ArgTestBatchSize v => Some v | _ => None end.
Definition sel_epochs (a : Arg) : option string :=
  match a with ArgEpochs v => Some v | _ => None end.
Definition sel_lr (a : Arg) : option string :=
  match a with ArgLr v => Some v | _ => None end.
Definition sel_gpu_num (a : Arg) : option string :=
  match a with ArgGpuNum v => Some v | _ => None end.
Definition sel_model (a : Arg) : option string :=
  match a with ArgModel v => Some v | _ => None end.
Definition is_no_cuda (a : Arg) : bool :=
  match a with ArgNoCuda => true | _ => false end.

(** The words no declared option consumes, in order. *)
Definition extra_words (argv : list Arg) : list string :=
  omap (fun a => match a with ArgExtra w => Some w | _ => None end) argv.

(** The word of the last occurrence of an option, if it occurs. *)
Definition last_word (sel : Arg -> option string) (argv : list Arg) : option string :=
  last (omap sel argv).

Section MoreObservations.
Context `{B : Backend}.

(** Whether torchvision finds an image under [root]. *)
Definition has_images (W : World) (root : string) : bool :=
  match image_folder W root with
  | Some (_ :: _) => true
  | _ => false
  end.

(** An occurrence the parser's action accepts. *)
Definition acceptable (a : Arg) : bool :=
  match a with
  | ArgData _ | ArgNoCuda | ArgGpuNum _ => true
  | ArgBatchSize v | ArgTestBatchSize v | ArgEpochs v =>
      match py_int v with Some _ => true | None => false end
  | ArgLr v => match py_float v with Some _ => true | None => false end
  | ArgModel v => existsb (String.eqb v) (dict_keys MODEL_MAP)
  | ArgHelp => false
  | ArgExtra _ => true
  end.

(** A computation leaves the environment variables and the cudnn flags as
    they are. *)
Definition keeps_settings {A} (m : M A) : Prop :=
  forall p : Proc,
    environ (snd (m p)) = environ p
    /\ cudnn_deterministic (snd (m p)) = cudnn_deterministic p
    /\ cudnn_benchmark (snd (m p)) = cudnn_benchmark p.

(** A computation raises exceptions satisfying [P] only. *)
Definition raises_only {A} (P : Exn -> Prop) (m : M A) : Prop :=
  forall (p : Proc) (e : Exn), fst (m p) = Raise e -> P e.

(** The number of rows of a stream whose arg-max under a per-sample
    forward pass is their label. *)
Definition stream_hits (row : Weights -> Image -> Logits) (w : Weights)
    (stream : list (Image * Z)) : Z :=
  Z.of_nat (length (filter (fun xy => argmax (row w (fst xy)) =? snd xy) stream)).

End MoreObservations.

(** ** A small concrete backend, used to run the script on examples

    One scalar weight [w]; the row for image [x] carries [w] and the
    predicted class [x mod 2], and its loss is [w * w]; a gradient counts
    the rows of the batch; an update moves the weight by [-lr * grad]
    (not at all when the rate is zero).  Words are read as decimal
    integers. *)
Module Toy.

Definition digit (c : Ascii.ascii) : option Z :=
  let n := Z.of_nat (Ascii.nat_of_ascii c) in
  if (48 <=? n) && (n <=? 57) then Some (n - 48) else None.

Fixpoint digits (acc : Z) (s : string) : option Z :=
  match s with
  | EmptyString => Some acc
  | String c s' =>
      match digit c with
      | Some d => digits (10 * acc + d) s'
      | None => None
      end
  end.

Definition int (s : string) : option Z :=
  match s with
  | EmptyString => None
  | String (Ascii.Ascii true false true true false true false false) (String c s') => Z.opp <$> digits 0 (String c s')
  | String _ _ => digits 0 s
  end.

Definition float (s : string) : option Q := inject_Z <$> int s.

Definition source_index (src : Source) : Z :=
  match src with TorchCpu => 0 | TorchCuda => 1 | PyRandom => 2 | NumpyRandom => 3 end.

Definition bump (g : RngState Z) : RngState Z :=
  MkRngState (torch_cpu g + 1) (torch_cuda g) (py_random g) (np_random g).

#[export] Instance backend : Backend := {|
  Rng := Z;
  Raw := Z;
  Image := Z;
  Logits := Q * Z;
  Weights := Q;
  Grads := Q;
  Accum := unit;
  py_int := int;
  py_float := float;
  seed_gen := fun src v => 10 * v + source_index src;
  apply_transforms := fun _ g r => (r, g);
  randperm := fun g l => (rev l, bump g);
  randperm_Permutation := fun g l => Permutation_sym (Permutation_rev l);
  hub_load := fun call g => (inject_Z (torch_cpu g mod 7), bump g);
  forward_train := fun w xs => (map (fun x => (w, x mod 2)) xs, w);
  forward_eval := fun w xs => map (fun x => (w, x mod 2)) xs;
  cross_entropy := fun o y => (fst o * fst o)%Q;
  argmax := fun o => snd o;
  zero_grads := 0%Q;
  backward := fun _ _ xs _ g => (g + inject_Z (Z.of_nat (length xs)))%Q;
  adadelta_init := fun _ => tt;
  adadelta_step := fun rate a g w =>
    (if Qeq_bool rate 0 then w else Qred (w - rate * g)%Q, a)
|}.

(** A machine with one accelerator, visible as device "0", and an image
    folder of five files under every root. *)
Definition world : World := {|
  cuda_is_available := fun env =>
    match env !! "CUDA_VISIBLE_DEVICES" with
    | Some v => String.eqb v "0"
    | None => false
    end;
  image_folder := fun _ => Some [(10, 0); (11, 1); (12, 1); (13, 1); (14, 0)]
|}.

(** The same machine without accelerator. *)
Definition cpu_world : World := {|
  cuda_is_available := fun _ => false;
  image_folder := fun _ => Some [(10, 0); (11, 1); (12, 1); (13, 1); (14, 0)]
|}.

Definition proc (g : Z) : Proc := MkProc ∅ false false (MkRngState g g g g) [].

Definition model (w : Q) : Model :=
  MkModel (init_call ImageNet_Resnet18) w 0%Q true Cpu.

Definition loader (bs : Z) (sh : bool) : DataLoader :=
  MkDataLoader (MkDataset [(10, 0); (11, 1); (12, 1); (13, 1); (14, 0)] train_transforms)
               bs sh 0 false.

Definition optimizer (rate : Q) : Optimizer := MkOptimizer rate tt.

(** A loader over an empty dataset. *)
Definition empty_loader : DataLoader :=
  MkDataLoader (MkDataset [] train_transforms) 2 false 0 false.

(** The forward pass of this backend on one sample. *)
Definition row (w : Q) (x : Z) : Q * Z := (w, x mod 2).

(** The namespace of the command line [--data d --batch_size 0]. *)
Definition bad_batch_args : Namespace.t :=
  Namespace.set_batch_size 0 (Namespace.set_data "d" defaults).

(** The namespace of the command line [--data d --epochs e]. *)
Definition args_of (e : Z) : Namespace.t := Namespace.set_epochs e (Namespace.set_data "d" defaults).

(** The process after one evaluation pass from weight 2. *)
Definition after_test : Proc :=
  snd (test (model 2) Cpu (loader 2 false) ReduceSum (proc 0)).

(** What [train] reports at the end of an epoch on this backend, seen as
    the events it appends to the log. *)
Definition reported (bs : Z) (rate : Q) : option Q :=
  reported_loss
    (appended (length (log (proc 0)))
              (log (snd (train defaults (model 1) Cpu (loader bs false) (optimizer rate)
                               ReduceSum 1 (proc 0))))).

(** The epoch mean [train] reports on this backend, from weight 1, over
    the five samples in dataset order cut into batches of [bs], with
    learning rate [rate]. *)
Definition epoch_mean (bs : Z) (rate : Q) : option Q :=
  reported_loss
    (log (snd (train defaults (model 1) Cpu (loader bs false) (optimizer rate)
                     ReduceSum 1 (proc 0)))).

End Toy.

(** * Properties *)

(** ** Lists: slices, indices, sums *)

Section ListFacts.
Context {A : Type}.

Lemma chunks_fuel_concat (n : nat) : forall (fuel : nat) (l : list A),
  (1 <= n)%nat -> (length l <= fuel)%nat -> concat (chunks_fuel fuel n l) = l.
Proof.
  induction fuel as [|fuel IH]; intros l Hn Hl.
  - destruct l; simpl in *; [reflexivity | lia].
  - destruct l as [|a l]; [reflexivity|].
    cbn [chunks_fuel concat]. rewrite IH; [apply take_drop | assumption |].
    rewrite length_drop. simpl in *. lia.
Qed.

Lemma chunks_concat (n : nat) (l : list A) :
  (1 <= n)%nat -> concat (chunks n l) = l.
Proof. intros Hn. apply chunks_fuel_concat; [assumption | lia]. Qed.

Lemma chunks_fuel_length (n : nat) : forall (fuel : nat) (l : list A),
  (1 <= n)%nat -> (length l <= fuel)%nat ->
  Z.of_nat (length (chunks_fuel fuel n l))
  = (Z.of_nat (length l) + Z.of_nat n - 1) / Z.of_nat n.
Proof.
  induction fuel as [|fuel IH]; intros l Hn Hl.
  - destruct l; simpl in *; [|lia].
    symmetry. apply Z.div_small. lia.
  - destruct l as [|a l].
    + simpl. symmetry. apply Z.div_small. lia.
    + assert (Hm : (1 <= length (a :: l))%nat) by (simpl; lia).
      change (chunks_fuel (S fuel) n (a :: l))
        with (take n (a :: l) :: chunks_fuel fuel n (drop n (a :: l))).
      remember (a :: l) as k eqn:Hk. clear Hk.
      change (length (take n k :: chunks_fuel fuel n (drop n k)))
        with (S (length (chunks_fuel fuel n (drop n k)))).
      rewrite Nat2Z.inj_succ.
      rewrite IH; [|assumption|rewrite length_drop; lia].
      rewrite length_drop.
      destruct (le_lt_dec (length k) n) as [Hle|Hgt].
      * replace (length k - n)%nat with 0%nat by lia.
        rewrite (Z.div_small (Z.of_nat 0 + Z.of_nat n - 1)) by lia.
        apply Z.div_unique with (r := Z.of_nat (length k) - 1); lia.
      * rewrite Nat2Z.inj_sub by lia.
        replace (Z.of_nat (length k) + Z.of_nat n - 1)
          with ((Z.of_nat (length k) - Z.of_nat n + Z.of_nat n - 1) + 1 * Z.of_nat n)
          by lia.
        rewrite Z.div_add by lia. lia.
Qed.

Lemma chunks_length (n : nat) (l : list A) :
  (1 <= n)%nat ->
  Z.of_nat (length (chunks n l)) = (Z.of_nat (length l) + Z.of_nat n - 1) / Z.of_nat n.
Proof. intros Hn. apply chunks_fuel_length; [assumption | lia]. Qed.

End ListFacts.

(** ** The data supply *)

Section SupplyFacts.
Context `{B : Backend}.

Lemma fetch_length (tf : list Transform) : forall (l : list (Raw * Z)) (g : RngState Rng),
  length (fst (fetch tf g l)) = length l.
Proof.
  induction l as [|[r y] l IH]; intros g; [reflexivity|].
  simpl. destruct (apply_transforms tf g r) as [x g1].
  specialize (IH g1). destruct (fetch tf g1 l) as [xs g2]. simpl in *. lia.
Qed.

Lemma fetch_labels (tf : list Transform) : forall (l : list (Raw * Z)) (g : RngState Rng),
  map snd (fst (fetch tf g l)) = map snd l.
Proof.
  induction l as [|[r y] l IH]; intros g; [reflexivity|].
  simpl. destruct (apply_transforms tf g r) as [x g1].
  specialize (IH g1). destruct (fetch tf g1 l) as [xs g2]. simpl in *. congruence.
Qed.

Lemma sample_stream_length (L : DataLoader) (g : RngState Rng) :
  length (fst (sample_stream L g)) = length (samples (dataset L)).
Proof.
  unfold sample_stream. destruct (shuffle L).
  - pose proof (randperm_Permutation g (samples (dataset L))) as HP.
    destruct (randperm g (samples (dataset L))) as [order g1]. simpl in HP.
    rewrite fetch_length. apply Permutation_length. exact HP.
  - apply fetch_length.
Qed.

(** [len(loader)] is the number of batches an iteration yields. *)
Lemma batches_count (L : DataLoader) (g : RngState Rng) :
  0 < batch_size L ->
  Z.of_nat (length (batches_of L (fst (sample_stream L g)))) = len_loader L.
Proof.
  intros Hbs. unfold batches_of, len_loader, len_dataset.
  rewrite length_map, chunks_length by lia.
  rewrite sample_stream_length, Z2Nat.id by lia. reflexivity.
Qed.

(** The batches of an iteration, put end to end, are the sample stream. *)
Lemma batches_cover (L : DataLoader) (stream : list (Image * Z)) :
  0 < batch_size L ->
  concat (map (fun b => combine (fst b) (snd b)) (batches_of L stream)) = stream.
Proof.
  intros Hbs. unfold batches_of. rewrite map_map.
  rewrite <- (chunks_concat (Z.to_nat (batch_size L)) stream) at 2 by lia.
  f_equal. transitivity (map id (chunks (Z.to_nat (batch_size L)) stream));
    [|apply map_id].
  apply map_ext. intros c. unfold collate. simpl.
  induction c as [|[x y] c IH]; simpl; [reflexivity|]. unfold id in *. congruence.
Qed.

End SupplyFacts.

(** ** The training loop *)

Section TrainFacts.
Context `{B : Backend}.

Lemma train_batch_spec (device : Device) (criterion : Reduction) (n_batches : Z)
    (st : TrainLoop) (i : Z) (b : list Image * list Z) :
  let st' := train_batch device criterion n_batches st (i, b) in
  let processed := processed_samples st + batch_len b in
  let flush := (2000 <? processed) || (i =? n_batches - 1) in
  processed_samples st' = (if flush then 0 else processed)
  /\ pbar st' = (if flush
                 then pbar st ++ [EPbarUpdate processed;
                                  EPbarPostfix (batch_loss criterion st b / inject_Z (batch_len b))%Q]
                 else pbar st)
  /\ training_loss_sum st' = (training_loss_sum st + batch_loss criterion st b)%Q
  /\ lr (loop_optimizer st') = lr (loop_optimizer st).
Proof.
  destruct b as [data target]. unfold train_batch, batch_loss, batch_len. simpl fst. simpl snd.
  destruct (call_model (zero_grad (loop_model st)) data) as [output m1]. simpl fst.
  unfold optimizer_step.
  destruct (adadelta_step _ _ _ _) as [w a].
  destruct ((2000 <? processed_samples st + Z.of_nat (length data)) || (i =? n_batches - 1));
    simpl; auto.
Qed.

Lemma pbar_updates_app (l1 l2 : list Event) :
  pbar_updates (l1 ++ l2) = pbar_updates l1 ++ pbar_updates l2.
Proof. apply omap_app. Qed.

(** The loop from batch index [k] on: the flushes it adds are those of the
    stated policy, as long as [n_batches] is the index after the last
    batch. *)
Lemma train_loop_flushes_from (device : Device) (criterion : Reduction) (n_batches : Z) :
  forall (bs : list (list Image * list Z)) (k : nat) (st : TrainLoop),
    n_batches = Z.of_nat (k + length bs) ->
    pbar_updates
      (pbar (fold_left (train_batch device criterion n_batches)
                       (combine (map Z.of_nat (seq k (length bs))) bs) st))
    = pbar_updates (pbar st) ++ spec_flushes (processed_samples st) (map batch_len bs).
Proof.
  induction bs as [|b bs IH]; intros k st Hn.
  - simpl. rewrite app_nil_r. reflexivity.
  - cbn [length seq map combine fold_left spec_flushes].
    destruct (train_batch_spec device criterion n_batches st (Z.of_nat k) b)
      as (Hproc & Hpbar & _ & _).
    rewrite (IH (S k)) by (simpl in Hn; lia).
    rewrite Hproc, Hpbar.
    assert (Hlast : (Z.of_nat k =? n_batches - 1)
                    = match map batch_len bs with [] => true | _ :: _ => false end).
    { destruct bs; simpl in *.
      - apply Z.eqb_eq. lia.
      - apply Z.eqb_neq. lia. }
    rewrite Hlast.
    destruct ((2000 <? processed_samples st + batch_len b)
              || match map batch_len bs with [] => true | _ :: _ => false end).
    + rewrite pbar_updates_app. simpl. rewrite <- app_assoc. reflexivity.
    + reflexivity.
Qed.

Lemma train_loop_flushes (device : Device) (criterion : Reduction) (model : Model)
    (optimizer : Optimizer) (batches : list (list Image * list Z)) :
  pbar_updates (pbar (train_loop device criterion (Z.of_nat (length batches))
                                 model optimizer batches))
  = spec_flushes 0 (map batch_len batches).
Proof.
  unfold train_loop, enumerate.
  rewrite train_loop_flushes_from by reflexivity. reflexivity.
Qed.

(** What a call of [train] does to the process: the generators advance by
    one iteration of the loader, the progress bar's events are printed,
    and the epoch's mean is printed unless the dataset is empty. *)
Lemma train_run (args : Namespace.t) (model : Model) (device : Device)
    (L : DataLoader) (optimizer : Optimizer) (criterion : Reduction) (epoch : Z) (p : Proc) :
  let sg := sample_stream L (rng p) in
  let st := train_loop device criterion (len_loader L) (set_training true model) optimizer
                       (batches_of L (fst sg)) in
  train args model device L optimizer criterion epoch p
  = if len_dataset L =? 0
    then (Raise ZeroDivisionError,
          MkProc (environ p) (cudnn_deterministic p) (cudnn_benchmark p) (snd sg)
                 (log p ++ pbar st))
    else (Ret (loop_model st, loop_optimizer st),
          MkProc (environ p) (cudnn_deterministic p) (cudnn_benchmark p) (snd sg)
                 ((log p ++ pbar st)
                  ++ [EPbarPostfix (training_loss_sum st / inject_Z (len_dataset L))%Q;
                      EPrintTrainTime])).
Proof.
  unfold train, iterate, bind, with_rng, ret, emit, raise. simpl.
  destruct (sample_stream L (rng p)) as [stream g]. simpl.
  destruct (len_dataset L =? 0); reflexivity.
Qed.

End TrainFacts.

Section TrainSum.
Context `{B : Backend}.

Lemma Qsum_app (l1 l2 : list Q) : (Qsum (l1 ++ l2) == Qsum l1 + Qsum l2)%Q.
Proof.
  induction l1 as [|q l1 IH]; simpl.
  - rewrite Qplus_0_l. reflexivity.
  - rewrite IH. apply Qplus_assoc.
Qed.

Lemma Qsum_concat (ls : list (list Q)) : (Qsum (concat ls) == Qsum (map Qsum ls))%Q.
Proof.
  induction ls as [|l ls IH]; simpl; [reflexivity|].
  rewrite Qsum_app, IH. reflexivity.
Qed.

Lemma Qsum_nonneg (l : list Q) : Forall (fun q => (0 <= q)%Q) l -> (0 <= Qsum l)%Q.
Proof.
  induction 1 as [|q l Hq _ IH]; simpl; [apply Qle_refl|].
  replace 0%Q with (0 + 0)%Q by reflexivity. apply Qplus_le_compat; assumption.
Qed.

(** The accumulator of the loop is the sum of the per-batch losses. *)
Lemma train_loop_sum_from (device : Device) (criterion : Reduction) (n_batches : Z) :
  forall (ibs : list (Z * (list Image * list Z))) (st : TrainLoop),
    (training_loss_sum (fold_left (train_batch device criterion n_batches) ibs st)
     == training_loss_sum st + Qsum (loop_losses device criterion n_batches st ibs))%Q.
Proof.
  induction ibs as [|[i b] ibs IH]; intros st.
  - simpl. rewrite Qplus_0_r. reflexivity.
  - cbn [fold_left loop_losses Qsum fold_right]. rewrite IH.
    destruct (train_batch_spec device criterion n_batches st i b) as (_ & _ & Hsum & _).
    rewrite Hsum. simpl snd. symmetry. apply Qplus_assoc.
Qed.

Lemma reported_loss_train (evs : list Event) (q : Q) :
  reported_loss (evs ++ [EPbarPostfix q; EPrintTrainTime]) = Some q.
Proof.
  unfold reported_loss, postfix_values. rewrite omap_app. simpl.
  apply last_snoc.
Qed.

(** The value [train] reports at the end of an epoch. *)
Lemma train_reports (args : Namespace.t) (model : Model) (device : Device)
    (L : DataLoader) (optimizer : Optimizer) (criterion : Reduction) (epoch : Z) (p : Proc) :
  len_dataset L <> 0 ->
  reported_loss
    (appended (length (log p))
              (log (snd (train args model device L optimizer criterion epoch p))))
  = Some (training_loss_sum
            (train_loop device criterion (len_loader L) (set_training true model) optimizer
                        (batches_of L (fst (sample_stream L (rng p)))))
          / inject_Z (len_dataset L))%Q.
Proof.
  intros HN. rewrite train_run. apply Z.eqb_neq in HN. rewrite HN. simpl.
  unfold appended. rewrite <- app_assoc, drop_app_length.
  apply reported_loss_train.
Qed.

End TrainSum.

(** ** An epoch in which the weights stay as they are *)

Section Frozen.
Context `{B : Backend}.
Variable row : Weights -> Image -> Logits.
Variable rate : Q.
Hypothesis forward_per_sample :
  forall (w : Weights) (xs : list Image), forward_train w xs = (map (row w) xs, w).
Hypothesis step_identity :
  forall (a : Accum) (g : Grads) (w : Weights), fst (adadelta_step rate a g w) = w.

Lemma combine_map_l {X Y Z'} (f : X -> Y) : forall (l : list X) (k : list Z'),
  combine (map f l) k = map (fun xy => (f (fst xy), snd xy)) (combine l k).
Proof.
  induction l as [|x l IH]; intros [|y k]; simpl; try reflexivity.
  rewrite IH. reflexivity.
Qed.

Lemma frozen_batch (device : Device) (n_batches : Z) (st : TrainLoop) (i : Z)
    (b : list Image * list Z) (w0 : Weights) :
  weights (loop_model st) = w0 ->
  training (loop_model st) = true ->
  lr (loop_optimizer st) = rate ->
  let st' := train_batch device ReduceSum n_batches st (i, b) in
  weights (loop_model st') = w0
  /\ training (loop_model st') = true
  /\ lr (loop_optimizer st') = rate
  /\ batch_loss ReduceSum st b = Qsum (map (sample_loss row w0) (combine (fst b) (snd b))).
Proof.
  intros Hw Ht Hr. destruct b as [data target].
  unfold batch_loss, train_batch, call_model, zero_grad, loss_backward, optimizer_step.
  cbn [training weights grads hub_call placed_on fst snd].
  rewrite Ht, forward_per_sample. cbn [training weights grads hub_call placed_on fst snd].
  rewrite Hr, Hw.
  pose proof (step_identity (accum (loop_optimizer st))
                (backward ReduceSum w0 data target zero_grads) w0) as Hstep.
  destruct (adadelta_step rate _ _ w0) as [w a]. simpl in Hstep. subst w.
  assert (Hloss : criterion_apply ReduceSum (map (row w0) data) target
                  = Qsum (map (sample_loss row w0) (combine data target))).
  { unfold criterion_apply. rewrite combine_map_l, map_map. reflexivity. }
  destruct ((2000 <? processed_samples st + Z.of_nat (length data)) || (i =? n_batches - 1));
    cbn [loop_model loop_optimizer training weights lr]; auto.
Qed.

Lemma frozen_losses (device : Device) (n_batches : Z) (w0 : Weights) :
  forall (ibs : list (Z * (list Image * list Z))) (st : TrainLoop),
    weights (loop_model st) = w0 ->
    training (loop_model st) = true ->
    lr (loop_optimizer st) = rate ->
    loop_losses device ReduceSum n_batches st ibs
    = map (fun ib => Qsum (map (sample_loss row w0) (combine (fst (snd ib)) (snd (snd ib))))) ibs.
Proof.
  induction ibs as [|[i b] ibs IH]; intros st Hw Ht Hr; [reflexivity|].
  cbn [loop_losses map snd].
  destruct (frozen_batch device n_batches st i b w0 Hw Ht Hr) as (Hw' & Ht' & Hr' & Hloss).
  rewrite Hloss, IH by assumption. reflexivity.
Qed.

Lemma enumerate_snd {X} : forall (l : list X) (k : nat),
  map snd (combine (map Z.of_nat (seq k (length l))) l) = l.
Proof.
  induction l as [|x l IH]; intros k; simpl; [reflexivity|].
  rewrite IH. reflexivity.
Qed.

(** With frozen weights the accumulated loss is the sum of the losses of
    the samples of the stream, however the stream is cut into batches. *)
Lemma frozen_epoch_sum (device : Device) (L : DataLoader) (model : Model)
    (optimizer : Optimizer) (stream : list (Image * Z)) :
  0 < batch_size L ->
  lr optimizer = rate ->
  (training_loss_sum
     (train_loop device ReduceSum (len_loader L) (set_training true model) optimizer
                 (batches_of L stream))
   == Qsum (map (sample_loss row (weights model)) stream))%Q.
Proof.
  intros Hbs Hr. unfold train_loop.
  rewrite train_loop_sum_from. cbn [training_loss_sum]. rewrite Qplus_0_l.
  rewrite (frozen_losses device (len_loader L) (weights model)) by (simpl; auto).
  rewrite <- (batches_cover L stream Hbs) at 2.
  rewrite concat_map, Qsum_concat, !map_map.
  rewrite <- (enumerate_snd (batches_of L stream) 0) at 2.
  unfold enumerate. rewrite map_map. reflexivity.
Qed.

End Frozen.

(** * The claims *)

Section TrainingClaims.
Context `{B : Backend}.

(** C1 (amended).  For every run of the training loop over a non-empty
    dataset, whatever the batch size, the reported end-of-epoch mean is the
    sum of the per-batch sum-reduced losses divided by the number of samples
    of the dataset.  When the weights stay as they are during the epoch (a
    per-sample forward pass that leaves them alone, an optimizer step that
    is the identity), two loaders over the same dataset that differ only in
    batch size report the same mean. *)
Theorem C1_epoch_mean_training_loss
    (args : Namespace.t) (model : Model) (device : Device) (L : DataLoader)
    (optimizer : Optimizer) (epoch : Z) (p : Proc) :
  0 < batch_size L ->
  len_dataset L <> 0 ->
  let reported (L' : DataLoader) :=
    reported_loss
      (appended (length (log p))
                (log (snd (train args model device L' optimizer ReduceSum epoch p)))) in
  (exists v : Q,
      reported L = Some v
      /\ (v == Qsum (train_losses model device L optimizer ReduceSum (rng p))
               / inject_Z (len_dataset L))%Q)
  /\ (forall row : Weights -> Image -> Logits,
        (forall w xs, forward_train w xs = (map (row w) xs, w)) ->
        (forall a g w, fst (adadelta_step (lr optimizer) a g w) = w) ->
        forall L2 : DataLoader,
          dataset L2 = dataset L -> shuffle L2 = shuffle L -> 0 < batch_size L2 ->
          exists v v2 : Q, reported L = Some v /\ reported L2 = Some v2 /\ (v == v2)%Q).
Proof.
  intros Hbs HN reported. split.
  - eexists. split; [apply train_reports; assumption|].
    unfold train_loop, train_losses. rewrite train_loop_sum_from.
    cbn [training_loss_sum]. rewrite Qplus_0_l. reflexivity.
  - intros row Hrow Hstep L2 Hds Hsh Hbs2.
    assert (HN2 : len_dataset L2 <> 0) by (unfold len_dataset in *; rewrite Hds; assumption).
    exists (training_loss_sum
              (train_loop device ReduceSum (len_loader L) (set_training true model) optimizer
                          (batches_of L (fst (sample_stream L (rng p)))))
            / inject_Z (len_dataset L))%Q.
    eexists. split; [apply train_reports; assumption|].
    split; [apply train_reports; assumption|].
    rewrite (frozen_epoch_sum row (lr optimizer) Hrow Hstep device L) by auto.
    rewrite (frozen_epoch_sum row (lr optimizer) Hrow Hstep device L2) by auto.
    assert (Hstream : sample_stream L2 (rng p) = sample_stream L (rng p))
      by (unfold sample_stream; rewrite Hds, Hsh; reflexivity).
    rewrite Hstream. unfold len_dataset. rewrite Hds. reflexivity.
Qed.

(** C8.  During a training epoch the progress bar is flushed exactly when
    the samples processed since the last flush exceed 2000 or the batch is
    the epoch's last one, and a flush resets that count to zero: each
    iteration decides so, and the amounts [train] passes to [pbar.update]
    over an epoch are those of the policy as stated. *)
Theorem C8_progress_flush_policy
    (args : Namespace.t) (model : Model) (device : Device) (L : DataLoader)
    (optimizer : Optimizer) (criterion : Reduction) (epoch : Z) (p : Proc) :
  0 < batch_size L ->
  let batches := batches_of L (fst (sample_stream L (rng p))) in
  (forall (st : TrainLoop) (i : nat) (b : list Image * list Z),
      batches !! i = Some b ->
      let st' := train_batch device criterion (len_loader L) st (Z.of_nat i, b) in
      let pending := processed_samples st + batch_len b in
      (pbar st' <> pbar st <-> (2000 < pending \/ S i = length batches))
      /\ (pbar st' <> pbar st ->
          processed_samples st' = 0
          /\ pbar_updates (pbar st') = pbar_updates (pbar st) ++ [pending])
      /\ (pbar st' = pbar st -> processed_samples st' = pending))
  /\ pbar_updates
       (appended (length (log p))
                 (log (snd (train args model device L optimizer criterion epoch p))))
     = spec_flushes 0 (map batch_len batches).
Proof.
  intros Hbs batches.
  assert (Hcount : len_loader L = Z.of_nat (length batches))
    by (symmetry; apply batches_count; assumption).
  split.
  - intros st i b Hb st' pending.
    destruct (train_batch_spec device criterion (len_loader L) st (Z.of_nat i) b)
      as (Hproc & Hpbar & _ & _).
    fold st' in Hproc, Hpbar. fold pending in Hproc, Hpbar.
    apply lookup_lt_Some in Hb.
    assert (Hcond : (2000 <? pending) || (Z.of_nat i =? len_loader L - 1) = true
                    <-> (2000 < pending \/ S i = length batches)).
    { rewrite orb_true_iff, Z.ltb_lt, Z.eqb_eq. lia. }
    destruct ((2000 <? pending) || (Z.of_nat i =? len_loader L - 1)).
    + assert (Hne : pbar st' <> pbar st).
      { rewrite Hpbar. intros Heq. apply (f_equal length) in Heq.
        rewrite length_app in Heq. simpl in Heq. lia. }
      split; [split; intros; [apply Hcond; reflexivity | exact Hne]|].
      split; [|intros Heq; contradiction].
      intros _. split; [exact Hproc|].
      rewrite Hpbar, pbar_updates_app. reflexivity.
    + split; [split; [intros Hne; contradiction | intros H; apply Hcond in H; discriminate]|].
      split; [intros Hne; contradiction | intros _; exact Hproc].
  - rewrite train_run. unfold appended.
    destruct (len_dataset L =? 0); cbn [snd log].
    + rewrite drop_app_length, Hcount. apply train_loop_flushes.
    + rewrite <- app_assoc, drop_app_length, pbar_updates_app, Hcount.
      rewrite train_loop_flushes. apply app_nil_r.
Qed.

End TrainingClaims.

(** C1 (as stated) fails: on the small backend, from weight 1 with
    learning rate 1, the same five samples give an epoch mean of 3 in
    batches of one and of 1 in a single batch of five. *)
Lemma C1_batch_size_changes_the_mean :
  exists v1 v5 : Q,
    Toy.epoch_mean 1 1 = Some v1 /\ Toy.epoch_mean 5 1 = Some v5
    /\ (v1 == 3)%Q /\ (v5 == 1)%Q /\ ~ (v1 == v5)%Q.
Proof.
  eexists. eexists.
  split; [vm_compute; reflexivity|].
  split; [vm_compute; reflexivity|].
  split; [reflexivity|]. split; [reflexivity|]. intros H. discriminate H.
Qed.

Lemma C1_witness :
  0 < batch_size (Toy.loader 2 false)
  /\ len_dataset (Toy.loader 2 false) <> 0
  /\ (exists v : Q,
         Toy.reported 2 0 = Some v
         /\ (v == Qsum (train_losses (Toy.model 1) Cpu (Toy.loader 2 false)
                                     (Toy.optimizer 0) ReduceSum (rng (Toy.proc 0)))
                  / inject_Z (len_dataset (Toy.loader 2 false)))%Q)
  /\ (exists v v2 : Q,
         Toy.reported 2 0 = Some v /\ Toy.reported 5 0 = Some v2 /\ (v == v2)%Q).
Proof.
  assert (H1 : 0 < batch_size (Toy.loader 2 false)) by reflexivity.
  assert (H2 : len_dataset (Toy.loader 2 false) <> 0) by discriminate.
  destruct (C1_epoch_mean_training_loss defaults (Toy.model 1) Cpu (Toy.loader 2 false)
              (Toy.optimizer 0) 1 (Toy.proc 0) H1 H2) as [Hmean Hsame].
  split; [exact H1|]. split; [exact H2|]. split; [exact Hmean|].
  exact (Hsame (fun w x => (w, x mod 2)) (fun w xs => eq_refl) (fun a g w => eq_refl)
               (Toy.loader 5 false) eq_refl eq_refl eq_refl).
Defined.

Lemma C8_witness :
  0 < batch_size (Toy.loader 2 false)
  /\ pbar_updates
       (appended (length (log (Toy.proc 0)))
                 (log (snd (train defaults (Toy.model 1) Cpu (Toy.loader 2 false)
                                  (Toy.optimizer 1) ReduceSum 1 (Toy.proc 0)))))
     = spec_flushes 0 (map batch_len
                           (batches_of (Toy.loader 2 false)
                                       (fst (sample_stream (Toy.loader 2 false)
                                                           (rng (Toy.proc 0)))))).
Proof.
  assert (H1 : 0 < batch_size (Toy.loader 2 false)) by reflexivity.
  split; [exact H1|].
  apply (C8_progress_flush_policy defaults (Toy.model 1) Cpu (Toy.loader 2 false)
           (Toy.optimizer 1) ReduceSum 1 (Toy.proc 0) H1).
Defined.

Example spec_flushes_small : spec_flushes 0 [2; 2; 1] = [5].
Proof. reflexivity. Qed.

Example spec_flushes_large :
  spec_flushes 0 [1000; 1000; 1000; 1000; 1000; 500] = [3000; 2500].
Proof. reflexivity. Qed.

(** ** The evaluation loop *)

Section TestFacts.
Context `{B : Backend}.

Lemma test_batch_eval (device : Device) (criterion : Reduction) (st : TestLoop)
    (b : list Image * list Z) :
  training (eval_model st) = false ->
  test_batch device criterion st b
  = MkTestLoop (eval_model st)
      (test_loss st + criterion_apply criterion
                        (forward_eval (weights (eval_model st)) (fst b)) (snd b))%Q
      (correct st + count_correct (forward_eval (weights (eval_model st)) (fst b)) (snd b)).
Proof.
  intros Hmode. destruct b as [data target].
  unfold test_batch, call_model. rewrite Hmode. reflexivity.
Qed.

(** In evaluation mode the loop leaves the module as it is and adds up the
    losses and the hits of the batches. *)
Lemma test_loop_eval (device : Device) (criterion : Reduction) :
  forall (batches : list (list Image * list Z)) (st : TestLoop),
    training (eval_model st) = false ->
    let st' := fold_left (test_batch device criterion) batches st in
    eval_model st' = eval_model st
    /\ (test_loss st' == test_loss st
                         + Qsum (eval_losses criterion (weights (eval_model st)) batches))%Q
    /\ correct st' = correct st + eval_hits (weights (eval_model st)) batches.
Proof.
  induction batches as [|b batches IH]; intros st Hmode.
  - simpl. unfold eval_hits, eval_rows. simpl.
    split; [reflexivity|]. split; [rewrite Qplus_0_r; reflexivity | lia].
  - cbn [fold_left]. rewrite (test_batch_eval device criterion st b Hmode).
    match goal with |- context [fold_left _ batches ?s] =>
      destruct (IH s Hmode) as (Hm & Hl & Hc) end.
    cbn [eval_model test_loss correct] in Hm, Hl, Hc.
    split; [exact Hm|]. split.
    + etransitivity; [exact Hl|]. cbn [eval_losses map Qsum fold_right].
      symmetry. apply Qplus_assoc.
    + etransitivity; [exact Hc|]. unfold eval_hits, eval_rows, count_correct.
      cbn [map concat]. rewrite filter_app, length_app. lia.
Qed.

(** What a call of [test] does to the process. *)
Lemma test_run (model : Model) (device : Device) (L : DataLoader)
    (criterion : Reduction) (p : Proc) :
  let sg := sample_stream L (rng p) in
  let st := test_loop device criterion (set_training false model) (batches_of L (fst sg)) in
  let n := len_dataset L in
  test model device L criterion p
  = if n =? 0
    then (Raise ZeroDivisionError,
          MkProc (environ p) (cudnn_deterministic p) (cudnn_benchmark p) (snd sg) (log p))
    else (Ret (eval_model st),
          MkProc (environ p) (cudnn_deterministic p) (cudnn_benchmark p) (snd sg)
                 (log p ++ [EPrintTest (test_loss st / inject_Z n)%Q (correct st) n
                                       (100 * inject_Z (correct st) / inject_Z n)%Q;
                            EPrintTestTime])).
Proof.
  unfold test, iterate, bind, with_rng, ret, emit, raise. simpl.
  destruct (sample_stream L (rng p)) as [stream g]. simpl.
  destruct (len_dataset L =? 0); reflexivity.
Qed.

Lemma test_loop_model (device : Device) (criterion : Reduction) (model : Model)
    (batches : list (list Image * list Z)) :
  eval_model (test_loop device criterion (set_training false model) batches)
  = set_training false model.
Proof.
  unfold test_loop.
  destruct (test_loop_eval device criterion batches
              (MkTestLoop (set_training false model) 0%Q 0) eq_refl) as (Hm & _ & _).
  exact Hm.
Qed.

(** The rows an evaluation pass scores are at most the samples of the
    dataset. *)
Lemma eval_rows_bound (L : DataLoader) (g : RngState Rng) (w : Weights) :
  0 < batch_size L ->
  Z.of_nat (length (eval_rows w (batches_of L (fst (sample_stream L g))))) <= len_dataset L.
Proof.
  intros Hbs. unfold len_dataset. rewrite <- (sample_stream_length L g).
  rewrite <- (chunks_concat (Z.to_nat (batch_size L)) (fst (sample_stream L g))) at 2 by lia.
  unfold batches_of, eval_rows.
  induction (chunks (Z.to_nat (batch_size L)) (fst (sample_stream L g))) as [|c cs IH];
    [simpl; lia|].
  cbn [map concat]. rewrite !length_app.
  assert (Hc : (length (combine (forward_eval w (fst (collate c))) (snd (collate c)))
                <= length c)%nat).
  { rewrite length_combine. unfold collate. simpl. rewrite length_map. lia. }
  lia.
Qed.

End TestFacts.

Section EvaluationClaims.
Context `{B : Backend}.

Lemma criterion_sum_nonneg (output : list Logits) (target : list Z) :
  (forall o t, (0 <= cross_entropy o t)%Q) ->
  (0 <= criterion_apply ReduceSum output target)%Q.
Proof.
  intros Hce. unfold criterion_apply. apply Qsum_nonneg.
  apply Forall_map, Forall_forall. intros ot _. apply Hce.
Qed.

Lemma batches_targets (L : DataLoader) (stream : list (Image * Z)) :
  0 < batch_size L ->
  concat (map snd (batches_of L stream)) = map snd stream.
Proof.
  intros Hbs. unfold batches_of.
  rewrite <- (chunks_concat (Z.to_nat (batch_size L)) stream) at 2 by lia.
  rewrite concat_map, !map_map. reflexivity.
Qed.

(** C6.  An evaluation pass over a non-empty supply prints as mean loss
    the total of the summed batch losses divided by the number of samples,
    which is not negative, and as accuracy the number of samples whose
    arg-max class is their label divided by the number of samples (as a
    percentage), a fraction between 0 and 1. *)
Theorem C6_evaluation_metrics
    (model : Model) (device : Device) (L : DataLoader) (p : Proc) :
  (forall o t, (0 <= cross_entropy o t)%Q) ->
  0 < batch_size L ->
  len_dataset L <> 0 ->
  let batches := batches_of L (fst (sample_stream L (rng p))) in
  let n := len_dataset L in
  let w := weights model in
  exists (m' : Model) (p' : Proc) (avg pct : Q) (hits : Z),
    test model device L ReduceSum p = (Ret m', p')
    /\ appended (length (log p)) (log p') = [EPrintTest avg hits n pct; EPrintTestTime]
    /\ n = Z.of_nat (length (concat (map snd batches)))
    /\ (avg == Qsum (eval_losses ReduceSum w batches) / inject_Z n)%Q
    /\ (0 <= avg)%Q
    /\ hits = eval_hits w batches
    /\ (pct == 100 * (inject_Z hits / inject_Z n))%Q
    /\ (0 <= inject_Z hits / inject_Z n <= 1)%Q.
Proof.
  intros Hce Hbs HN batches n w.
  assert (Hn : 0 < n) by (unfold n, len_dataset in *; lia).
  assert (HnQ : (0 < inject_Z n)%Q)
    by (change 0%Q with (inject_Z 0); rewrite <- Zlt_Qlt; exact Hn).
  destruct (test_loop_eval device ReduceSum batches
              (MkTestLoop (set_training false model) 0%Q 0) eq_refl) as (Hm & Hl & Hc).
  cbn [eval_model test_loss correct set_training weights] in Hm, Hl, Hc.
  fold (test_loop device ReduceSum (set_training false model) batches) in Hm, Hl, Hc.
  fold w in Hl, Hc.
  assert (Hhits : 0 <= eval_hits w batches <= n).
  { split; [unfold eval_hits; lia|].
    unfold eval_hits. etransitivity; [|apply (eval_rows_bound L (rng p) w Hbs)].
    apply inj_le. apply length_filter. }
  eexists. eexists. eexists. eexists. exists (eval_hits w batches).
  split.
  { rewrite test_run. apply Z.eqb_neq in HN. rewrite HN. fold batches.
    rewrite Hc. reflexivity. }
  cbn [log]. unfold appended. rewrite drop_app_length.
  split; [rewrite Z.add_0_l; reflexivity|].
  split.
  { unfold batches. rewrite batches_targets by assumption.
    rewrite length_map, sample_stream_length. reflexivity. }
  assert (Hsum : (0 <= Qsum (eval_losses ReduceSum w batches))%Q).
  { apply Qsum_nonneg. unfold eval_losses. apply Forall_map, Forall_forall.
    intros b _. apply criterion_sum_nonneg. exact Hce. }
  split; [rewrite Hl, Qplus_0_l; reflexivity|].
  split.
  { rewrite Hl, Qplus_0_l. apply Qle_shift_div_l; [exact HnQ|].
    rewrite Qmult_0_l. exact Hsum. }
  split; [reflexivity|].
  split.
  { unfold Qdiv. rewrite Qmult_assoc. reflexivity. }
  split.
  - apply Qle_shift_div_l; [exact HnQ|]. rewrite Qmult_0_l.
    change 0%Q with (inject_Z 0). rewrite <- Zle_Qle. lia.
  - apply Qle_shift_div_r; [exact HnQ|]. rewrite Qmult_1_l.
    rewrite <- Zle_Qle. lia.
Qed.

(** C5.  An evaluation pass that returns leaves the weights and the
    gradients of the model as they were, whatever the loader and whatever
    it draws from the generators: only the mode flag is set to evaluation.
    A second pass right after the first therefore returns the same model
    again, and when it is given the same supply as the first it prints
    the same mean loss and the same accuracy. *)
Theorem C5_evaluation_has_no_effect_on_the_model
    (model : Model) (device : Device) (L : DataLoader) (criterion : Reduction)
    (p p1 : Proc) (m1 : Model) :
  test model device L criterion p = (Ret m1, p1) ->
  weights m1 = weights model
  /\ grads m1 = grads model
  /\ m1 = set_training false model
  /\ exists p2 : Proc,
       test m1 device L criterion p1 = (Ret m1, p2)
       /\ (fst (sample_stream L (rng p1)) = fst (sample_stream L (rng p)) ->
           appended (length (log p1)) (log p2) = appended (length (log p)) (log p1)).
Proof.
  intros Hrun. rewrite test_run in Hrun.
  destruct (len_dataset L =? 0) eqn:HN; [discriminate|].
  injection Hrun as Hm Hp. rewrite test_loop_model in Hm. subst m1.
  split; [reflexivity|]. split; [reflexivity|]. split; [reflexivity|].
  eexists. split.
  - rewrite test_run, HN. rewrite !test_loop_model. reflexivity.
  - intros Hsame. subst p1. cbn [log rng] in *. rewrite Hsame.
    unfold appended. rewrite !drop_app_length. reflexivity.
Qed.

End EvaluationClaims.

Lemma C6_witness :
  exists (m' : Model) (p' : Proc) (avg pct : Q) (hits : Z),
    test (Toy.model 2) Cpu (Toy.loader 2 false) ReduceSum (Toy.proc 0) = (Ret m', p')
    /\ log p' = [EPrintTest avg hits 5 pct; EPrintTestTime]
    /\ (avg == 4)%Q /\ hits = 4 /\ (pct == 80)%Q
    /\ (0 <= inject_Z hits / inject_Z 5 <= 1)%Q.
Proof.
  assert (Hce : forall (o : @Logits Toy.backend) (t : Z),
             (0 <= @cross_entropy Toy.backend o t)%Q).
  { intros [[n d] c] t. unfold Qle. simpl. nia. }
  assert (H1 : 0 < batch_size (Toy.loader 2 false)) by reflexivity.
  assert (H2 : len_dataset (Toy.loader 2 false) <> 0) by discriminate.
  destruct (C6_evaluation_metrics (Toy.model 2) Cpu (Toy.loader 2 false) (Toy.proc 0)
              Hce H1 H2)
    as (m' & p' & avg & pct & hits & Hrun & Hlog & _ & Havg & _ & Hhits & Hpct & Hacc).
  exists m', p', avg, pct, hits.
  split; [exact Hrun|]. split; [exact Hlog|].
  split; [rewrite Havg; reflexivity|].
  split; [rewrite Hhits; reflexivity|].
  split; [rewrite Hpct, Hhits; reflexivity|]. exact Hacc.
Defined.

Lemma C5_witness :
  test (Toy.model 2) Cpu (Toy.loader 2 false) ReduceSum (Toy.proc 0)
  = (Ret (set_training false (Toy.model 2)), Toy.after_test)
  /\ weights (set_training false (Toy.model 2)) = weights (Toy.model 2)
  /\ grads (set_training false (Toy.model 2)) = grads (Toy.model 2)
  /\ exists p2 : Proc,
       test (set_training false (Toy.model 2)) Cpu (Toy.loader 2 false) ReduceSum
            Toy.after_test
       = (Ret (set_training false (Toy.model 2)), p2)
       /\ appended (length (log Toy.after_test)) (log p2) = log Toy.after_test.
Proof.
  assert (H1 : test (Toy.model 2) Cpu (Toy.loader 2 false) ReduceSum (Toy.proc 0)
               = (Ret (set_training false (Toy.model 2)), Toy.after_test))
    by reflexivity.
  assert (H2 : fst (sample_stream (Toy.loader 2 false) (rng Toy.after_test))
               = fst (sample_stream (Toy.loader 2 false) (rng (Toy.proc 0))))
    by reflexivity.
  destruct (C5_evaluation_has_no_effect_on_the_model (Toy.model 2) Cpu (Toy.loader 2 false)
              ReduceSum (Toy.proc 0) Toy.after_test (set_training false (Toy.model 2)) H1)
    as (Hw & Hg & _ & p2 & Hagain & Hprints).
  exact (conj H1 (conj Hw (conj Hg (ex_intro _ p2 (conj Hagain (Hprints H2)))))).
Defined.

(** ** The monad and the log *)

Section MonadFacts.
Context `{B : Backend}.

Lemma bind_Ret_inv {A C} (m : M A) (k : A -> M C) (p p' : Proc) (c : C) :
  bind m k p = (Ret c, p') ->
  exists (a : A) (p1 : Proc), m p = (Ret a, p1) /\ k a p1 = (Ret c, p').
Proof.
  unfold bind. destruct (m p) as [[a|e] p1]; intros H; [eauto | discriminate].
Qed.

Lemma bind_run {A C} (m : M A) (k : A -> M C) (p p1 : Proc) (a : A) :
  m p = (Ret a, p1) -> bind m k p = k a p1.
Proof. intros H. unfold bind. rewrite H. reflexivity. Qed.

Lemma seed_run (src : Source) (v : Z) (p : Proc) :
  seed src v p
  = (Ret tt, MkProc (environ p) (cudnn_deterministic p) (cudnn_benchmark p)
                    (seed_source src v (rng p)) (log p ++ [ESeed src v])).
Proof. reflexivity. Qed.

Lemma logs_ret {A} (P : Event -> Prop) (a : A) : logs P (ret a).
Proof. intros p. exists []. simpl. rewrite app_nil_r. auto. Qed.

Lemma logs_raise {A} (P : Event -> Prop) (e : Exn) : logs P (@raise _ A e).
Proof. intros p. exists []. simpl. rewrite app_nil_r. auto. Qed.

Lemma logs_lift {A} (P : Event -> Prop) (r : Res A) : logs P (lift r).
Proof. intros p. exists []. simpl. rewrite app_nil_r. auto. Qed.

Lemma logs_emit (P : Event -> Prop) (evs : list Event) : Forall P evs -> logs P (emit evs).
Proof. intros H p. exists evs. simpl. auto. Qed.

Lemma logs_with_rng {A} (P : Event -> Prop) (f : RngState Rng -> A * RngState Rng) :
  logs P (with_rng f).
Proof.
  intros p. exists []. unfold with_rng. destruct (f (rng p)). simpl.
  rewrite app_nil_r. auto.
Qed.

Lemma logs_bind {A C} (P : Event -> Prop) (m : M A) (k : A -> M C) :
  logs P m -> (forall a, logs P (k a)) -> logs P (bind m k).
Proof.
  intros Hm Hk p. unfold bind. destruct (Hm p) as (e1 & H1 & HP1).
  destruct (m p) as [[a|e] p1]; simpl in *.
  - destruct (Hk a p1) as (e2 & H2 & HP2). exists (e1 ++ e2).
    rewrite H2, H1, app_assoc. split; [reflexivity | apply Forall_app; auto].
  - exists e1. auto.
Qed.

Lemma logs_weaken {A} (P P' : Event -> Prop) (m : M A) :
  (forall e, P e -> P' e) -> logs P m -> logs P' m.
Proof.
  intros HPP Hm p. destruct (Hm p) as (evs & H & HP). exists evs.
  split; [exact H | eapply Forall_impl; eauto].
Qed.

Lemma logs_for_each {S A} (P : Event -> Prop) (body : S -> A -> M S) :
  (forall s a, logs P (body s a)) -> forall (l : list A) (s : S), logs P (for_each body l s).
Proof.
  intros Hbody. induction l as [|a l IH]; intros s; simpl.
  - apply logs_ret.
  - apply logs_bind; [apply Hbody | intros s'; apply IH].
Qed.

Lemma emit_then_logs {A} (P : Event -> Prop) (evs : list Event) (k : unit -> M A)
    (p : Proc) :
  logs P (k tt) ->
  exists rest : list Event,
    log (snd (bind (emit evs) k p)) = log p ++ evs ++ rest /\ Forall P rest.
Proof.
  intros Hk. unfold bind, emit.
  match goal with |- context [k tt ?q] => destruct (Hk q) as (rest & Hlog & Hrest) end.
  exists rest. cbn [log] in Hlog. rewrite Hlog, <- app_assoc. auto.
Qed.

Lemma appended_app (l evs : list Event) : appended (length l) (l ++ evs) = evs.
Proof. apply drop_app_length. Qed.

End MonadFacts.

(** Decompose a computation into its steps to bound what it logs. *)
Ltac logs_steps :=
  repeat first
    [ apply logs_ret
    | apply logs_raise
    | apply logs_lift
    | apply logs_with_rng
    | apply logs_emit; repeat constructor
    | apply logs_bind; [|intros ?]
    | match goal with
      | |- logs _ (match ?x with _ => _ end) => destruct x
      | |- logs _ (if ?x then _ else _) => destruct x
      end ].

(** ** Startup: lines 149-202 *)

Section StartupFacts.
Context `{B : Backend}.

(** After lines 149-161 the flags and all four generators are fixed by the
    script alone. *)
Lemma configure_run (W : World) (args : Namespace.t) (p : Proc) :
  configure W args p
  = (Ret (use_cuda_of W args (configured_environ args (environ p))),
     MkProc (configured_environ args (environ p)) true false seeded_rng
            (log p ++ seed_events)).
Proof.
  unfold configure.
  do 5 (unfold bind at 1;
        cbn [setenv get_environ set_cudnn_deterministic set_cudnn_benchmark
             environ cudnn_deterministic cudnn_benchmark rng log]).
  do 4 (rewrite (bind_run _ _ _ _ _ (seed_run _ _ _));
        cbn [environ cudnn_deterministic cudnn_benchmark rng log seed_source
             torch_cpu torch_cuda py_random np_random]).
  unfold ret, configured_environ, seeded_rng, seed_events.
  rewrite <- !app_assoc. reflexivity.
Qed.

Lemma DataLoader_new_run (ds : Dataset) (kw : gmap string KwVal) (n m : Z) (sh pm : bool)
    (p : Proc) :
  kw !! "batch_size" = Some (KInt n) ->
  kw !! "shuffle" = (if sh then Some (KBool true) else None) ->
  kw !! "num_workers" = (if sh then Some (KInt m) else None) ->
  kw !! "pin_memory" = (if pm then Some (KBool true) else None) ->
  DataLoader_new ds kw p
  = if n <=? 0
    then (Raise (ValueError "batch_size should be a positive integer value"), p)
    else (Ret (MkDataLoader ds n sh (if sh then m else 0) pm),
          MkProc (environ p) (cudnn_deterministic p) (cudnn_benchmark p) (rng p)
                 (log p ++ [EDataLoader n sh (if sh then m else 0) pm])).
Proof.
  intros Hbs Hsh Hnw Hpm. unfold DataLoader_new, kw_int, kw_bool.
  rewrite Hbs, Hsh, Hnw, Hpm.
  destruct sh, pm; unfold bind, ret; destruct (n <=? 0); reflexivity.
Qed.

Lemma train_kwargs_lookup (c : bool) (args : Namespace.t) :
  train_kwargs_of c args !! "batch_size" = Some (KInt (Namespace.batch_size args))
  /\ train_kwargs_of c args !! "shuffle" = (if c then Some (KBool true) else None)
  /\ train_kwargs_of c args !! "num_workers" = (if c then Some (KInt 2) else None)
  /\ train_kwargs_of c args !! "pin_memory" = (if c then Some (KBool true) else None).
Proof. destruct c; repeat split; vm_compute; reflexivity. Qed.

Lemma test_kwargs_lookup (c : bool) (args : Namespace.t) :
  test_kwargs_of c args !! "batch_size" = Some (KInt (Namespace.test_batch_size args))
  /\ test_kwargs_of c args !! "shuffle" = (if c then Some (KBool true) else None)
  /\ test_kwargs_of c args !! "num_workers" = (if c then Some (KInt 2) else None)
  /\ test_kwargs_of c args !! "pin_memory" = (if c then Some (KBool true) else None).
Proof. destruct c; repeat split; vm_compute; reflexivity. Qed.

Lemma logs_DataLoader_new (ds : Dataset) (kw : gmap string KwVal) :
  logs startup_only (DataLoader_new ds kw).
Proof. unfold DataLoader_new, kw_int, kw_bool. logs_steps. Qed.

(** The banner is the first thing [build] prints; the rest are events of
    the startup, none of them a seeding call. *)
Lemma build_banner (W : World) (args : Namespace.t) (c : bool) (p : Proc) :
  exists rest : list Event,
    log (snd (build W args c p)) = log p ++ EPrintDevice (if c then Cuda else Cpu) :: rest
    /\ Forall startup_only rest.
Proof.
  unfold build. apply (emit_then_logs startup_only). cbv beta.
  apply logs_bind; [logs_steps | intros _].
  apply logs_bind; [logs_steps | intros root].
  apply logs_bind; [unfold ImageFolder; logs_steps | intros train_set].
  apply logs_bind; [unfold ImageFolder; logs_steps | intros test_set].
  apply logs_bind; [apply logs_DataLoader_new | intros train_loader].
  apply logs_bind; [apply logs_DataLoader_new | intros test_loader].
  apply logs_bind; [logs_steps | intros cls].
  apply logs_bind; [unfold construct; logs_steps | intros m].
  apply logs_bind; [unfold Adadelta; logs_steps | intros optimizer].
  destruct (StepLR_new optimizer 1 (7 # 10)) as [scheduler optimizer'].
  apply logs_ret.
Qed.

Lemma logs_build (W : World) (args : Namespace.t) (c : bool) :
  logs startup_only (build W args c).
Proof.
  intros p. destruct (build_banner W args c p) as (rest & Hlog & Hrest).
  eexists. split; [exact Hlog|]. constructor; [split; reflexivity | exact Hrest].
Qed.

Lemma StepLR_new_run (o : Optimizer) (g : Q) :
  StepLR_new o 1 g = (MkStepLR 1 g 0, MkOptimizer (lr o) (accum o)).
Proof. reflexivity. Qed.

(** What [build] has built when it returns. *)
Lemma build_Ret_inv (W : World) (args : Namespace.t) (c : bool) (p p' : Proc) (r : Run) :
  build W args c p = (Ret r, p') ->
  exists (root : string) (train_files test_files : list (Raw * Z)) (cls : ModelClass),
    Namespace.data args = Some root
    /\ image_folder W (path_join root "train") = Some train_files
    /\ image_folder W (path_join root "val") = Some test_files
    /\ dict_get MODEL_MAP (Namespace.model args) = Some cls
    /\ 0 < Namespace.batch_size args
    /\ 0 < Namespace.test_batch_size args
    /\ Qle_bool 0 (Namespace.lr args) = true
    /\ r = MkRun args (if c then Cuda else Cpu)
             (MkDataLoader (MkDataset train_files train_transforms)
                           (Namespace.batch_size args) c (if c then 2 else 0) c)
             (MkDataLoader (MkDataset test_files test_transforms)
                           (Namespace.test_batch_size args) c (if c then 2 else 0) c)
             (MkModel (init_call cls) (fst (hub_load (init_call cls) (rng p)))
                      zero_grads true (if c then Cuda else Cpu))
             ReduceSum
             (MkOptimizer (Namespace.lr args)
                          (adadelta_init (fst (hub_load (init_call cls) (rng p)))))
             (MkStepLR 1 (7 # 10) 0)
    /\ rng p' = snd (hub_load (init_call cls) (rng p)).
Proof.
  intros H. unfold build in H.
  apply bind_Ret_inv in H. destruct H as (u0 & p0 & H0 & H).
  assert (Hr0 : rng p0 = rng p) by (injection H0 as _ <-; reflexivity). clear H0.
  apply bind_Ret_inv in H. destruct H as (u1 & p1 & H1 & H).
  assert (Hr1 : rng p1 = rng p).
  { rewrite <- Hr0. destruct c; [destruct (py_int (Namespace.gpu_num args))|].
    - injection H1 as _ <-. reflexivity.
    - discriminate.
    - injection H1 as _ <-. reflexivity. }
  clear H1 Hr0 p0 u0.
  apply bind_Ret_inv in H. destruct H as (root & p2 & H2 & H).
  destruct (Namespace.data args) as [d|] eqn:Hdata; [|discriminate].
  injection H2 as <- <-.
  apply bind_Ret_inv in H. destruct H as (train_set & p3 & H3 & H).
  unfold ImageFolder in H3. apply bind_Ret_inv in H3. destruct H3 as (u3 & q3 & E3 & H3).
  assert (Hr3 : rng q3 = rng p) by (rewrite <- Hr1; injection E3 as _ <-; reflexivity).
  clear E3. destruct (image_folder W (path_join d "train")) as [[|x3 l3]|] eqn:Htrain;
    [discriminate | | discriminate].
  remember (x3 :: l3) as train_files eqn:Etrain. clear Etrain x3 l3.
  injection H3 as <- <-.
  apply bind_Ret_inv in H. destruct H as (test_set & p4 & H4 & H).
  unfold ImageFolder in H4. apply bind_Ret_inv in H4. destruct H4 as (u4 & q4 & E4 & H4).
  assert (Hr4 : rng q4 = rng p) by (rewrite <- Hr3; injection E4 as _ <-; reflexivity).
  clear E4. destruct (image_folder W (path_join d "val")) as [[|x4 l4]|] eqn:Hval;
    [discriminate | | discriminate].
  remember (x4 :: l4) as test_files eqn:Etest. clear Etest x4 l4.
  injection H4 as <- <-.
  apply bind_Ret_inv in H. destruct H as (train_loader & p5 & H5 & H).
  destruct (train_kwargs_lookup c args) as (K1 & K2 & K3 & K4).
  rewrite (DataLoader_new_run _ _ _ 2 c c _ K1 K2 K3 K4) in H5.
  destruct (Namespace.batch_size args <=? 0) eqn:Hbs; [discriminate|].
  injection H5 as <- <-.
  apply bind_Ret_inv in H. destruct H as (test_loader & p6 & H6 & H).
  destruct (test_kwargs_lookup c args) as (T1 & T2 & T3 & T4).
  rewrite (DataLoader_new_run _ _ _ 2 c c _ T1 T2 T3 T4) in H6.
  destruct (Namespace.test_batch_size args <=? 0) eqn:Htbs; [discriminate|].
  injection H6 as <- <-.
  apply bind_Ret_inv in H. destruct H as (cls & p7 & H7 & H).
  destruct (dict_get MODEL_MAP (Namespace.model args)) as [cls'|] eqn:Hcls; [|discriminate].
  injection H7 as <- <-.
  apply bind_Ret_inv in H. destruct H as (m & p8 & H8 & H).
  unfold construct in H8. apply bind_Ret_inv in H8. destruct H8 as (u8 & q8 & E8 & H8).
  injection E8 as _ <-.
  apply bind_Ret_inv in H8. destruct H8 as (w & q9 & E9 & H8).
  unfold with_rng in E9. cbn [rng environ cudnn_deterministic cudnn_benchmark log] in E9.
  rewrite Hr4 in E9.
  destruct (hub_load (init_call cls') (rng p)) as [w0 g0] eqn:Hhub.
  injection E9 as <- <-. injection H8 as <- <-.
  apply bind_Ret_inv in H. destruct H as (optimizer & p9 & H9 & H).
  unfold Adadelta in H9. cbn [to_device weights] in H9.
  destruct (Qle_bool 0 (Namespace.lr args)) eqn:Hlr; [|discriminate].
  injection H9 as <- <-.
  rewrite StepLR_new_run in H. injection H as <- <-.
  exists d, train_files, test_files, cls'.
  apply Z.leb_gt in Hbs, Htbs.
  rewrite Hhub. cbn [fst snd rng].
  repeat (split; [first [reflexivity | assumption]|]). reflexivity.
Qed.

End StartupFacts.

(** ** The epoch loop: lines 204-208 *)

Section EpochFacts.
Context `{B : Backend}.

Lemma startup_parse_error (W : World) (argv : list Arg) (e : Exn) (p : Proc) :
  parse_args argv = Raise e -> startup W argv p = (Raise e, p).
Proof. intros H. unfold startup, bind, lift. rewrite H. reflexivity. Qed.

Lemma startup_run (W : World) (argv : list Arg) (args : Namespace.t) (p : Proc) :
  parse_args argv = Ret args ->
  startup W argv p
  = build W args (use_cuda_of W args (configured_environ args (environ p)))
          (MkProc (configured_environ args (environ p)) true false seeded_rng
                  (log p ++ seed_events)).
Proof.
  intros H. unfold startup. unfold bind at 1. unfold lift. rewrite H.
  unfold startup_with. apply bind_run. apply configure_run.
Qed.

Lemma train_loop_report (device : Device) (criterion : Reduction) (n_batches : Z) :
  forall (ibs : list (Z * (list Image * list Z))) (st : TrainLoop),
    Forall (fun e => is_report_event e = true) (pbar st) ->
    Forall (fun e => is_report_event e = true)
           (pbar (fold_left (train_batch device criterion n_batches) ibs st))
    /\ lr (loop_optimizer (fold_left (train_batch device criterion n_batches) ibs st))
       = lr (loop_optimizer st).
Proof.
  induction ibs as [|[i b] ibs IH]; intros st Hst; [auto|].
  cbn [fold_left].
  destruct (train_batch_spec device criterion n_batches st i b) as (_ & Hpbar & _ & Hlr).
  destruct (IH (train_batch device criterion n_batches st (i, b))) as [HF Hlr'].
  - rewrite Hpbar. destruct (_ || _); [|exact Hst].
    apply Forall_app. split; [exact Hst | repeat constructor].
  - split; [exact HF | congruence].
Qed.

(** A training epoch keeps the learning rate and prints reports only. *)
Lemma train_Ret_inv (args : Namespace.t) (model : Model) (device : Device)
    (L : DataLoader) (optimizer : Optimizer) (criterion : Reduction) (epoch : Z)
    (p p' : Proc) (m' : Model) (o' : Optimizer) :
  train args model device L optimizer criterion epoch p = (Ret (m', o'), p') ->
  lr o' = lr optimizer
  /\ exists evs : list Event,
       log p' = log p ++ evs /\ Forall (fun e => is_report_event e = true) evs.
Proof.
  intros H. rewrite train_run in H.
  destruct (len_dataset L =? 0); [discriminate|].
  injection H as Hm Ho Hp. subst o' p'.
  destruct (train_loop_report device criterion (len_loader L)
              (enumerate (batches_of L (fst (sample_stream L (rng p)))))
              (MkTrainLoop (set_training true model) optimizer 0%Q 0 []))
    as [HF Hlr]; [constructor|].
  split; [exact Hlr|].
  eexists. cbn [log]. rewrite <- app_assoc. split; [reflexivity|].
  apply Forall_app. split; [exact HF | repeat constructor].
Qed.

Lemma test_Ret_inv (model : Model) (device : Device) (L : DataLoader)
    (criterion : Reduction) (p p' : Proc) (m' : Model) :
  test model device L criterion p = (Ret m', p') ->
  exists evs : list Event,
    log p' = log p ++ evs /\ Forall (fun e => is_report_event e = true) evs.
Proof.
  intros H. rewrite test_run in H.
  destruct (len_dataset L =? 0); [discriminate|].
  injection H as _ <-. eexists. cbn [log]. split; [reflexivity | repeat constructor].
Qed.

(** One pass through the body of the loop: one banner, the reports of
    [train] and [test], one scheduler step. *)
Lemma epoch_body_Ret_inv (r r' : Run) (epoch : Z) (p p' : Proc) :
  epoch_body r epoch p = (Ret r', p') ->
  exists (m' : Model) (o : Optimizer) (evs : list Event),
    lr o = lr (run_optimizer r)
    /\ r' = MkRun (run_args r) (run_device r) (run_train_loader r) (run_test_loader r)
                  m' (run_criterion r)
                  (snd (scheduler_step (run_scheduler r) o))
                  (fst (scheduler_step (run_scheduler r) o))
    /\ log p' = log p ++ EPrintEpoch epoch :: evs ++ [ESchedulerStep]
    /\ Forall (fun e => is_report_event e = true) evs.
Proof.
  intros H. unfold epoch_body in H.
  apply bind_Ret_inv in H. destruct H as (u0 & p0 & H0 & H). injection H0 as _ <-.
  apply bind_Ret_inv in H. destruct H as ([m1 o1] & p1 & H1 & H).
  apply train_Ret_inv in H1. destruct H1 as (Hlr & evs1 & Hlog1 & HF1).
  apply bind_Ret_inv in H. destruct H as (m2 & p2 & H2 & H).
  apply test_Ret_inv in H2. destruct H2 as (evs2 & Hlog2 & HF2).
  apply bind_Ret_inv in H. destruct H as (u3 & p3 & H3 & H). injection H3 as _ <-.
  destruct (scheduler_step (run_scheduler r) o1) as [s' o'] eqn:Hstep.
  injection H as <- <-.
  exists m2, o1, (evs1 ++ evs2). rewrite Hstep. cbn [fst snd log].
  split; [exact Hlr|]. split; [reflexivity|].
  split; [|apply Forall_app; auto].
  rewrite Hlog2, Hlog1. cbn [log]. rewrite <- !app_assoc. reflexivity.
Qed.

Lemma scheduler_step_decay (s : StepLR) (o : Optimizer) :
  step_size s = 1 -> 0 <= last_epoch s ->
  scheduler_step s o
  = (MkStepLR 1 (gamma s) (last_epoch s + 1), MkOptimizer (lr o * gamma s)%Q (accum o)).
Proof.
  intros Hs Hl. unfold scheduler_step, StepLR_get_lr. cbn [last_epoch step_size gamma].
  rewrite Hs, Z.mod_1_r.
  replace (last_epoch s + 1 =? 0) with false by (symmetry; apply Z.eqb_neq; lia).
  reflexivity.
Qed.

Lemma Qpower_step (q g : Q) (n : nat) :
  (q * g ^ Z.of_nat n * g == q * g ^ Z.of_nat (S n))%Q.
Proof.
  replace (Z.of_nat (S n)) with (Z.of_nat n + 1) by lia.
  rewrite (Qpower_plus' g (Z.of_nat n) 1) by lia.
  change (g ^ 1)%Q with g. rewrite Qmult_assoc. reflexivity.
Qed.

Lemma Qpower_step_l (q g : Q) (n : nat) :
  (q * g * g ^ Z.of_nat n == q * g ^ Z.of_nat (S n))%Q.
Proof.
  rewrite <- Qpower_step, <- !Qmult_assoc, (Qmult_comm g). reflexivity.
Qed.

(** [n] scheduler steps from a scheduler of step size 1 multiply the rate
    by the [n]-th power of gamma. *)
Lemma steps_decay (s : StepLR) (o : Optimizer) :
  step_size s = 1 -> 0 <= last_epoch s ->
  forall n : nat,
    fst (steps n (s, o)) = MkStepLR 1 (gamma s) (last_epoch s + Z.of_nat n)
    /\ (lr (snd (steps n (s, o))) == lr o * gamma s ^ Z.of_nat n)%Q.
Proof.
  intros Hs Hl. induction n as [|n [IHs IHr]].
  - simpl. rewrite Z.add_0_r, Qmult_1_r. destruct s; simpl in *; subst. auto with *.
  - cbn [steps]. rewrite scheduler_step_decay; rewrite IHs; cbn [step_size last_epoch gamma];
      [|reflexivity|lia].
    cbn [fst snd lr]. split; [f_equal; lia|].
    rewrite IHr. apply Qpower_step.
Qed.

Lemma count_events_app (f : Event -> bool) (l1 l2 : list Event) :
  count_events f (l1 ++ l2) = (count_events f l1 + count_events f l2)%nat.
Proof. unfold count_events. rewrite filter_app, length_app. reflexivity. Qed.

Lemma count_events_none (f : Event -> bool) (evs : list Event) :
  Forall (fun e => f e = false) evs -> count_events f evs = 0%nat.
Proof.
  unfold count_events. induction 1 as [|e evs He _ IH]; [reflexivity|].
  rewrite filter_cons_False; [exact IH | congruence].
Qed.

Lemma report_not_step (evs : list Event) :
  Forall (fun e => is_report_event e = true) evs ->
  Forall (fun e => is_scheduler_step e = false) evs
  /\ Forall (fun e => is_epoch_banner e = false) evs
  /\ Forall (fun e => is_startup_event e = false) evs.
Proof.
  intros H. repeat split; eapply Forall_impl; try exact H;
    intros [] He; simpl in *; congruence.
Qed.

(** The loop over a list of epochs: the arguments stay, each epoch prints
    one banner and makes one scheduler step, and the rate decays by gamma
    per epoch. *)
Lemma for_each_epochs : forall (l : list Z) (r r' : Run) (p p' : Proc),
  for_each epoch_body l r p = (Ret r', p') ->
  step_size (run_scheduler r) = 1 ->
  0 <= last_epoch (run_scheduler r) ->
  run_args r' = run_args r
  /\ run_scheduler r'
     = MkStepLR 1 (gamma (run_scheduler r))
               (last_epoch (run_scheduler r) + Z.of_nat (length l))
  /\ (lr (run_optimizer r')
      == lr (run_optimizer r) * gamma (run_scheduler r) ^ Z.of_nat (length l))%Q
  /\ exists evs : list Event,
       log p' = log p ++ evs
       /\ count_events is_epoch_banner evs = length l
       /\ count_events is_scheduler_step evs = length l
       /\ Forall (fun e => is_startup_event e = false) evs.
Proof.
  induction l as [|e l IH]; intros r r' p p' H Hs Hl.
  - injection H as <- <-. cbn [length]. rewrite Z.add_0_r, Qmult_1_r.
    split; [reflexivity|]. split; [destruct (run_scheduler r); simpl in *; subst; reflexivity|].
    split; [reflexivity|]. exists []. rewrite app_nil_r. repeat split. constructor.
  - cbn [for_each] in H. apply bind_Ret_inv in H. destruct H as (r1 & p1 & H1 & H).
    apply epoch_body_Ret_inv in H1.
    destruct H1 as (m' & o & evs & Hlr & Hr1 & Hlog1 & HF).
    rewrite scheduler_step_decay in Hr1 by assumption. cbn [fst snd] in Hr1.
    destruct (IH r1 r' p1 p' H) as (Ha & Hsch & Hrate & evs' & Hlog & Hb & Hc & HF');
      [subst r1; reflexivity | subst r1; cbn [run_scheduler last_epoch]; lia|].
    subst r1. cbn [run_args run_scheduler run_optimizer gamma last_epoch lr] in *.
    destruct (report_not_step evs HF) as (Hns & Hnb & Hnst).
    split; [exact Ha|]. split; [rewrite Hsch; f_equal; cbn [length]; lia|].
    split; [rewrite Hrate, Hlr; apply Qpower_step_l|].
    exists ((EPrintEpoch e :: evs ++ [ESchedulerStep]) ++ evs').
    split; [rewrite Hlog, Hlog1, <- app_assoc; reflexivity|].
    rewrite !count_events_app, Hb, Hc.
    change (EPrintEpoch e :: evs ++ [ESchedulerStep])
      with ([EPrintEpoch e] ++ evs ++ [ESchedulerStep]).
    rewrite !count_events_app, (count_events_none _ _ Hns), (count_events_none _ _ Hnb).
    split; [reflexivity|]. split; [reflexivity|].
    apply Forall_app. split; [|exact HF'].
    constructor; [reflexivity|]. apply Forall_app. split; [exact Hnst | repeat constructor].
Qed.

Lemma py_range_length (a b : Z) : length (py_range a b) = Z.to_nat (b - a).
Proof. unfold py_range. rewrite length_map, length_seq. reflexivity. Qed.

End EpochFacts.

(** ** Whole runs *)

Section RunFacts.
Context `{B : Backend}.

Lemma startup_Ret_inv (W : World) (argv : list Arg) (p p0 : Proc) (r0 : Run) :
  startup W argv p = (Ret r0, p0) ->
  exists args : Namespace.t,
    parse_args argv = Ret args
    /\ build W args (use_cuda_of W args (configured_environ args (environ p)))
             (MkProc (configured_environ args (environ p)) true false seeded_rng
                     (log p ++ seed_events))
       = (Ret r0, p0).
Proof.
  intros H. destruct (parse_args argv) as [args|e] eqn:Hparse.
  - exists args. split; [reflexivity|]. rewrite <- H. symmetry. apply startup_run. exact Hparse.
  - rewrite (startup_parse_error W argv e p Hparse) in H. discriminate.
Qed.

(** The log of the startup: the four seeding calls, the banner, then
    events of the startup that are not seeding calls. *)
Lemma startup_log (W : World) (argv : list Arg) (args : Namespace.t) (p : Proc) :
  parse_args argv = Ret args ->
  exists rest : list Event,
    log (snd (startup W argv p))
    = log p ++ seed_events
            ++ EPrintDevice (if use_cuda_of W args (configured_environ args (environ p))
                             then Cuda else Cpu) :: rest
    /\ Forall startup_only rest.
Proof.
  intros Hparse. rewrite (startup_run W argv args p Hparse).
  match goal with |- context [build W args ?c ?q] =>
    destruct (build_banner W args c q) as (rest & Hlog & Hrest) end.
  exists rest. rewrite Hlog. cbn [log]. rewrite <- app_assoc. auto.
Qed.

(** Whatever the arguments, the startup logs startup events only. *)
Lemma startup_events (W : World) (argv : list Arg) (p : Proc) :
  exists evs : list Event,
    log (snd (startup W argv p)) = log p ++ evs
    /\ Forall (fun e => is_startup_event e = true) evs.
Proof.
  destruct (parse_args argv) as [args|e] eqn:Hparse.
  - destruct (startup_log W argv args p Hparse) as (rest & Hlog & Hrest).
    eexists. split; [exact Hlog|].
    apply Forall_app. split; [repeat constructor|].
    constructor; [reflexivity|].
    eapply Forall_impl; [exact Hrest|]. intros ev [He _]. exact He.
  - rewrite (startup_parse_error W argv e p Hparse). exists [].
    cbn [snd]. rewrite app_nil_r. auto.
Qed.

Lemma startup_event_kinds (evs : list Event) :
  Forall (fun e => is_startup_event e = true) evs ->
  Forall (fun e => is_scheduler_step e = false) evs
  /\ Forall (fun e => is_epoch_banner e = false) evs
  /\ Forall (fun e => is_report_event e = false) evs.
Proof.
  intros H. repeat split; eapply Forall_impl; try exact H;
    intros [] He; simpl in *; congruence.
Qed.

Lemma succeeded_inv {A} (x : Res A * Proc) :
  succeeded x = true -> exists (a : A) (p : Proc), x = (Ret a, p).
Proof.
  destruct x as [[a|e] p]; unfold succeeded; simpl; intros H; [eauto | discriminate].
Qed.

Lemma loader_flags_inv (x : Res Run * Proc) (r : Run) (p : Proc) (d : Device) (a b : bool) :
  x = (Ret r, p) ->
  loader_flags x = Some (d, a, b) ->
  run_device r = d /\ shuffle (run_train_loader r) = a /\ shuffle (run_test_loader r) = b.
Proof.
  intros -> H. unfold loader_flags in H. simpl in H. injection H as <- <- <-. auto.
Qed.

Lemma main_Ret_inv (W : World) (argv : list Arg) (p p' : Proc) (r' : Run) :
  main W argv p = (Ret r', p') ->
  exists (r0 : Run) (p0 : Proc),
    startup W argv p = (Ret r0, p0) /\ epoch_loop r0 p0 = (Ret r', p').
Proof. intros H. unfold main in H. apply bind_Ret_inv in H. exact H. Qed.

Lemma startup_only_facts (evs : list Event) :
  Forall startup_only evs ->
  Forall (fun e => is_scheduler_step e = false) evs
  /\ Forall (fun e => is_epoch_banner e = false) evs
  /\ Forall (fun e => is_seed e = false) evs
  /\ Forall (fun e => is_startup_event e = true) evs.
Proof.
  intros H. repeat split; eapply Forall_impl; try exact H;
    intros [] [He1 He2]; simpl in *; congruence.
Qed.

Lemma logs_train (args : Namespace.t) (model : Model) (device : Device)
    (L : DataLoader) (optimizer : Optimizer) (criterion : Reduction) (epoch : Z) :
  logs (fun e => is_report_event e = true)
       (train args model device L optimizer criterion epoch).
Proof.
  intros p. rewrite train_run.
  destruct (train_loop_report device criterion (len_loader L)
              (enumerate (batches_of L (fst (sample_stream L (rng p)))))
              (MkTrainLoop (set_training true model) optimizer 0%Q 0 []))
    as [HF _]; [constructor|].
  destruct (len_dataset L =? 0); cbn [snd log]; eexists.
  - split; [reflexivity | exact HF].
  - rewrite <- app_assoc. split; [reflexivity|].
    apply Forall_app. split; [exact HF | repeat constructor].
Qed.

Lemma logs_test (model : Model) (device : Device) (L : DataLoader) (criterion : Reduction) :
  logs (fun e => is_report_event e = true) (test model device L criterion).
Proof.
  intros p. rewrite test_run. destruct (len_dataset L =? 0); cbn [snd log].
  - exists []. rewrite app_nil_r. auto.
  - eexists. split; [reflexivity | repeat constructor].
Qed.

Lemma report_is_not_startup (e : Event) :
  is_report_event e = true -> is_startup_event e = false.
Proof. destruct e; simpl; congruence. Qed.

(** The epoch loop logs no startup event, in particular no seeding call,
    however it ends. *)
Lemma logs_epoch_loop (r : Run) : logs (fun e => is_startup_event e = false) (epoch_loop r).
Proof.
  unfold epoch_loop. apply logs_for_each. clear r. intros r epoch. unfold epoch_body.
  apply logs_bind; [apply logs_emit; repeat constructor | intros _].
  apply logs_bind;
    [eapply logs_weaken; [apply report_is_not_startup | apply logs_train] | intros [m o]].
  apply logs_bind;
    [eapply logs_weaken; [apply report_is_not_startup | apply logs_test] | intros m'].
  apply logs_bind; [apply logs_emit; repeat constructor | intros _].
  destruct (scheduler_step (run_scheduler r) o). apply logs_ret.
Qed.

Lemma main_log (W : World) (argv : list Arg) (p : Proc) :
  exists evs : list Event,
    log (snd (main W argv p)) = log (snd (startup W argv p)) ++ evs
    /\ Forall (fun e => is_startup_event e = false) evs.
Proof.
  unfold main, bind. destruct (startup W argv p) as [[r0|e] p0]; cbn [snd].
  - apply logs_epoch_loop.
  - exists []. rewrite app_nil_r. auto.
Qed.

Lemma py_range_nil (a b : Z) : b <= a -> py_range a b = [].
Proof. intros H. unfold py_range. replace (Z.to_nat (b - a)) with 0%nat by lia. reflexivity. Qed.

Lemma consume_app (l1 l2 : list Arg) : forall acc : Namespace.t * list string,
  consume acc (l1 ++ l2)
  = match consume acc l1 with
    | Ret acc' => consume acc' l2
    | Raise e => Raise e
    end.
Proof.
  induction l1 as [|a l1 IH]; intros acc; [reflexivity|].
  cbn [app consume]. destruct (take_action acc a); [apply IH | reflexivity].
Qed.

Lemma unknown_key (name : string) (keys : list string) :
  ~ In name keys -> existsb (String.eqb name) keys = false.
Proof.
  intros H. destruct (existsb (String.eqb name) keys) eqn:E; [|reflexivity].
  apply existsb_exists in E. destruct E as (k & Hk & Heq).
  apply String.eqb_eq in Heq. subst k. contradiction.
Qed.

(** An occurrence of [--model] with an unknown name makes the parser fail,
    wherever it stands. *)
Lemma consume_unknown_model (name : string) :
  ~ In name (dict_keys MODEL_MAP) ->
  forall (argv : list Arg) (acc : Namespace.t * list string),
    In (ArgModel name) argv -> exists e : Exn, consume acc argv = Raise e.
Proof.
  intros Hname. induction argv as [|a argv IH]; intros acc Hin; [destruct Hin|].
  cbn [consume]. destruct Hin as [->|Hin].
  - destruct acc as [ns extras]. cbn [take_action].
    rewrite (unknown_key name _ Hname). eauto.
  - destruct (take_action acc a) as [acc'|e]; [apply IH; exact Hin | eauto].
Qed.

Lemma dict_get_keys (name : string) :
  is_Some (dict_get MODEL_MAP name)
  <-> In name ["resnet18"; "resnet34"; "resnet50"; "resnet101"; "resnet152"].
Proof.
  unfold MODEL_MAP. cbn [dict_get In].
  destruct (String.eqb_spec name "resnet18") as [->|H1]; [split; eauto|].
  destruct (String.eqb_spec name "resnet34") as [->|H2]; [split; eauto|].
  destruct (String.eqb_spec name "resnet50") as [->|H3]; [split; eauto|].
  destruct (String.eqb_spec name "resnet101") as [->|H4]; [split; eauto 6|].
  destruct (String.eqb_spec name "resnet152") as [->|H5]; [split; eauto 7|].
  split.
  - intros [c Hc]. discriminate.
  - intros [E|[E|[E|[E|[E|[]]]]]]; congruence.
Qed.

End RunFacts.

Section RunClaims.
Context `{B : Backend}.

(** C3.  From an initial rate [r > 0], [n] calls of the scheduler's step
    give the rate [r * 0.7 ^ n], which is positive and smaller than the rate
    before the last call; and a run of [main] that completes makes exactly
    one step per epoch: each pass through the loop body prints one epoch
    banner and makes one step, so the rate at exit is the initial rate
    times 0.7 to the number of epochs. *)
Theorem C3_learning_rate_schedule :
  (forall (r : Q) (acc : Accum) (n : nat),
      (0 < r)%Q ->
      let rate (k : nat) :=
        lr (snd (steps k (StepLR_new (MkOptimizer r acc) 1 (7 # 10)))) in
      (rate n == r * (7 # 10) ^ Z.of_nat n)%Q
      /\ (0 < rate n)%Q
      /\ (rate (S n) < rate n)%Q)
  /\ (forall (r r' : Run) (epoch : Z) (p p' : Proc),
        epoch_body r epoch p = (Ret r', p') ->
        count_events is_epoch_banner (appended (length (log p)) (log p')) = 1%nat
        /\ count_events is_scheduler_step (appended (length (log p)) (log p')) = 1%nat)
  /\ (forall (W : World) (argv : list Arg) (p p' : Proc) (r' : Run),
        main W argv p = (Ret r', p') ->
        let n := Z.to_nat (Namespace.epochs (run_args r')) in
        parse_args argv = Ret (run_args r')
        /\ count_events is_epoch_banner (appended (length (log p)) (log p')) = n
        /\ count_events is_scheduler_step (appended (length (log p)) (log p')) = n
        /\ (lr (run_optimizer r') == Namespace.lr (run_args r') * (7 # 10) ^ Z.of_nat n)%Q).
Proof.
  split; [|split].
  - intros r acc n Hr rate.
    assert (Hrate : forall k, (rate k == r * (7 # 10) ^ Z.of_nat k)%Q).
    { intros k. unfold rate. rewrite StepLR_new_run.
      destruct (steps_decay (MkStepLR 1 (7 # 10) 0) (MkOptimizer r acc) eq_refl
                            (Z.le_refl 0) k) as [_ H].
      exact H. }
    assert (Hpos : forall k, (0 < rate k)%Q).
    { intros k. rewrite Hrate. apply Qmult_lt_0_compat; [exact Hr|].
      apply Qpower_0_lt. reflexivity. }
    split; [apply Hrate|]. split; [apply Hpos|].
    rewrite (Hrate (S n)), <- Qpower_step, <- Hrate.
    rewrite <- (Qmult_1_r (rate n)) at 2.
    apply Qmult_lt_l; [apply Hpos | reflexivity].
  - intros r r' epoch p p' H.
    apply epoch_body_Ret_inv in H. destruct H as (m' & o & evs & _ & _ & Hlog & HF).
    destruct (report_not_step evs HF) as (Hns & Hnb & _).
    rewrite Hlog, appended_app.
    change (EPrintEpoch epoch :: evs ++ [ESchedulerStep])
      with ([EPrintEpoch epoch] ++ evs ++ [ESchedulerStep]).
    rewrite !count_events_app, (count_events_none _ _ Hns), (count_events_none _ _ Hnb).
    split; reflexivity.
  - intros W argv p p' r' H n.
    apply main_Ret_inv in H. destruct H as (r0 & p0 & Hstart & Hloop).
    destruct (startup_Ret_inv W argv p p0 r0 Hstart) as (args & Hparse & Hbuild).
    destruct (startup_events W argv p) as (evs0 & Hlog0 & Hevs0).
    rewrite Hstart in Hlog0. cbn [snd] in Hlog0.
    apply build_Ret_inv in Hbuild.
    destruct Hbuild as (root & trf & tef & cls & _ & _ & _ & _ & _ & _ & _ & Hr0 & _).
    unfold epoch_loop in Hloop.
    apply for_each_epochs in Hloop; [|subst r0; reflexivity | subst r0; cbn; lia].
    destruct Hloop as (Hargs & _ & Hrate & evs & Hlog & Hb & Hc & _).
    rewrite py_range_length in *.
    assert (Ha0 : run_args r0 = args) by (subst r0; reflexivity).
    assert (Hn : Z.to_nat (Namespace.epochs (run_args r0) + 1 - 1) = n)
      by (unfold n; rewrite Hargs; f_equal; lia).
    rewrite Hn in *. rewrite Hargs, Ha0.
    split; [exact Hparse|].
    destruct (startup_event_kinds evs0 Hevs0) as (Hns & Hnb & _).
    rewrite Hlog, Hlog0, <- !app_assoc, appended_app.
    rewrite !count_events_app, Hb, Hc.
    rewrite (count_events_none _ _ Hns), (count_events_none _ _ Hnb).
    split; [reflexivity|]. split; [reflexivity|].
    rewrite Hrate. subst r0. reflexivity.
Qed.

(** C2 (amended).  The training loader and the evaluation loader get the
    same shuffle setting, and the compute device decides it: with the
    accelerator both loaders shuffle their samples each epoch, on the CPU
    both visit the samples in dataset order. *)
Theorem C2_loaders_shuffle_with_the_accelerator
    (W : World) (argv : list Arg) (p p' : Proc) (r : Run) :
  startup W argv p = (Ret r, p') ->
  shuffle (run_train_loader r) = shuffle (run_test_loader r)
  /\ (run_device r = Cuda ->
      shuffle (run_train_loader r) = true /\ shuffle (run_test_loader r) = true)
  /\ (run_device r = Cpu ->
      shuffle (run_train_loader r) = false /\ shuffle (run_test_loader r) = false
      /\ forall (L : DataLoader) (g : RngState Rng),
           L = run_train_loader r \/ L = run_test_loader r ->
           fst (sample_stream L g) = fst (fetch (transform (dataset L)) g (samples (dataset L)))
           /\ map snd (fst (sample_stream L g)) = map snd (samples (dataset L))).
Proof.
  intros H. apply startup_Ret_inv in H. destruct H as (args & _ & Hbuild).
  apply build_Ret_inv in Hbuild.
  destruct Hbuild as (root & trf & tef & cls & _ & _ & _ & _ & _ & _ & _ & Hr & _).
  subst r. cbn [run_train_loader run_test_loader run_device shuffle].
  destruct (use_cuda_of W args (configured_environ args (environ p))).
  - split; [reflexivity|]. split; [auto | discriminate].
  - split; [reflexivity|]. split; [discriminate|]. intros _.
    split; [reflexivity|]. split; [reflexivity|].
    intros L g [-> | ->]; unfold sample_stream; cbn [shuffle dataset samples transform];
      (split; [reflexivity | apply fetch_labels]).
Qed.

(** C4.  The registry knows exactly the five keys; constructing any of its
    classes yields a model that is not pretrained, freshly initialised from
    the generators, with 200 outputs; a run that gets past the startup has
    built such a model for a recognised key; and an unknown model name
    makes the run fail while the arguments are parsed, with the error that
    lists the choices when the words before it are accepted, and with the
    process untouched (no dataset or model was built). *)
Theorem C4_model_registry (W : World) :
  (forall name : string,
      is_Some (dict_get MODEL_MAP name)
      <-> In name ["resnet18"; "resnet34"; "resnet50"; "resnet101"; "resnet152"])
  /\ dict_keys MODEL_MAP = ["resnet18"; "resnet34"; "resnet50"; "resnet101"; "resnet152"]
  /\ (forall (c : ModelClass) (p : Proc),
        exists (m : Model) (p' : Proc),
          construct c p = (Ret m, p')
          /\ pretrained m = false
          /\ output_width m = 200
          /\ weights m = fst (hub_load (init_call c) (rng p))
          /\ log p' = log p ++ [EHubLoad (init_call c)])
  /\ (forall (argv : list Arg) (p p' : Proc) (r : Run),
        startup W argv p = (Ret r, p') ->
        exists c : ModelClass,
          dict_get MODEL_MAP (Namespace.model (run_args r)) = Some c
          /\ hub_call (run_model r) = init_call c
          /\ pretrained (run_model r) = false
          /\ output_width (run_model r) = 200
          /\ weights (run_model r) = fst (hub_load (init_call c) seeded_rng))
  /\ (forall (name : string) (argv : list Arg) (p : Proc),
        ~ In name (dict_keys MODEL_MAP) ->
        In (ArgModel name) argv ->
        exists e : Exn, parse_args argv = Raise e /\ main W argv p = (Raise e, p))
  /\ (forall (name : string) (pre post : list Arg) (acc : Namespace.t * list string)
             (p : Proc),
        ~ In name (dict_keys MODEL_MAP) ->
        consume (defaults, []) pre = Ret acc ->
        main W (pre ++ ArgModel name :: post) p
        = (Raise (ArgparseError (InvalidChoice "--model" name (dict_keys MODEL_MAP))), p)).
Proof.
  split; [apply dict_get_keys|]. split; [reflexivity|]. split; [|split; [|split]].
  - intros c p. unfold construct.
    rewrite (bind_run _ _ p _ tt (eq_refl (emit [EHubLoad (init_call c)] p))).
    unfold bind, with_rng, ret. cbn [rng environ cudnn_deterministic cudnn_benchmark log].
    destruct (hub_load (init_call c) (rng p)) as [w g].
    eexists. eexists. split; [reflexivity|].
    destruct c; repeat split; reflexivity.
  - intros argv p p' r H. apply startup_Ret_inv in H. destruct H as (args & _ & Hbuild).
    apply build_Ret_inv in Hbuild.
    destruct Hbuild as (root & trf & tef & cls & _ & _ & _ & Hcls & _ & _ & _ & Hr & _).
    exists cls. subst r. cbn [run_args run_model hub_call weights rng].
    split; [exact Hcls|]. destruct cls; repeat split; reflexivity.
  - intros name argv p Hname Hin.
    destruct (consume_unknown_model name Hname argv (defaults, []) Hin) as (e & He).
    exists e. assert (Hparse : parse_args argv = Raise e)
      by (unfold parse_args; rewrite He; reflexivity).
    split; [exact Hparse|].
    unfold main, bind. rewrite (startup_parse_error W argv e p Hparse). reflexivity.
  - intros name pre post [ns extras] p Hname Hpre.
    assert (Hparse : parse_args (pre ++ ArgModel name :: post)
                     = Raise (ArgparseError (InvalidChoice "--model" name (dict_keys MODEL_MAP)))).
    { unfold parse_args. rewrite consume_app, Hpre. cbn [consume take_action].
      rewrite (unknown_key name _ Hname). reflexivity. }
    unfold main, bind. rewrite (startup_parse_error W _ _ p Hparse). reflexivity.
Qed.

(** C7.  Two runs with the same arguments on the same machine, on the CPU
    path, that start from different generator states (and cudnn flags) do
    the same: the startup builds the same objects, with the same initial
    weights, and the whole run logs the same losses.  The seeding calls are
    the first events of the run, before the datasets and the model are
    built, and leave every generator in the state its seed fixes. *)
Theorem C7_seeded_runs_are_reproducible
    (W : World) (argv : list Arg) (args : Namespace.t) (p1 p2 : Proc) :
  parse_args argv = Ret args ->
  environ p1 = environ p2 ->
  log p1 = log p2 ->
  use_cuda_of W args (configured_environ args (environ p1)) = false ->
  startup W argv p1 = startup W argv p2
  /\ main W argv p1 = main W argv p2
  /\ rng (snd (configure W args p1)) = seeded_rng
  /\ (forall (r : Run) (p' : Proc),
        startup W argv p1 = (Ret r, p') ->
        run_device r = Cpu
        /\ exists c : ModelClass,
             hub_call (run_model r) = init_call c
             /\ weights (run_model r) = fst (hub_load (init_call c) seeded_rng))
  /\ exists rest : list Event,
       appended (length (log p1)) (log (snd (startup W argv p1)))
       = seed_events ++ EPrintDevice Cpu :: rest
       /\ Forall startup_only rest.
Proof.
  intros Hparse Henv Hlog Hcpu.
  assert (Hstart : startup W argv p1 = startup W argv p2).
  { rewrite !(startup_run W argv args _ Hparse), Henv, Hlog. reflexivity. }
  split; [exact Hstart|].
  split; [unfold main, bind; rewrite Hstart; reflexivity|].
  split; [rewrite configure_run; reflexivity|].
  split.
  - intros r p' H. apply startup_Ret_inv in H. destruct H as (args' & Hparse' & Hbuild).
    assert (args' = args) by congruence. subst args'.
    apply build_Ret_inv in Hbuild.
    destruct Hbuild as (root & trf & tef & cls & _ & _ & _ & _ & _ & _ & _ & Hr & _).
    subst r. rewrite Hcpu. cbn [run_device run_model hub_call weights rng].
    split; [reflexivity|]. exists cls. split; reflexivity.
  - destruct (startup_log W argv args p1 Hparse) as (rest & Hl & Hrest).
    exists rest. rewrite Hl, appended_app, Hcpu. auto.
Qed.

(** C9.  Whatever the command line, every seeding call of the run has the
    value 42: when the arguments parse, the run starts with the four
    seeding calls with 42 and makes no other; when they do not, it makes
    none. *)
Theorem C9_the_seed_is_always_42 (W : World) (argv : list Arg) (p : Proc) :
  Forall (fun e => forall src v, e = ESeed src v -> v = 42)
         (appended (length (log p)) (log (snd (main W argv p))))
  /\ (forall args : Namespace.t,
        parse_args argv = Ret args ->
        rng (snd (configure W args p)) = seeded_rng
        /\ exists rest : list Event,
             appended (length (log p)) (log (snd (main W argv p))) = seed_events ++ rest
             /\ Forall (fun e => is_seed e = false) rest)
  /\ (forall e : Exn,
        parse_args argv = Raise e ->
        appended (length (log p)) (log (snd (main W argv p))) = []).
Proof.
  destruct (main_log W argv p) as (evs1 & Hmain & Hevs1).
  assert (Hloop : Forall (fun e => is_seed e = false) evs1).
  { eapply Forall_impl; [exact Hevs1|]. intros [] He; simpl in *; congruence. }
  assert (Hparsed : forall args : Namespace.t,
             parse_args argv = Ret args ->
             exists rest : list Event,
               appended (length (log p)) (log (snd (main W argv p))) = seed_events ++ rest
               /\ Forall (fun e => is_seed e = false) rest).
  { intros args Hparse.
    destruct (startup_log W argv args p Hparse) as (rest & Hl & Hrest).
    destruct (startup_only_facts rest Hrest) as (_ & _ & Hns & _).
    eexists. rewrite Hmain, Hl, <- !app_assoc, appended_app. split; [reflexivity|].
    cbn [app]. constructor; [reflexivity|]. apply Forall_app. auto. }
  assert (Hfailed : forall e : Exn,
             parse_args argv = Raise e ->
             appended (length (log p)) (log (snd (main W argv p))) = []).
  { intros e Hparse. unfold main, bind.
    rewrite (startup_parse_error W argv e p Hparse). cbn [snd].
    unfold appended. apply drop_all. }
  split; [|split; [|exact Hfailed]].
  - destruct (parse_args argv) as [args|e] eqn:Hparse.
    + destruct (Hparsed args eq_refl) as (rest & -> & Hrest).
      apply Forall_app. split.
      * repeat constructor; intros src v Heq; injection Heq as _ <-; reflexivity.
      * eapply Forall_impl; [exact Hrest|]. intros ev He src v ->. discriminate.
    + rewrite (Hfailed e eq_refl). constructor.
  - intros args Hparse.
    split; [rewrite configure_run; reflexivity | exact (Hparsed args Hparse)].
Qed.

(** C10.  An [--epochs] word that reads as zero or a negative integer is
    accepted by the parser as it is; with such a value the epoch loop does
    not iterate: the run is its startup, it returns whenever the startup
    does, and its log holds the seeding calls, the device banner and
    startup events only (no epoch banner, no training or evaluation report,
    no scheduler step). *)
Theorem C10_no_epochs_no_training (W : World) :
  (forall (ns : Namespace.t) (extras : list string) (word : string) (z : Z),
      py_int word = Some z -> z <= 0 ->
      take_action (ns, extras) (ArgEpochs word) = Ret (Namespace.set_epochs z ns, extras))
  /\ (forall (argv : list Arg) (args : Namespace.t) (p : Proc),
        parse_args argv = Ret args ->
        Namespace.epochs args <= 0 ->
        py_range 1 (Namespace.epochs args + 1) = []
        /\ main W argv p = startup W argv p
        /\ exists rest : list Event,
             appended (length (log p)) (log (snd (main W argv p)))
             = seed_events
               ++ EPrintDevice (if use_cuda_of W args (configured_environ args (environ p))
                                then Cuda else Cpu) :: rest
             /\ Forall (fun e => is_startup_event e = true) rest).
Proof.
  split.
  - intros ns extras word z Hword _. cbn [take_action]. rewrite Hword. reflexivity.
  - intros argv args p Hparse Hepochs.
    assert (Hrange : py_range 1 (Namespace.epochs args + 1) = [])
      by (apply py_range_nil; lia).
    assert (Hmain : main W argv p = startup W argv p).
    { unfold main, bind. destruct (startup W argv p) as [[r0|e] p0] eqn:Hstart;
        [|reflexivity].
      destruct (startup_Ret_inv W argv p p0 r0 Hstart) as (args' & Hparse' & Hbuild).
      assert (args' = args) by congruence. subst args'.
      apply build_Ret_inv in Hbuild.
      destruct Hbuild as (root & trf & tef & cls & _ & _ & _ & _ & _ & _ & _ & Hr & _).
      unfold epoch_loop. subst r0. cbn [run_args]. rewrite Hrange. reflexivity. }
    split; [exact Hrange|]. split; [exact Hmain|].
    destruct (startup_log W argv args p Hparse) as (rest & Hl & Hrest).
    exists rest. rewrite Hmain, Hl, appended_app.
    split; [reflexivity|]. apply (startup_only_facts rest Hrest).
Qed.

End RunClaims.

(** ** Runs on the small backend *)

Example toy_cpu_startup :
  succeeded (startup Toy.cpu_world [ArgData "d"] (Toy.proc 0)) = true
  /\ loader_flags (startup Toy.cpu_world [ArgData "d"] (Toy.proc 0))
     = Some (Cpu, false, false).
Proof. split; vm_compute; reflexivity. Qed.

Example toy_cuda_startup :
  succeeded (startup Toy.world [ArgData "d"] (Toy.proc 0)) = true
  /\ loader_flags (startup Toy.world [ArgData "d"] (Toy.proc 0))
     = Some (Cuda, true, true).
Proof. split; vm_compute; reflexivity. Qed.

Example toy_two_epochs :
  succeeded (main Toy.cpu_world [ArgData "d"; ArgEpochs "2"; ArgBatchSize "2"] (Toy.proc 0))
  = true.
Proof. vm_compute. reflexivity. Qed.

Example toy_resnet50 :
  succeeded (startup Toy.world [ArgData "d"; ArgModel "resnet50"] (Toy.proc 0)) = true.
Proof. vm_compute. reflexivity. Qed.

Example toy_negative_epochs :
  succeeded (main Toy.world [ArgData "d"; ArgEpochs "-3"] (Toy.proc 0)) = true.
Proof. vm_compute. reflexivity. Qed.

Example toy_parse_epochs :
  parse_args (B := Toy.backend) [ArgData "d"; ArgEpochs "1"] = Ret (Toy.args_of 1)
  /\ parse_args (B := Toy.backend) [ArgData "d"; ArgEpochs "-3"] = Ret (Toy.args_of (-3))
  /\ consume (B := Toy.backend) (defaults, []) [ArgData "d"] = Ret (Toy.args_of 10, []).
Proof. repeat split; vm_compute; reflexivity. Qed.

(** C2 (as stated) fails on both devices: on a machine without
    accelerator the training loader does not shuffle, and with the
    accelerator the evaluation loader shuffles. *)
Lemma C2_shuffle_follows_the_device_only :
  (exists (r : Run) (p' : Proc),
      startup Toy.cpu_world [ArgData "d"] (Toy.proc 0) = (Ret r, p')
      /\ run_device r = Cpu
      /\ shuffle (run_train_loader r) = false)
  /\ (exists (r : Run) (p' : Proc),
         startup Toy.world [ArgData "d"] (Toy.proc 0) = (Ret r, p')
         /\ run_device r = Cuda
         /\ shuffle (run_test_loader r) = true).
Proof.
  split.
  - destruct (succeeded_inv _ (proj1 toy_cpu_startup)) as (r & p' & H).
    destruct (loader_flags_inv _ _ _ _ _ _ H (proj2 toy_cpu_startup)) as (Hd & Htr & _).
    exists r, p'. exact (conj H (conj Hd Htr)).
  - destruct (succeeded_inv _ (proj1 toy_cuda_startup)) as (r & p' & H).
    destruct (loader_flags_inv _ _ _ _ _ _ H (proj2 toy_cuda_startup)) as (Hd & _ & Hte).
    exists r, p'. exact (conj H (conj Hd Hte)).
Qed.

Lemma C2_witness :
  exists (r : Run) (p' : Proc),
    startup Toy.cpu_world [ArgData "d"] (Toy.proc 0) = (Ret r, p')
    /\ shuffle (run_train_loader r) = shuffle (run_test_loader r)
    /\ (run_device r = Cpu ->
        shuffle (run_train_loader r) = false /\ shuffle (run_test_loader r) = false).
Proof.
  destruct (succeeded_inv _ (proj1 toy_cpu_startup)) as (r & p' & H).
  exists r, p'.
  destruct (C2_loaders_shuffle_with_the_accelerator _ _ _ _ _ H) as (Hsame & _ & Hcpu).
  exact (conj H (conj Hsame
           (fun Hdev => conj (proj1 (Hcpu Hdev)) (proj1 (proj2 (Hcpu Hdev)))))).
Defined.

Lemma C3_witness :
  (0 < 1 # 10)%Q
  /\ (lr (snd (steps 3 (StepLR_new (Toy.optimizer (1 # 10)) 1 (7 # 10))))
      == (1 # 10) * (7 # 10) ^ 3)%Q
  /\ exists (r' : Run) (p' : Proc),
       main Toy.cpu_world [ArgData "d"; ArgEpochs "2"; ArgBatchSize "2"] (Toy.proc 0)
       = (Ret r', p')
       /\ count_events is_scheduler_step (appended (length (log (Toy.proc 0))) (log p'))
          = Z.to_nat (Namespace.epochs (run_args r'))
       /\ (lr (run_optimizer r')
           == Namespace.lr (run_args r')
              * (7 # 10) ^ Z.of_nat (Z.to_nat (Namespace.epochs (run_args r'))))%Q.
Proof.
  destruct (C3_learning_rate_schedule (B := Toy.backend)) as (Hsteps & _ & Hmain).
  assert (Hr : (0 < 1 # 10)%Q) by reflexivity.
  destruct (succeeded_inv _ toy_two_epochs) as (r' & p' & H).
  destruct (Hmain _ _ _ _ _ H) as (_ & _ & Hcount & Hrate).
  exact (conj Hr (conj (proj1 (Hsteps (1 # 10) tt 3%nat Hr))
           (ex_intro _ r' (ex_intro _ p' (conj H (conj Hcount Hrate)))))).
Defined.

Lemma C4_witness :
  ~ In "vgg16" (dict_keys MODEL_MAP)
  /\ main Toy.world ([ArgData "d"] ++ ArgModel "vgg16" :: [ArgEpochs "x"]) (Toy.proc 0)
     = (Raise (ArgparseError (InvalidChoice "--model" "vgg16" (dict_keys MODEL_MAP))),
        Toy.proc 0)
  /\ exists (r : Run) (p' : Proc),
       startup Toy.world [ArgData "d"; ArgModel "resnet50"] (Toy.proc 0) = (Ret r, p')
       /\ pretrained (run_model r) = false
       /\ output_width (run_model r) = 200.
Proof.
  destruct (C4_model_registry Toy.world) as (_ & _ & _ & Hbuilt & _ & Hfail).
  assert (Hname : ~ In "vgg16" (dict_keys MODEL_MAP)).
  { intros [E|[E|[E|[E|[E|[]]]]]]; discriminate E. }
  destruct (succeeded_inv _ toy_resnet50) as (r & p' & H).
  destruct (Hbuilt _ _ _ _ H) as (c & _ & _ & Hpre & Hwidth & _).
  exact (conj Hname
           (conj (Hfail "vgg16" [ArgData "d"] [ArgEpochs "x"] _ (Toy.proc 0) Hname
                        (proj2 (proj2 toy_parse_epochs)))
                 (ex_intro _ r (ex_intro _ p' (conj H (conj Hpre Hwidth)))))).
Defined.

Lemma C7_witness :
  parse_args (B := Toy.backend) [ArgData "d"; ArgEpochs "1"] = Ret (Toy.args_of 1)
  /\ main Toy.cpu_world [ArgData "d"; ArgEpochs "1"] (Toy.proc 1)
     = main Toy.cpu_world [ArgData "d"; ArgEpochs "1"] (Toy.proc 2)
  /\ startup Toy.cpu_world [ArgData "d"; ArgEpochs "1"] (Toy.proc 1)
     = startup Toy.cpu_world [ArgData "d"; ArgEpochs "1"] (Toy.proc 2).
Proof.
  destruct (C7_seeded_runs_are_reproducible Toy.cpu_world [ArgData "d"; ArgEpochs "1"]
              (Toy.args_of 1) (Toy.proc 1) (Toy.proc 2) (proj1 toy_parse_epochs)
              eq_refl eq_refl eq_refl)
    as (Hstart & Hmain & _).
  exact (conj (proj1 toy_parse_epochs) (conj Hmain Hstart)).
Defined.

Lemma C9_witness :
  parse_args (B := Toy.backend) [ArgData "d"; ArgEpochs "1"] = Ret (Toy.args_of 1)
  /\ exists rest : list Event,
       appended (length (log (Toy.proc 0)))
                (log (snd (main Toy.world [ArgData "d"; ArgEpochs "1"] (Toy.proc 0))))
       = seed_events ++ rest
       /\ Forall (fun e => is_seed e = false) rest.
Proof.
  destruct (C9_the_seed_is_always_42 Toy.world [ArgData "d"; ArgEpochs "1"] (Toy.proc 0))
    as (_ & Hparsed & _).
  exact (conj (proj1 toy_parse_epochs) (proj2 (Hparsed _ (proj1 toy_parse_epochs)))).
Defined.

Lemma C10_witness :
  parse_args (B := Toy.backend) [ArgData "d"; ArgEpochs "-3"] = Ret (Toy.args_of (-3))
  /\ Namespace.epochs (Toy.args_of (-3)) <= 0
  /\ main Toy.world [ArgData "d"; ArgEpochs "-3"] (Toy.proc 0)
     = startup Toy.world [ArgData "d"; ArgEpochs "-3"] (Toy.proc 0)
  /\ exists (r : Run) (p' : Proc),
       main Toy.world [ArgData "d"; ArgEpochs "-3"] (Toy.proc 0) = (Ret r, p').
Proof.
  assert (Hneg : Namespace.epochs (Toy.args_of (-3)) <= 0) by (intros H; discriminate H).
  destruct (C10_no_epochs_no_training Toy.world) as (_ & Hrun).
  destruct (Hrun [ArgData "d"; ArgEpochs "-3"] (Toy.args_of (-3)) (Toy.proc 0)
                 (proj1 (proj2 toy_parse_epochs)) Hneg)
    as (_ & Hmain & _).
  exact (conj (proj1 (proj2 toy_parse_epochs))
           (conj Hneg (conj Hmain (succeeded_inv _ toy_negative_epochs)))).
Defined.

(** * Further properties of the script *)

Section MoreTrainFacts.
Context `{B : Backend}.

Lemma spec_flushes_sum : forall (lens : list Z) (pending : Z),
  lens <> [] -> Zsum (spec_flushes pending lens) = pending + Zsum lens.
Proof.
  induction lens as [|n lens IH]; intros pending Hne; [contradiction|].
  cbn [spec_flushes]. destruct lens as [|n' lens].
  - rewrite orb_true_r. simpl. lia.
  - rewrite orb_false_r. destruct (2000 <? pending + n).
    + cbn [Zsum fold_right]. fold (Zsum (spec_flushes 0 (n' :: lens))).
      rewrite IH by discriminate. cbn [Zsum fold_right]. lia.
    + rewrite IH by discriminate. cbn [Zsum fold_right]. lia.
Qed.

Lemma batch_len_sum (L : DataLoader) (stream : list (Image * Z)) :
  0 < batch_size L ->
  Zsum (map batch_len (batches_of L stream)) = Z.of_nat (length stream).
Proof.
  intros Hbs. unfold batches_of.
  rewrite <- (chunks_concat (Z.to_nat (batch_size L)) stream) at 2 by lia.
  induction (chunks (Z.to_nat (batch_size L)) stream) as [|c cs IH]; [reflexivity|].
  cbn [map concat Zsum fold_right]. fold (Zsum (map batch_len (map collate cs))).
  rewrite IH, length_app. unfold batch_len, collate. cbn [fst]. rewrite length_map. lia.
Qed.

Lemma batches_of_nil (L : DataLoader) : batches_of L [] = [].
Proof. reflexivity. Qed.

Lemma empty_stream (L : DataLoader) (g : RngState Rng) :
  len_dataset L = 0 -> fst (sample_stream L g) = [].
Proof.
  intros H. apply length_zero_iff_nil. rewrite sample_stream_length.
  unfold len_dataset in H. lia.
Qed.

(** The module flags [train_batch] leaves alone. *)
Lemma train_batch_flags (device : Device) (criterion : Reduction) (n_batches : Z)
    (st : TrainLoop) (ib : Z * (list Image * list Z)) :
  let m := loop_model st in
  let m' := loop_model (train_batch device criterion n_batches st ib) in
  hub_call m' = hub_call m /\ training m' = training m /\ placed_on m' = placed_on m.
Proof.
  destruct ib as [i [data target]].
  unfold train_batch, call_model, zero_grad, loss_backward, optimizer_step.
  cbn [hub_call weights grads training placed_on].
  destruct (training (loop_model st)).
  - destruct (forward_train (weights (loop_model st)) data) as [out w].
    cbn [hub_call weights grads training placed_on].
    destruct (adadelta_step _ _ _ _) as [w' a].
    destruct (_ || _); cbn [loop_model hub_call training placed_on]; auto.
  - cbn [hub_call weights grads training placed_on].
    destruct (adadelta_step _ _ _ _) as [w' a].
    destruct (_ || _); cbn [loop_model hub_call training placed_on]; auto.
Qed.

Lemma train_loop_flags (device : Device) (criterion : Reduction) (n_batches : Z) :
  forall (ibs : list (Z * (list Image * list Z))) (st : TrainLoop),
    let m := loop_model st in
    let m' := loop_model (fold_left (train_batch device criterion n_batches) ibs st) in
    hub_call m' = hub_call m /\ training m' = training m /\ placed_on m' = placed_on m.
Proof.
  induction ibs as [|ib ibs IH]; intros st; [cbn; auto|].
  cbn [fold_left].
  destruct (IH (train_batch device criterion n_batches st ib)) as (H1 & H2 & H3).
  destruct (train_batch_flags device criterion n_batches st ib) as (K1 & K2 & K3).
  cbv zeta in *. repeat split; congruence.
Qed.

End MoreTrainFacts.

Section MoreTrainClaims.
Context `{B : Backend}.

(** X1.  Over a training epoch the amounts passed to the progress bar add
    up to the number of samples of the dataset: the flush at the last batch
    reports what was still pending, so the bar, whose total is the dataset
    size, ends full. *)
Theorem X1_progress_bar_ends_full
    (args : Namespace.t) (model : Model) (device : Device) (L : DataLoader)
    (optimizer : Optimizer) (criterion : Reduction) (epoch : Z) (p : Proc) :
  0 < batch_size L ->
  Zsum (pbar_updates
          (appended (length (log p))
                    (log (snd (train args model device L optimizer criterion epoch p)))))
  = len_dataset L.
Proof.
  intros Hbs.
  assert (Hupd : pbar_updates
                   (appended (length (log p))
                      (log (snd (train args model device L optimizer criterion epoch p))))
                 = spec_flushes 0 (map batch_len
                                       (batches_of L (fst (sample_stream L (rng p)))))).
  { rewrite train_run. unfold appended.
    rewrite <- (batches_count L (rng p) Hbs).
    destruct (len_dataset L =? 0); cbn [snd log].
    - rewrite drop_app_length. apply train_loop_flushes.
    - rewrite <- app_assoc, drop_app_length, pbar_updates_app.
      rewrite train_loop_flushes. apply app_nil_r. }
  rewrite Hupd. unfold len_dataset. rewrite <- (sample_stream_length L (rng p)).
  rewrite <- (batch_len_sum L _ Hbs).
  destruct (map batch_len (batches_of L (fst (sample_stream L (rng p))))) as [|n lens] eqn:E;
    [reflexivity|].
  rewrite spec_flushes_sum by discriminate. lia.
Qed.

(** X2.  [train] and [test] divide by the size of the dataset: over an
    empty dataset each raises ZeroDivisionError without printing anything,
    and over a non-empty one each returns. *)
Theorem X2_empty_dataset_divides_by_zero
    (args : Namespace.t) (model : Model) (device : Device) (L : DataLoader)
    (optimizer : Optimizer) (criterion : Reduction) (epoch : Z) (p : Proc) :
  (len_dataset L = 0 ->
   raised (train args model device L optimizer criterion epoch p) = Some ZeroDivisionError
   /\ log (snd (train args model device L optimizer criterion epoch p)) = log p
   /\ raised (test model device L criterion p) = Some ZeroDivisionError
   /\ log (snd (test model device L criterion p)) = log p)
  /\ (len_dataset L <> 0 ->
      succeeded (train args model device L optimizer criterion epoch p) = true
      /\ succeeded (test model device L criterion p) = true).
Proof.
  split.
  - intros HN. rewrite train_run, test_run, HN. cbn [Z.eqb raised fst snd log].
    rewrite (empty_stream L (rng p) HN), batches_of_nil. cbn. rewrite app_nil_r. auto.
  - intros HN. rewrite train_run, test_run. apply Z.eqb_neq in HN. rewrite HN. auto.
Qed.

(** X3.  Whatever mode the model comes in (the evaluation of the previous
    epoch leaves it in evaluation mode), [train] hands it back in training
    mode, built by the same hub call and on the same device, and hands
    the optimizer back with its learning rate unchanged. *)
Theorem X3_train_returns_the_model_in_training_mode
    (args : Namespace.t) (model m' : Model) (device : Device) (L : DataLoader)
    (optimizer o' : Optimizer) (criterion : Reduction) (epoch : Z) (p p' : Proc) :
  train args model device L optimizer criterion epoch p = (Ret (m', o'), p') ->
  training m' = true
  /\ hub_call m' = hub_call model
  /\ placed_on m' = placed_on model
  /\ lr o' = lr optimizer
  /\ environ p' = environ p.
Proof.
  intros H. rewrite train_run in H. destruct (len_dataset L =? 0); [discriminate|].
  injection H as Hm Ho Hp. subst m' o' p'.
  destruct (train_loop_flags device criterion (len_loader L)
              (enumerate (batches_of L (fst (sample_stream L (rng p)))))
              (MkTrainLoop (set_training true model) optimizer 0%Q 0 []))
    as (H1 & H2 & H3).
  destruct (train_loop_report device criterion (len_loader L)
              (enumerate (batches_of L (fst (sample_stream L (rng p)))))
              (MkTrainLoop (set_training true model) optimizer 0%Q 0 []))
    as [_ Hlr]; [constructor|].
  cbv zeta in *. cbn [loop_model hub_call training placed_on set_training] in *.
  unfold train_loop. auto.
Qed.

End MoreTrainClaims.

(** ** Evaluation with a per-sample forward pass *)

Section EvalRows.
Context `{B : Backend}.
Variable row : Weights -> Image -> Logits.
Hypothesis eval_per_sample :
  forall (w : Weights) (xs : list Image), forward_eval w xs = map (row w) xs.

Lemma eval_rows_stream (L : DataLoader) (w : Weights) (stream : list (Image * Z)) :
  0 < batch_size L ->
  eval_rows w (batches_of L stream) = map (fun xy => (row w (fst xy), snd xy)) stream.
Proof.
  intros Hbs. unfold eval_rows.
  rewrite <- (batches_cover L stream Hbs) at 2. rewrite concat_map, map_map.
  f_equal. apply map_ext. intros b. rewrite eval_per_sample. apply combine_map_l.
Qed.

Lemma eval_losses_stream (L : DataLoader) (w : Weights) (stream : list (Image * Z)) :
  0 < batch_size L ->
  (Qsum (eval_losses ReduceSum w (batches_of L stream))
   == Qsum (map (sample_loss row w) stream))%Q.
Proof.
  intros Hbs. rewrite <- (batches_cover L stream Hbs) at 2.
  rewrite concat_map, Qsum_concat, !map_map. unfold eval_losses.
  assert (Heq : map (fun b => criterion_apply ReduceSum (forward_eval w (fst b)) (snd b))
                    (batches_of L stream)
                = map (fun b => Qsum (map (sample_loss row w) (combine (fst b) (snd b))))
                      (batches_of L stream)).
  { apply map_ext. intros b. unfold criterion_apply.
    rewrite eval_per_sample, combine_map_l, map_map. reflexivity. }
  rewrite Heq. reflexivity.
Qed.

Lemma filter_map_length {X Y} (f : X -> Y) (P : Y -> bool) (l : list X) :
  length (filter (fun y => P y) (map f l)) = length (filter (fun x => P (f x)) l).
Proof.
  induction l as [|x l IH]; [reflexivity|]. cbn [map].
  destruct (P (f x)) eqn:E.
  - rewrite !filter_cons_True by (rewrite E; exact I). simpl. congruence.
  - rewrite !filter_cons_False by (rewrite E; exact id). exact IH.
Qed.

Lemma eval_hits_stream (L : DataLoader) (w : Weights) (stream : list (Image * Z)) :
  0 < batch_size L ->
  eval_hits w (batches_of L stream) = stream_hits row w stream.
Proof.
  intros Hbs. unfold eval_hits, stream_hits. rewrite (eval_rows_stream L w stream Hbs).
  f_equal.
  apply (filter_map_length (fun xy : Image * Z => (row w (fst xy), snd xy))
                           (fun ot => argmax (fst ot) =? snd ot)).
Qed.

(** What [test] prints, in terms of the stream of samples. *)
Lemma test_prints (model : Model) (device : Device) (L : DataLoader) (p : Proc) :
  0 < batch_size L ->
  len_dataset L <> 0 ->
  exists avg pct : Q,
    appended (length (log p)) (log (snd (test model device L ReduceSum p)))
    = [EPrintTest avg (stream_hits row (weights model) (fst (sample_stream L (rng p))))
                  (len_dataset L) pct;
       EPrintTestTime]
    /\ (avg == Qsum (map (sample_loss row (weights model)) (fst (sample_stream L (rng p))))
               / inject_Z (len_dataset L))%Q
    /\ (pct == 100 * inject_Z (stream_hits row (weights model)
                                           (fst (sample_stream L (rng p))))
               / inject_Z (len_dataset L))%Q.
Proof.
  intros Hbs HN. rewrite test_run. apply Z.eqb_neq in HN. rewrite HN. cbn [snd log].
  rewrite appended_app.
  destruct (test_loop_eval device ReduceSum (batches_of L (fst (sample_stream L (rng p))))
              (MkTestLoop (set_training false model) 0%Q 0) eq_refl) as (_ & Hl & Hc).
  cbn [eval_model test_loss correct set_training weights] in Hl, Hc.
  fold (test_loop device ReduceSum (set_training false model)
                  (batches_of L (fst (sample_stream L (rng p))))) in Hl, Hc.
  rewrite Hc, Z.add_0_l, (eval_hits_stream L _ _ Hbs).
  eexists. eexists. split; [reflexivity|]. split; [|reflexivity].
  rewrite Hl, Qplus_0_l, (eval_losses_stream L _ _ Hbs). reflexivity.
Qed.

End EvalRows.

Section MoreEvalClaims.
Context `{B : Backend}.

(** X4.  With a forward pass that scores each sample on its own in
    evaluation mode, what [test] prints does not depend on the evaluation
    batch size: two loaders over the same non-empty dataset that differ only
    in batch size print the same count of correct predictions, the same
    mean loss (the summed loss of all samples over their number) and the
    same accuracy. *)
Theorem X4_evaluation_is_independent_of_the_batch_size
    (row : Weights -> Image -> Logits) (model : Model) (device : Device)
    (L L2 : DataLoader) (p : Proc) :
  (forall (w : Weights) (xs : list Image), forward_eval w xs = map (row w) xs) ->
  dataset L2 = dataset L ->
  shuffle L2 = shuffle L ->
  0 < batch_size L ->
  0 < batch_size L2 ->
  len_dataset L <> 0 ->
  exists (avg avg2 pct pct2 : Q) (hits : Z),
    appended (length (log p)) (log (snd (test model device L ReduceSum p)))
    = [EPrintTest avg hits (len_dataset L) pct; EPrintTestTime]
    /\ appended (length (log p)) (log (snd (test model device L2 ReduceSum p)))
       = [EPrintTest avg2 hits (len_dataset L) pct2; EPrintTestTime]
    /\ (avg == avg2)%Q
    /\ (pct == pct2)%Q
    /\ (avg == Qsum (map (sample_loss row (weights model)) (fst (sample_stream L (rng p))))
               / inject_Z (len_dataset L))%Q
    /\ hits = stream_hits row (weights model) (fst (sample_stream L (rng p))).
Proof.
  intros Hrow Hds Hsh Hbs Hbs2 HN.
  assert (HN2 : len_dataset L2 <> 0) by (unfold len_dataset in *; rewrite Hds; exact HN).
  assert (Hstream : sample_stream L2 (rng p) = sample_stream L (rng p))
    by (unfold sample_stream; rewrite Hds, Hsh; reflexivity).
  assert (Hlen : len_dataset L2 = len_dataset L) by (unfold len_dataset; rewrite Hds; reflexivity).
  destruct (test_prints row Hrow model device L p Hbs HN) as (avg & pct & Hlog & Havg & Hpct).
  destruct (test_prints row Hrow model device L2 p Hbs2 HN2)
    as (avg2 & pct2 & Hlog2 & Havg2 & Hpct2).
  rewrite Hstream, Hlen in Hlog2, Havg2, Hpct2.
  exists avg, avg2, pct, pct2. eexists.
  split; [exact Hlog|]. split; [exact Hlog2|].
  split; [rewrite Havg, Havg2; reflexivity|].
  split; [rewrite Hpct, Hpct2; reflexivity|].
  split; [exact Havg | reflexivity].
Qed.

End MoreEvalClaims.

(** ** The parser *)

Section ParserFacts.
Context `{B : Backend}.

Lemma last_cons_word (v : string) (l : list string) :
  last (v :: l) = match last l with None => Some v | Some w => Some w end.
Proof.
  destruct l as [|w l]; [reflexivity|]. rewrite last_cons_cons.
  destruct (last (w :: l)) eqn:E; [reflexivity|].
  apply last_None in E. discriminate.
Qed.

Lemma last_word_cons (sel : Arg -> option string) (a : Arg) (argv : list Arg) :
  last_word sel (a :: argv)
  = match sel a with
    | Some v => match last_word sel argv with None => Some v | Some w => Some w end
    | None => last_word sel argv
    end.
Proof.
  unfold last_word. change (omap sel (a :: argv))
    with (match sel a with Some v => v :: omap sel argv | None => omap sel argv end).
  destruct (sel a); [apply last_cons_word | reflexivity].
Qed.

(** A field of the namespace follows the last occurrence of its option:
    if every action relates the stored value to the word by [R] and leaves
    the field alone at the other occurrences, so does parsing. *)
Lemma consume_field {X} (get : Namespace.t -> X) (sel : Arg -> option string)
    (R : string -> X -> Prop) :
  (forall ns extras a ns' extras',
      take_action (ns, extras) a = Ret (ns', extras') ->
      match sel a with None => get ns' = get ns | Some v => R v (get ns') end) ->
  forall (argv : list Arg) ns extras ns' extras',
    consume (ns, extras) argv = Ret (ns', extras') ->
    match last_word sel argv with None => get ns' = get ns | Some v => R v (get ns') end.
Proof.
  intros Hstep. induction argv as [|a argv IH]; intros ns extras ns' extras' H.
  - injection H as <- <-. reflexivity.
  - cbn [consume] in H.
    destruct (take_action (ns, extras) a) as [[ns1 extras1]|e] eqn:Ha; [|discriminate].
    specialize (Hstep _ _ _ _ _ Ha). specialize (IH _ _ _ _ H).
    rewrite last_word_cons.
    destruct (sel a) as [v|]; destruct (last_word sel argv); try exact IH; congruence.
Qed.

Ltac action_cases H :=
  match type of H with
  | take_action _ ?a = _ =>
      destruct a; cbn [take_action] in H;
      repeat match type of H with
             | context [match ?x with _ => _ end] => destruct x eqn:?
             | context [if ?x then _ else _] => destruct x eqn:?
             end;
      try discriminate H; injection H as <- <-
  end.

Lemma parse_args_Ret_inv (argv : list Arg) (ns : Namespace.t) :
  parse_args argv = Ret ns ->
  consume (defaults, []) argv = Ret (ns, [])
  /\ exists d : string, Namespace.data ns = Some d.
Proof.
  unfold parse_args. intros H.
  destruct (consume (defaults, []) argv) as [[ns' extras]|e]; [|discriminate].
  destruct (Namespace.data ns') as [d|] eqn:Hd; [|discriminate].
  destruct extras; [|discriminate]. injection H as <-. eauto.
Qed.

Lemma consume_no_cuda : forall (argv : list Arg) ns extras ns' extras',
  consume (ns, extras) argv = Ret (ns', extras') ->
  Namespace.no_cuda ns' = Namespace.no_cuda ns || existsb is_no_cuda argv.
Proof.
  induction argv as [|a argv IH]; intros ns extras ns' extras' H.
  - injection H as <- <-. simpl. rewrite orb_false_r. reflexivity.
  - cbn [consume] in H.
    destruct (take_action (ns, extras) a) as [[ns1 extras1]|e] eqn:Ha; [|discriminate].
    rewrite (IH _ _ _ _ H). cbn [existsb].
    action_cases Ha; cbn [Namespace.no_cuda Namespace.set_data Namespace.set_batch_size
      Namespace.set_test_batch_size Namespace.set_epochs Namespace.set_lr
      Namespace.set_no_cuda Namespace.set_gpu_num Namespace.set_model is_no_cuda];
      rewrite ?orb_false_l, ?orb_true_l, ?orb_true_r; reflexivity.
Qed.

Lemma consume_extras : forall (argv : list Arg) ns extras ns' extras',
  consume (ns, extras) argv = Ret (ns', extras') ->
  extras' = extras ++ extra_words argv.
Proof.
  induction argv as [|a argv IH]; intros ns extras ns' extras' H.
  - injection H as <- <-. simpl. rewrite app_nil_r. reflexivity.
  - cbn [consume] in H.
    destruct (take_action (ns, extras) a) as [[ns1 extras1]|e] eqn:Ha; [|discriminate].
    rewrite (IH _ _ _ _ H).
    action_cases Ha; try reflexivity.
    unfold extra_words. cbn. rewrite <- app_assoc. reflexivity.
Qed.

Lemma take_action_acceptable (acc : Namespace.t * list string) (a : Arg) :
  acceptable a = true <-> exists acc', take_action acc a = Ret acc'.
Proof.
  destruct acc as [ns extras].
  destruct a; cbn [acceptable take_action];
    repeat match goal with
           | |- context [match ?x with _ => _ end] => destruct x
           | |- context [if ?x then _ else _] => destruct x
           end;
    split; intros H; try reflexivity; try discriminate; eauto;
    destruct H as [acc' H]; discriminate.
Qed.

Lemma consume_acceptable : forall (argv : list Arg) (acc : Namespace.t * list string),
  forallb acceptable argv = true <-> exists acc', consume acc argv = Ret acc'.
Proof.
  induction argv as [|a argv IH]; intros acc; cbn [forallb consume].
  - split; eauto.
  - rewrite andb_true_iff. split.
    + intros [Ha Hrest]. apply (take_action_acceptable acc) in Ha. destruct Ha as [acc1 Ha].
      rewrite Ha. apply IH. exact Hrest.
    + intros [acc' H]. destruct (take_action acc a) as [acc1|e] eqn:Ha; [|discriminate].
      split; [apply (take_action_acceptable acc); eauto | apply (IH acc1); eauto].
Qed.

Ltac field_step :=
  let Ha := fresh "Hact" in
  intros ? ? ? ? ? Ha; action_cases Ha;
  cbn [sel_data sel_batch_size sel_test_batch_size sel_epochs sel_lr sel_gpu_num sel_model
       Namespace.data Namespace.batch_size Namespace.test_batch_size Namespace.epochs
       Namespace.lr Namespace.no_cuda Namespace.gpu_num Namespace.model
       Namespace.set_data Namespace.set_batch_size Namespace.set_test_batch_size
       Namespace.set_epochs Namespace.set_lr Namespace.set_no_cuda Namespace.set_gpu_num
       Namespace.set_model];
  auto.

(** When the arguments parse, the model name is registered. *)
Lemma parse_model_registered (argv : list Arg) (ns : Namespace.t) :
  parse_args argv = Ret ns ->
  exists cls : ModelClass, dict_get MODEL_MAP (Namespace.model ns) = Some cls.
Proof.
  intros H. destruct (parse_args_Ret_inv argv ns H) as (Hc & _).
  pose proof (consume_field Namespace.model sel_model
                (fun v x => In x (dict_keys MODEL_MAP))
                ltac:(field_step;
                      match goal with
                      | E : existsb _ _ = true |- _ =>
                          apply existsb_exists in E; destruct E as (k & Hk & Heq);
                          apply String.eqb_eq in Heq; subst; exact Hk
                      end)
                argv _ _ _ _ Hc) as Hf.
  assert (Hin : In (Namespace.model ns) (dict_keys MODEL_MAP)).
  { destruct (last_word sel_model argv); [exact Hf|]. rewrite Hf. left. reflexivity. }
  apply dict_get_keys in Hin. exact Hin.
Qed.

(** The parser ends a run with its own error or the help exit only. *)
Lemma parse_raises (argv : list Arg) (e : Exn) :
  parse_args argv = Raise e -> parser_exn e.
Proof.
  unfold parse_args.
  assert (Hc : forall (l : list Arg) acc, consume acc l = Raise e -> parser_exn e).
  { induction l as [|a l IH]; intros acc H; [discriminate|].
    cbn [consume] in H. destruct (take_action acc a) as [acc'|e'] eqn:Ha; [eauto|].
    injection H as <-. destruct acc as [ns extras].
    destruct a; cbn [take_action] in Ha;
      repeat match type of Ha with
             | context [match ?x with _ => _ end] => destruct x
             | context [if ?x then _ else _] => destruct x
             end;
      try discriminate Ha; injection Ha as <-; exact I. }
  destruct (consume (defaults, []) argv) as [[ns extras]|e'] eqn:E.
  - destruct (Namespace.data ns); [destruct extras|]; intros H; try discriminate H;
      injection H as <-; exact I.
  - intros H. injection H as <-. eapply Hc. exact E.
Qed.

(** X5.  When the arguments parse, every option has the value of its last
    occurrence on the command line, converted by its declared type, and an
    option that does not occur has its declared default (128, 1000, 10,
    0.1, "0", "resnet18"); [no_cuda] is set exactly when the switch
    occurs, and [data], which is required, is the word of its last
    occurrence. *)
Theorem X5_options_take_their_last_occurrence (argv : list Arg) (ns : Namespace.t) :
  parse_args argv = Ret ns ->
  Namespace.data ns = last_word sel_data argv
  /\ match last_word sel_batch_size argv with
     | None => Namespace.batch_size ns = 128
     | Some v => py_int v = Some (Namespace.batch_size ns)
     end
  /\ match last_word sel_test_batch_size argv with
     | None => Namespace.test_batch_size ns = 1000
     | Some v => py_int v = Some (Namespace.test_batch_size ns)
     end
  /\ match last_word sel_epochs argv with
     | None => Namespace.epochs ns = 10
     | Some v => py_int v = Some (Namespace.epochs ns)
     end
  /\ match last_word sel_lr argv with
     | None => Namespace.lr ns = 1 # 10
     | Some v => py_float v = Some (Namespace.lr ns)
     end
  /\ match last_word sel_gpu_num argv with
     | None => Namespace.gpu_num ns = "0"
     | Some v => Namespace.gpu_num ns = v
     end
  /\ match last_word sel_model argv with
     | None => Namespace.model ns = "resnet18"
     | Some v => Namespace.model ns = v /\ In v (dict_keys MODEL_MAP)
     end
  /\ Namespace.no_cuda ns = existsb is_no_cuda argv.
Proof.
  intros H. destruct (parse_args_Ret_inv argv ns H) as (Hc & d & Hd).
  split.
  { pose proof (consume_field Namespace.data sel_data (fun v x => x = Some v)
                  ltac:(field_step) argv _ _ _ _ Hc) as Hf.
    destruct (last_word sel_data argv); [exact Hf|].
    cbn in Hf. congruence. }
  split.
  { exact (consume_field Namespace.batch_size sel_batch_size (fun v x => py_int v = Some x)
             ltac:(field_step) argv _ _ _ _ Hc). }
  split.
  { exact (consume_field Namespace.test_batch_size sel_test_batch_size
             (fun v x => py_int v = Some x) ltac:(field_step) argv _ _ _ _ Hc). }
  split.
  { exact (consume_field Namespace.epochs sel_epochs (fun v x => py_int v = Some x)
             ltac:(field_step) argv _ _ _ _ Hc). }
  split.
  { exact (consume_field Namespace.lr sel_lr (fun v x => py_float v = Some x)
             ltac:(field_step) argv _ _ _ _ Hc). }
  split.
  { exact (consume_field Namespace.gpu_num sel_gpu_num (fun v x => x = v)
             ltac:(field_step) argv _ _ _ _ Hc). }
  split.
  { exact (consume_field Namespace.model sel_model
             (fun v x => x = v /\ In v (dict_keys MODEL_MAP))
             ltac:(field_step; split; [reflexivity|];
                   match goal with
                   | E : existsb _ _ = true |- _ =>
                       apply existsb_exists in E; destruct E as (k & Hk & Heq);
                       apply String.eqb_eq in Heq; subst; exact Hk
                   end)
             argv _ _ _ _ Hc). }
  rewrite (consume_no_cuda argv _ _ _ _ Hc). reflexivity.
Qed.

(** X6.  The parser accepts a command line exactly when every occurrence
    is acceptable to its action (integer and float words convert, the model
    name is a key of MODEL_MAP, there is no -h), [--data] occurs and no
    word is left over.  Errors come in this order: the first occurrence
    whose action fails, then the missing [--data], then the words left
    over, all of them listed in order. *)
Theorem X6_what_the_parser_accepts (argv : list Arg) :
  ((exists ns, parse_args argv = Ret ns)
   <-> forallb acceptable argv = true
       /\ last_word sel_data argv <> None
       /\ extra_words argv = [])
  /\ (forall (pre post : list Arg) (a : Arg),
        argv = pre ++ a :: post ->
        forallb acceptable pre = true -> acceptable a = false ->
        exists acc, consume (defaults, []) pre = Ret acc
                    /\ exists e, take_action acc a = Raise e /\ parse_args argv = Raise e)
  /\ (forallb acceptable argv = true -> last_word sel_data argv = None ->
      parse_args argv = Raise (ArgparseError (RequiredMissing ["--data"])))
  /\ (forallb acceptable argv = true -> last_word sel_data argv <> None ->
      extra_words argv <> [] ->
      parse_args argv = Raise (ArgparseError (Unrecognized (extra_words argv)))).
Proof.
  assert (Hshape : forallb acceptable argv = true ->
            exists ns, consume (defaults, []) argv = Ret (ns, extra_words argv)
                       /\ Namespace.data ns = last_word sel_data argv).
  { intros Hacc. apply (consume_acceptable argv (defaults, [])) in Hacc.
    destruct Hacc as [[ns extras] Hc]. exists ns.
    rewrite (consume_extras argv _ _ _ _ Hc) in Hc. cbn [app] in Hc. split; [exact Hc|].
    pose proof (consume_field Namespace.data sel_data (fun v x => x = Some v)
                  ltac:(field_step) argv _ _ _ _ Hc) as Hf.
    destruct (last_word sel_data argv); [exact Hf | exact Hf]. }
  split; [split|split; [|split]].
  - intros [ns H]. destruct (parse_args_Ret_inv argv ns H) as (Hc & d & Hd).
    assert (Hacc : forallb acceptable argv = true)
      by (apply (consume_acceptable argv (defaults, [])); eauto).
    destruct (Hshape Hacc) as (ns' & Hc' & Hd').
    rewrite Hc in Hc'. injection Hc' as <- Hex.
    split; [exact Hacc|]. split; [rewrite <- Hd', Hd; discriminate | auto].
  - intros (Hacc & Hdata & Hex). destruct (Hshape Hacc) as (ns & Hc & Hd).
    exists ns. unfold parse_args. rewrite Hc, Hd, Hex.
    destruct (last_word sel_data argv); [reflexivity | contradiction].
  - intros pre post a -> Hpre Ha.
    apply (consume_acceptable pre (defaults, [])) in Hpre. destruct Hpre as [acc Hpre].
    exists acc. split; [exact Hpre|].
    destruct (take_action acc a) as [acc'|e] eqn:Hact.
    + assert (acceptable a = true) by (apply (take_action_acceptable acc); eauto).
      congruence.
    + exists e. split; [reflexivity|].
      unfold parse_args. rewrite consume_app, Hpre. cbn [consume]. rewrite Hact. reflexivity.
  - intros Hacc Hdata. destruct (Hshape Hacc) as (ns & Hc & Hd).
    unfold parse_args. rewrite Hc, Hd, Hdata. reflexivity.
  - intros Hacc Hdata Hex. destruct (Hshape Hacc) as (ns & Hc & Hd).
    unfold parse_args. rewrite Hc, Hd.
    destruct (last_word sel_data argv); [|contradiction].
    destruct (extra_words argv); [contradiction | reflexivity].
Qed.

End ParserFacts.

(** ** Settings the run keeps, and exceptions it can raise *)

Section FrameFacts.
Context `{B : Backend}.

Lemma keeps_ret {A} (a : A) : keeps_settings (ret a).
Proof. intros p. cbn. auto. Qed.

Lemma keeps_raise {A} (e : Exn) : keeps_settings (@raise _ A e).
Proof. intros p. cbn. auto. Qed.

Lemma keeps_lift {A} (r : Res A) : keeps_settings (lift r).
Proof. intros p. cbn. auto. Qed.

Lemma keeps_emit (evs : list Event) : keeps_settings (emit evs).
Proof. intros p. cbn. auto. Qed.

Lemma keeps_with_rng {A} (f : RngState Rng -> A * RngState Rng) : keeps_settings (with_rng f).
Proof. intros p. unfold with_rng. destruct (f (rng p)). cbn. auto. Qed.

Lemma keeps_bind {A C} (m : M A) (k : A -> M C) :
  keeps_settings m -> (forall a, keeps_settings (k a)) -> keeps_settings (bind m k).
Proof.
  intros Hm Hk p. unfold bind. destruct (Hm p) as (E1 & E2 & E3).
  destruct (m p) as [[a|e] p1]; cbn [snd] in *.
  - destruct (Hk a p1) as (K1 & K2 & K3). repeat split; congruence.
  - auto.
Qed.

Lemma keeps_for_each {S A} (body : S -> A -> M S) :
  (forall s a, keeps_settings (body s a)) ->
  forall (l : list A) (s : S), keeps_settings (for_each body l s).
Proof.
  intros Hbody. induction l as [|a l IH]; intros s; cbn [for_each].
  - apply keeps_ret.
  - apply keeps_bind; [apply Hbody | intros s'; apply IH].
Qed.

Ltac keeps_steps :=
  repeat first
    [ apply keeps_ret
    | apply keeps_raise
    | apply keeps_lift
    | apply keeps_with_rng
    | apply keeps_emit
    | apply keeps_bind; [|intros ?]
    | match goal with
      | |- keeps_settings (match ?x with _ => _ end) => destruct x
      | |- keeps_settings (if ?x then _ else _) => destruct x
      end ].

Lemma keeps_train (args : Namespace.t) (model : Model) (device : Device)
    (L : DataLoader) (optimizer : Optimizer) (criterion : Reduction) (epoch : Z) :
  keeps_settings (train args model device L optimizer criterion epoch).
Proof. intros p. rewrite train_run. destruct (len_dataset L =? 0); cbn; auto. Qed.

Lemma keeps_test (model : Model) (device : Device) (L : DataLoader) (criterion : Reduction) :
  keeps_settings (test model device L criterion).
Proof. intros p. rewrite test_run. destruct (len_dataset L =? 0); cbn; auto. Qed.

Lemma keeps_build (W : World) (args : Namespace.t) (c : bool) :
  keeps_settings (build W args c).
Proof.
  unfold build, ImageFolder, DataLoader_new, kw_int, kw_bool, construct, Adadelta.
  apply keeps_bind; [apply keeps_emit | intros _].
  apply keeps_bind; [keeps_steps | intros _].
  apply keeps_bind; [keeps_steps | intros root].
  apply keeps_bind; [keeps_steps | intros train_set].
  apply keeps_bind; [keeps_steps | intros test_set].
  apply keeps_bind; [keeps_steps | intros train_loader].
  apply keeps_bind; [keeps_steps | intros test_loader].
  apply keeps_bind; [keeps_steps | intros cls].
  apply keeps_bind; [keeps_steps | intros m].
  apply keeps_bind; [keeps_steps | intros optimizer].
  destruct (StepLR_new optimizer 1 (7 # 10)) as [scheduler optimizer'].
  apply keeps_ret.
Qed.

Lemma keeps_epoch_loop (r : Run) : keeps_settings (epoch_loop r).
Proof.
  unfold epoch_loop. apply keeps_for_each. clear r. intros r epoch. unfold epoch_body.
  apply keeps_bind; [apply keeps_emit | intros _].
  apply keeps_bind; [apply keeps_train | intros [m o]].
  apply keeps_bind; [apply keeps_test | intros m'].
  apply keeps_bind; [apply keeps_emit | intros _].
  destruct (scheduler_step (run_scheduler r) o). apply keeps_ret.
Qed.

(** The settings at the end of a run whose arguments parse, however the
    run ends. *)
Lemma main_settings (W : World) (argv : list Arg) (args : Namespace.t) (p : Proc) :
  parse_args argv = Ret args ->
  environ (snd (main W argv p)) = configured_environ args (environ p)
  /\ cudnn_deterministic (snd (main W argv p)) = true
  /\ cudnn_benchmark (snd (main W argv p)) = false.
Proof.
  intros Hparse. unfold main, bind.
  pose proof (startup_run W argv args p Hparse) as Hstart.
  match type of Hstart with _ = build W args ?c ?q =>
    destruct (keeps_build W args c q) as (E1 & E2 & E3) end.
  rewrite <- Hstart in E1, E2, E3. cbn [environ cudnn_deterministic cudnn_benchmark] in *.
  destruct (startup W argv p) as [[r0|e] p0]; cbn [snd] in *.
  - destruct (keeps_epoch_loop r0 p0) as (K1 & K2 & K3). repeat split; congruence.
  - auto.
Qed.

Lemma raises_ret {A} (P : Exn -> Prop) (a : A) : raises_only P (ret a).
Proof. intros p e H. discriminate. Qed.

Lemma raises_raise {A} (P : Exn -> Prop) (e : Exn) : P e -> raises_only P (@raise _ A e).
Proof. intros HP p e' H. injection H as <-. exact HP. Qed.

Lemma raises_emit (P : Exn -> Prop) (evs : list Event) : raises_only P (emit evs).
Proof. intros p e H. discriminate. Qed.

Lemma raises_with_rng {A} (P : Exn -> Prop) (f : RngState Rng -> A * RngState Rng) :
  raises_only P (with_rng f).
Proof. intros p e H. unfold with_rng in H. destruct (f (rng p)). discriminate. Qed.

Lemma raises_bind {A C} (P : Exn -> Prop) (m : M A) (k : A -> M C) :
  raises_only P m -> (forall a, raises_only P (k a)) -> raises_only P (bind m k).
Proof.
  intros Hm Hk p e H. unfold bind in H. destruct (m p) as [[a|e1] p1] eqn:E.
  - exact (Hk a p1 e H).
  - cbn in H. injection H as <-. apply (Hm p). rewrite E. reflexivity.
Qed.

Lemma raises_for_each {S A} (P : Exn -> Prop) (body : S -> A -> M S) :
  (forall s a, raises_only P (body s a)) ->
  forall (l : list A) (s : S), raises_only P (for_each body l s).
Proof.
  intros Hbody. induction l as [|a l IH]; intros s; cbn [for_each].
  - apply raises_ret.
  - apply raises_bind; [apply Hbody | intros s'; apply IH].
Qed.

Ltac raises_steps :=
  repeat first
    [ apply raises_ret
    | apply raises_raise; exact I
    | apply raises_with_rng
    | apply raises_emit
    | apply raises_bind; [|intros ?]
    | match goal with
      | |- raises_only _ (match ?x with _ => _ end) => destruct x
      | |- raises_only _ (if ?x then _ else _) => destruct x
      end ].

Lemma raises_train (args : Namespace.t) (model : Model) (device : Device)
    (L : DataLoader) (optimizer : Optimizer) (criterion : Reduction) (epoch : Z) :
  raises_only (fun e => e = ZeroDivisionError)
              (train args model device L optimizer criterion epoch).
Proof.
  intros p e H. rewrite train_run in H. destruct (len_dataset L =? 0); [|discriminate].
  injection H as <-. reflexivity.
Qed.

Lemma raises_test (model : Model) (device : Device) (L : DataLoader) (criterion : Reduction) :
  raises_only (fun e => e = ZeroDivisionError) (test model device L criterion).
Proof.
  intros p e H. rewrite test_run in H. destruct (len_dataset L =? 0); [|discriminate].
  injection H as <-. reflexivity.
Qed.

Lemma raises_weaken {A} (P P' : Exn -> Prop) (m : M A) :
  (forall e, P e -> P' e) -> raises_only P m -> raises_only P' m.
Proof. intros HPP Hm p e H. apply HPP. exact (Hm p e H). Qed.

(** The epoch loop fails only by dividing by the size of an empty
    dataset. *)
Lemma raises_epoch_loop (r : Run) :
  raises_only (fun e => e = ZeroDivisionError) (epoch_loop r).
Proof.
  unfold epoch_loop. apply raises_for_each. clear r. intros r epoch. unfold epoch_body.
  apply raises_bind; [apply raises_emit | intros _].
  apply raises_bind; [apply raises_train | intros [m o]].
  apply raises_bind; [apply raises_test | intros m'].
  apply raises_bind; [apply raises_emit | intros _].
  destruct (scheduler_step (run_scheduler r) o). apply raises_ret.
Qed.

Lemma raises_loader (ds : Dataset) (kw : gmap string KwVal) (n m : Z) (sh pm : bool) :
  kw !! "batch_size" = Some (KInt n) ->
  kw !! "shuffle" = (if sh then Some (KBool true) else None) ->
  kw !! "num_workers" = (if sh then Some (KInt m) else None) ->
  kw !! "pin_memory" = (if pm then Some (KBool true) else None) ->
  raises_only build_exn (DataLoader_new ds kw).
Proof.
  intros K1 K2 K3 K4 p e H. rewrite (DataLoader_new_run ds kw n m sh pm p K1 K2 K3 K4) in H.
  destruct (n <=? 0); [|discriminate]. injection H as <-. exact I.
Qed.

(** With the data path and a registered model name in the namespace, the
    startup fails only with a ValueError or a FileNotFoundError. *)
Lemma raises_build (W : World) (args : Namespace.t) (c : bool) (d : string)
    (cls : ModelClass) :
  Namespace.data args = Some d ->
  dict_get MODEL_MAP (Namespace.model args) = Some cls ->
  raises_only build_exn (build W args c).
Proof.
  intros Hd Hcls. unfold build. rewrite Hd, Hcls.
  apply raises_bind; [apply raises_emit | intros _].
  apply raises_bind; [raises_steps | intros _].
  apply raises_bind; [raises_steps | intros root].
  apply raises_bind; [unfold ImageFolder; raises_steps | intros train_set].
  apply raises_bind; [unfold ImageFolder; raises_steps | intros test_set].
  apply raises_bind; [|intros train_loader].
  { destruct (train_kwargs_lookup c args) as (K1 & K2 & K3 & K4).
    exact (raises_loader _ _ _ 2 c c K1 K2 K3 K4). }
  apply raises_bind; [|intros test_loader].
  { destruct (test_kwargs_lookup c args) as (K1 & K2 & K3 & K4).
    exact (raises_loader _ _ _ 2 c c K1 K2 K3 K4). }
  apply raises_bind; [raises_steps | intros cls'].
  apply raises_bind; [unfold construct; raises_steps | intros m].
  apply raises_bind; [unfold Adadelta; raises_steps | intros optimizer].
  destruct (StepLR_new optimizer 1 (7 # 10)) as [scheduler optimizer'].
  apply raises_ret.
Qed.

End FrameFacts.

(** ** More on whole runs *)

Section MoreRunFacts.
Context `{B : Backend}.

Lemma emit_run (evs : list Event) (p : Proc) :
  emit evs p
  = (Ret tt, MkProc (environ p) (cudnn_deterministic p) (cudnn_benchmark p) (rng p)
                    (log p ++ evs)).
Proof. reflexivity. Qed.

(** The log of [build] after the banner and the VGA line: datasets,
    loaders and the hub call, no other line. *)
Lemma build_log (W : World) (args : Namespace.t) (c : bool) (p : Proc) :
  match c, py_int (Namespace.gpu_num args) with
  | true, None =>
      build W args c p
      = (Raise (ValueError "invalid literal for int()"),
         MkProc (environ p) (cudnn_deterministic p) (cudnn_benchmark p) (rng p)
                (log p ++ [EPrintDevice Cuda]))
  | true, Some n =>
      exists rest : list Event,
        log (snd (build W args c p)) = log p ++ EPrintDevice Cuda :: EPrintVGA n :: rest
        /\ Forall quiet_startup rest
  | false, _ =>
      exists rest : list Event,
        log (snd (build W args c p)) = log p ++ EPrintDevice Cpu :: rest
        /\ Forall quiet_startup rest
  end.
Proof.
  unfold build. rewrite (bind_run _ _ _ _ _ (emit_run _ p)).
  destruct c.
  - destruct (py_int (Namespace.gpu_num args)) as [n|].
    + unfold bind at 1.
      rewrite (emit_run [EPrintVGA n]). cbn [environ cudnn_deterministic cudnn_benchmark rng log].
      match goal with |- context [snd (?k ?q)] =>
        assert (Hk : logs quiet_startup k) end.
      { apply logs_bind; [logs_steps | intros root].
        apply logs_bind; [unfold ImageFolder; logs_steps | intros train_set].
        apply logs_bind; [unfold ImageFolder; logs_steps | intros test_set].
        apply logs_bind; [unfold DataLoader_new, kw_int, kw_bool; logs_steps | intros tl].
        apply logs_bind; [unfold DataLoader_new, kw_int, kw_bool; logs_steps | intros vl].
        apply logs_bind; [logs_steps | intros cls].
        apply logs_bind; [unfold construct; logs_steps | intros m].
        apply logs_bind; [unfold Adadelta; logs_steps | intros optimizer].
        destruct (StepLR_new optimizer 1 (7 # 10)) as [scheduler optimizer'].
        apply logs_ret. }
      match goal with |- context [snd (?k ?q)] =>
        destruct (Hk q) as (rest & Hlog & Hrest) end.
      exists rest. rewrite Hlog. cbn [log]. rewrite <- !app_assoc. auto.
    + reflexivity.
  - unfold bind at 1. cbn [ret].
    match goal with |- context [snd (?k ?q)] =>
      assert (Hk : logs quiet_startup k) end.
    { apply logs_bind; [logs_steps | intros root].
      apply logs_bind; [unfold ImageFolder; logs_steps | intros train_set].
      apply logs_bind; [unfold ImageFolder; logs_steps | intros test_set].
      apply logs_bind; [unfold DataLoader_new, kw_int, kw_bool; logs_steps | intros tl].
      apply logs_bind; [unfold DataLoader_new, kw_int, kw_bool; logs_steps | intros vl].
      apply logs_bind; [logs_steps | intros cls].
      apply logs_bind; [unfold construct; logs_steps | intros m].
      apply logs_bind; [unfold Adadelta; logs_steps | intros optimizer].
      destruct (StepLR_new optimizer 1 (7 # 10)) as [scheduler optimizer'].
      apply logs_ret. }
    match goal with |- context [snd (?k ?q)] =>
      destruct (Hk q) as (rest & Hlog & Hrest) end.
    exists rest. rewrite Hlog. cbn [log]. rewrite <- !app_assoc. auto.
Qed.

Lemma quiet_startup_facts (evs : list Event) :
  Forall quiet_startup evs ->
  Forall (fun e => is_vga_line e = false) evs
  /\ Forall (fun e => is_startup_event e = true) evs.
Proof.
  intros H. split; eapply Forall_impl; try exact H; intros e (H1 & H2 & H3); assumption.
Qed.

Lemma not_startup_not_vga (evs : list Event) :
  Forall (fun e => is_startup_event e = false) evs ->
  Forall (fun e => is_vga_line e = false) evs.
Proof.
  intros H. eapply Forall_impl; [exact H|]. intros [] He; simpl in *; congruence.
Qed.

(** X7.  A run whose arguments parse ends, whether it returns or raises,
    with CUDA_DEVICE_ORDER set to PCI_BUS_ID, CUDA_VISIBLE_DEVICES set to
    the [gpu_num] argument, every other environment variable as it was,
    cudnn.deterministic on and cudnn.benchmark off; a run whose arguments
    do not parse leaves the process as it was. *)
Theorem X7_process_settings (W : World) (argv : list Arg) (p : Proc) :
  (forall args : Namespace.t,
      parse_args argv = Ret args ->
      environ (snd (main W argv p)) !! "CUDA_DEVICE_ORDER" = Some "PCI_BUS_ID"
      /\ environ (snd (main W argv p)) !! "CUDA_VISIBLE_DEVICES"
         = Some (Namespace.gpu_num args)
      /\ (forall k : string,
            k <> "CUDA_DEVICE_ORDER" -> k <> "CUDA_VISIBLE_DEVICES" ->
            environ (snd (main W argv p)) !! k = environ p !! k)
      /\ cudnn_deterministic (snd (main W argv p)) = true
      /\ cudnn_benchmark (snd (main W argv p)) = false)
  /\ (forall e : Exn, parse_args argv = Raise e -> main W argv p = (Raise e, p)).
Proof.
  split.
  - intros args Hparse. destruct (main_settings W argv args p Hparse) as (He & Hd & Hb).
    rewrite He. unfold configured_environ.
    split; [rewrite lookup_insert_ne by discriminate; apply lookup_insert_eq|].
    split; [apply lookup_insert_eq|].
    split; [|auto].
    intros k H1 H2. rewrite !lookup_insert_ne by congruence. reflexivity.
  - intros e Hparse. unfold main, bind.
    rewrite (startup_parse_error W argv e p Hparse). reflexivity.
Qed.

(** X8.  After a startup that returns, the device is the accelerator
    exactly when [--no_cuda] does not occur and torch sees an accelerator
    under the environment the script has set; the model is placed on that
    device; each loader has the batch size given for it, which is
    positive, and on the accelerator two workers and pinned memory, on the
    CPU no worker and no pinned memory. *)
Theorem X8_device_and_loader_settings
    (W : World) (argv : list Arg) (p p' : Proc) (r : Run) :
  startup W argv p = (Ret r, p') ->
  parse_args argv = Ret (run_args r)
  /\ (run_device r = Cuda
      <-> existsb is_no_cuda argv = false
          /\ cuda_is_available W (configured_environ (run_args r) (environ p)) = true)
  /\ placed_on (run_model r) = run_device r
  /\ batch_size (run_train_loader r) = Namespace.batch_size (run_args r)
  /\ batch_size (run_test_loader r) = Namespace.test_batch_size (run_args r)
  /\ 0 < batch_size (run_train_loader r)
  /\ 0 < batch_size (run_test_loader r)
  /\ num_workers (run_train_loader r) = (match run_device r with Cuda => 2 | Cpu => 0 end)
  /\ num_workers (run_test_loader r) = (match run_device r with Cuda => 2 | Cpu => 0 end)
  /\ pin_memory (run_train_loader r) = (match run_device r with Cuda => true | Cpu => false end)
  /\ pin_memory (run_test_loader r) = (match run_device r with Cuda => true | Cpu => false end).
Proof.
  intros H. apply startup_Ret_inv in H. destruct H as (args & Hparse & Hbuild).
  apply build_Ret_inv in Hbuild.
  destruct Hbuild as (root & trf & tef & cls & _ & _ & _ & _ & Hbs & Htbs & _ & Hr & _).
  destruct (parse_args_Ret_inv argv args Hparse) as (Hc & _).
  pose proof (consume_no_cuda argv _ _ _ _ Hc) as Hnc. cbn in Hnc.
  subst r. cbn [run_args run_device run_model run_train_loader run_test_loader
                placed_on batch_size num_workers pin_memory].
  split; [exact Hparse|].
  unfold use_cuda_of. rewrite Hnc.
  destruct (existsb is_no_cuda argv);
    destruct (cuda_is_available W (configured_environ args (environ p))); cbn;
    repeat split; auto; try discriminate; intros [H1 H2]; discriminate.
Qed.

(** X9.  The [gpu_num] argument is read as an integer on the accelerator
    only.  On the CPU the run prints no VGA line, whatever the argument.
    On the accelerator the VGA line with the integer follows the device
    banner when the argument is an integer word, and otherwise the run
    raises ValueError right after the banner, with the seeds set and
    before any dataset, loader or model is built. *)
Theorem X9_gpu_num_is_read_on_the_accelerator_only
    (W : World) (argv : list Arg) (args : Namespace.t) (p : Proc) :
  parse_args argv = Ret args ->
  match use_cuda_of W args (configured_environ args (environ p)),
        py_int (Namespace.gpu_num args) with
  | false, _ =>
      exists rest : list Event,
        appended (length (log p)) (log (snd (main W argv p)))
        = seed_events ++ EPrintDevice Cpu :: rest
        /\ count_events is_vga_line rest = 0%nat
  | true, Some n =>
      exists rest : list Event,
        appended (length (log p)) (log (snd (main W argv p)))
        = seed_events ++ EPrintDevice Cuda :: EPrintVGA n :: rest
        /\ count_events is_vga_line rest = 0%nat
  | true, None =>
      main W argv p
      = (Raise (ValueError "invalid literal for int()"),
         MkProc (configured_environ args (environ p)) true false seeded_rng
                (log p ++ seed_events ++ [EPrintDevice Cuda]))
  end.
Proof.
  intros Hparse.
  destruct (main_log W argv p) as (evs1 & Hmain & Hevs1).
  apply not_startup_not_vga in Hevs1.
  pose proof (startup_run W argv args p Hparse) as Hstart.
  match type of Hstart with _ = build W args ?c ?q =>
    pose proof (build_log W args c q) as Hb end.
  destruct (use_cuda_of W args (configured_environ args (environ p)));
    [destruct (py_int (Namespace.gpu_num args)) as [n|]|].
  - destruct Hb as (rest & Hlog & Hrest). rewrite <- Hstart in Hlog.
    destruct (quiet_startup_facts rest Hrest) as (Hq & _).
    exists (rest ++ evs1). rewrite Hmain, Hlog. cbn [log].
    rewrite <- !app_assoc, appended_app. split; [reflexivity|].
    rewrite count_events_app, (count_events_none _ _ Hq), (count_events_none _ _ Hevs1).
    reflexivity.
  - unfold main, bind. rewrite Hstart, Hb. cbn [environ cudnn_deterministic cudnn_benchmark
      rng log]. rewrite <- app_assoc. reflexivity.
  - destruct Hb as (rest & Hlog & Hrest). rewrite <- Hstart in Hlog.
    destruct (quiet_startup_facts rest Hrest) as (Hq & _).
    exists (rest ++ evs1). rewrite Hmain, Hlog. cbn [log].
    rewrite <- !app_assoc, appended_app. split; [reflexivity|].
    rewrite count_events_app, (count_events_none _ _ Hq), (count_events_none _ _ Hevs1).
    reflexivity.
Qed.

(** X12.  A run never ends with a KeyError or a TypeError: after the
    parser has accepted the arguments the data path is present and the
    model name is a key of MODEL_MAP, and the loaders get keyword arguments
    of the right types.  What a run can raise is the parser's own error or
    help exit when the arguments do not parse (then nothing else has
    happened), and otherwise a ValueError, a FileNotFoundError or a
    ZeroDivisionError. *)
Theorem X12_no_key_or_type_error (W : World) (argv : list Arg) (p : Proc) (e : Exn) :
  raised (main W argv p) = Some e ->
  expected_exn e = true
  /\ match parse_args argv with
     | Raise e' => e = e' /\ parser_exn e /\ snd (main W argv p) = p
     | Ret _ => build_exn e \/ e = ZeroDivisionError
     end.
Proof.
  intros H. unfold raised in H.
  destruct (fst (main W argv p)) as [r|e'] eqn:Hmain; [discriminate|]. injection H as ->.
  destruct (parse_args argv) as [args|e'] eqn:Hparse.
  - assert (Hq : build_exn e \/ e = ZeroDivisionError).
    { destruct (parse_args_Ret_inv argv args Hparse) as (_ & d & Hd).
      destruct (parse_model_registered argv args Hparse) as (cls & Hcls).
      assert (Hall : raises_only (fun x => build_exn x \/ x = ZeroDivisionError)
                                 (main W argv)).
      { unfold main. apply raises_bind.
        - intros q x Hx. rewrite (startup_run W argv args q Hparse) in Hx. left.
          exact (raises_build W args _ d cls Hd Hcls _ _ Hx).
        - intros r. eapply raises_weaken; [|apply raises_epoch_loop]. auto. }
      exact (Hall p e Hmain). }
    split; [|exact Hq].
    destruct Hq as [Hb | ->]; [destruct e; try contradiction|]; reflexivity.
  - unfold main, bind in Hmain.
    rewrite (startup_parse_error W argv e' p Hparse) in Hmain. cbn in Hmain.
    injection Hmain as <-.
    pose proof (parse_raises argv e' Hparse) as Hp.
    split; [destruct e'; try contradiction; reflexivity|].
    split; [reflexivity|]. split; [exact Hp|].
    unfold main, bind. rewrite (startup_parse_error W argv e' p Hparse). reflexivity.
Qed.

End MoreRunFacts.

(** ** What the epochs print and what they keep *)

Section MoreEpochFacts.
Context `{B : Backend}.

Lemma train_loop_pbar (device : Device) (criterion : Reduction) (n_batches : Z) :
  forall (ibs : list (Z * (list Image * list Z))) (st : TrainLoop),
    Forall (fun e => is_pbar_event e = true) (pbar st) ->
    Forall (fun e => is_pbar_event e = true)
           (pbar (fold_left (train_batch device criterion n_batches) ibs st)).
Proof.
  induction ibs as [|[i b] ibs IH]; intros st Hst; [exact Hst|].
  cbn [fold_left]. apply IH.
  destruct (train_batch_spec device criterion n_batches st i b) as (_ & Hpbar & _ & _).
  rewrite Hpbar. destruct (_ || _); [|exact Hst].
  apply Forall_app. split; [exact Hst | repeat constructor].
Qed.

(** One pass through the loop body: what it prints, in order, and what it
    leaves as it was. *)
Lemma epoch_body_log (r r' : Run) (epoch : Z) (p p' : Proc) :
  epoch_body r epoch p = (Ret r', p') ->
  (exists (bar : list Event) (mean avg pct : Q) (hits n : Z),
      log p' = log p ++ EPrintEpoch epoch :: bar
                     ++ [EPbarPostfix mean; EPrintTrainTime;
                         EPrintTest avg hits n pct; EPrintTestTime; ESchedulerStep]
      /\ Forall (fun e => is_pbar_event e = true) bar)
  /\ run_args r' = run_args r
  /\ run_device r' = run_device r
  /\ run_train_loader r' = run_train_loader r
  /\ run_test_loader r' = run_test_loader r
  /\ run_criterion r' = run_criterion r
  /\ hub_call (run_model r') = hub_call (run_model r)
  /\ placed_on (run_model r') = placed_on (run_model r)
  /\ training (run_model r') = false.
Proof.
  intros H. unfold epoch_body in H.
  apply bind_Ret_inv in H. destruct H as (u0 & p0 & H0 & H). injection H0 as _ <-.
  apply bind_Ret_inv in H. destruct H as ([m1 o1] & p1 & H1 & H).
  rewrite train_run in H1. destruct (len_dataset (run_train_loader r) =? 0); [discriminate|].
  injection H1 as Hm1 Ho1 Hp1.
  apply bind_Ret_inv in H. destruct H as (m2 & p2 & H2 & H).
  rewrite test_run in H2. destruct (len_dataset (run_test_loader r) =? 0); [discriminate|].
  injection H2 as Hm2 Hp2. rewrite test_loop_model in Hm2.
  apply bind_Ret_inv in H. destruct H as (u3 & p3 & H3 & H). injection H3 as _ <-.
  destruct (scheduler_step (run_scheduler r) o1) as [s' o'].
  injection H as <- <-.
  cbn [run_args run_device run_train_loader run_test_loader run_criterion run_model log].
  match type of Hm1 with loop_model (train_loop ?d ?c ?n ?m ?o ?bs) = _ =>
    pose proof (train_loop_flags d c n (enumerate bs) (MkTrainLoop m o 0%Q 0 [])) as Hflags;
    pose proof (train_loop_pbar d c n (enumerate bs) (MkTrainLoop m o 0%Q 0 [])
                  ltac:(constructor)) as Hbar
  end.
  cbv zeta in Hflags. cbn [loop_model set_training hub_call placed_on] in Hflags.
  destruct Hflags as (F1 & _ & F3).
  split.
  - eexists. eexists. eexists. eexists. eexists. eexists.
    split; [|exact Hbar].
    subst p2 p1. cbn [log rng]. rewrite <- !app_assoc. reflexivity.
  - subst m2 m1. unfold train_loop. cbn [set_training hub_call placed_on training].
    repeat split; auto.
Qed.

Lemma epoch_numbers_app (l1 l2 : list Event) :
  epoch_numbers (l1 ++ l2) = epoch_numbers l1 ++ epoch_numbers l2.
Proof. apply omap_app. Qed.

Lemma pbar_events_silent (bar : list Event) :
  Forall (fun e => is_pbar_event e = true) bar ->
  epoch_numbers bar = []
  /\ count_events is_test_summary bar = 0%nat
  /\ count_events is_train_time bar = 0%nat
  /\ count_events is_test_time bar = 0%nat.
Proof.
  induction 1 as [|e bar He _ (I1 & I2 & I3 & I4)]; [auto|].
  change (e :: bar) with ([e] ++ bar).
  rewrite epoch_numbers_app, !count_events_app, I1, I2, I3, I4.
  destruct e; try discriminate He; auto.
Qed.

Lemma startup_events_silent (evs : list Event) :
  Forall (fun e => is_startup_event e = true) evs ->
  epoch_numbers evs = []
  /\ count_events is_test_summary evs = 0%nat
  /\ count_events is_train_time evs = 0%nat
  /\ count_events is_test_time evs = 0%nat.
Proof.
  induction 1 as [|e evs He _ (I1 & I2 & I3 & I4)]; [auto|].
  change (e :: evs) with ([e] ++ evs).
  rewrite epoch_numbers_app, !count_events_app, I1, I2, I3, I4.
  destruct e; try discriminate He; auto.
Qed.

(** The loop over a list of epochs. *)
Lemma for_each_output : forall (l : list Z) (r r' : Run) (p p' : Proc),
  for_each epoch_body l r p = (Ret r', p') ->
  (exists evs : list Event,
      log p' = log p ++ evs
      /\ epoch_numbers evs = l
      /\ count_events is_test_summary evs = length l
      /\ count_events is_train_time evs = length l
      /\ count_events is_test_time evs = length l)
  /\ run_args r' = run_args r
  /\ run_device r' = run_device r
  /\ run_train_loader r' = run_train_loader r
  /\ run_test_loader r' = run_test_loader r
  /\ run_criterion r' = run_criterion r
  /\ hub_call (run_model r') = hub_call (run_model r)
  /\ placed_on (run_model r') = placed_on (run_model r)
  /\ training (run_model r')
     = match l with [] => training (run_model r) | _ :: _ => false end.
Proof.
  induction l as [|e l IH]; intros r r' p p' H.
  - injection H as <- <-. split; [exists []; rewrite app_nil_r; auto|]. repeat split.
  - cbn [for_each] in H. apply bind_Ret_inv in H. destruct H as (r1 & p1 & H1 & H).
    apply epoch_body_log in H1.
    destruct H1 as ((bar & mean & avg & pct & hits & n & Hlog1 & Hbar)
                    & A1 & A2 & A3 & A4 & A5 & A6 & A7 & A8).
    destruct (IH r1 r' p1 p' H)
      as ((evs & Hlog & E1 & E2 & E3 & E4) & B1 & B2 & B3 & B4 & B5 & B6 & B7 & B8).
    destruct (pbar_events_silent bar Hbar) as (S1 & S2 & S3 & S4).
    split.
    + exists ((EPrintEpoch e :: bar
                ++ [EPbarPostfix mean; EPrintTrainTime; EPrintTest avg hits n pct;
                    EPrintTestTime; ESchedulerStep]) ++ evs).
      split; [rewrite Hlog, Hlog1, <- app_assoc; reflexivity|].
      change (EPrintEpoch e :: bar ++ ?t) with ([EPrintEpoch e] ++ bar ++ t).
      rewrite !epoch_numbers_app, !count_events_app, S1, S2, S3, S4, E1, E2, E3, E4.
      repeat split; reflexivity.
    + repeat split; try congruence.
      rewrite B8. destruct l; [exact A8 | reflexivity].
Qed.

(** X10.  A run that completes prints, for the epochs 1, 2, ... up to
    the [epochs] argument in this order, the epoch banner, the progress
    updates, the epoch's mean training loss, the training time, one
    evaluation summary, the evaluation time, and then makes the scheduler
    step: in all one training mean, one evaluation summary and two
    elapsed-time lines per epoch. *)
Theorem X10_what_the_epochs_print :
  (forall (r r' : Run) (epoch : Z) (p p' : Proc),
      epoch_body r epoch p = (Ret r', p') ->
      exists (bar : list Event) (mean avg pct : Q) (hits n : Z),
        appended (length (log p)) (log p')
        = EPrintEpoch epoch :: bar
            ++ [EPbarPostfix mean; EPrintTrainTime;
                EPrintTest avg hits n pct; EPrintTestTime; ESchedulerStep]
        /\ Forall (fun e => is_pbar_event e = true) bar)
  /\ (forall (W : World) (argv : list Arg) (p p' : Proc) (r' : Run),
        main W argv p = (Ret r', p') ->
        let evs := appended (length (log p)) (log p') in
        let n := Z.to_nat (Namespace.epochs (run_args r')) in
        epoch_numbers evs = py_range 1 (Namespace.epochs (run_args r') + 1)
        /\ count_events is_train_time evs = n
        /\ count_events is_test_summary evs = n
        /\ count_events is_test_time evs = n).
Proof.
  split.
  - intros r r' epoch p p' H. apply epoch_body_log in H.
    destruct H as ((bar & mean & avg & pct & hits & n & Hlog & Hbar) & _).
    exists bar, mean, avg, pct, hits, n. rewrite Hlog, appended_app. auto.
  - intros W argv p p' r' H evs n.
    apply main_Ret_inv in H. destruct H as (r0 & p0 & Hstart & Hloop).
    destruct (startup_events W argv p) as (evs0 & Hlog0 & Hevs0).
    rewrite Hstart in Hlog0. cbn [snd] in Hlog0.
    unfold epoch_loop in Hloop. apply for_each_output in Hloop.
    destruct Hloop as ((evs1 & Hlog & E1 & E2 & E3 & E4) & Hargs & _).
    destruct (startup_events_silent evs0 Hevs0) as (S1 & S2 & S3 & S4).
    rewrite py_range_length in *.
    assert (Hn : Z.to_nat (Namespace.epochs (run_args r0) + 1 - 1) = n)
      by (unfold n; rewrite Hargs; f_equal; lia).
    unfold evs. rewrite Hlog, Hlog0, <- app_assoc, appended_app.
    rewrite epoch_numbers_app, !count_events_app, S1, S2, S3, S4, E1, E2, E3, E4, Hn, Hargs.
    repeat split; reflexivity.
Qed.

(** X11.  The epoch loop rebinds the model, the optimizer and the
    scheduler only: a run that completes ends with the arguments, the
    device, the two loaders and the sum-reduced criterion of its startup,
    and with the model still built by the same hub call and on the run's
    device.  After at least one epoch the model is in evaluation mode (the
    last call was [test]); with no epoch it is in training mode, as
    constructed. *)
Theorem X11_what_the_epochs_keep
    (W : World) (argv : list Arg) (p p' : Proc) (r' : Run) :
  main W argv p = (Ret r', p') ->
  exists (r0 : Run) (p0 : Proc),
    startup W argv p = (Ret r0, p0)
    /\ run_args r' = run_args r0
    /\ run_device r' = run_device r0
    /\ run_train_loader r' = run_train_loader r0
    /\ run_test_loader r' = run_test_loader r0
    /\ run_criterion r' = ReduceSum
    /\ hub_call (run_model r') = hub_call (run_model r0)
    /\ placed_on (run_model r') = run_device r'
    /\ training (run_model r') = (Namespace.epochs (run_args r') <=? 0).
Proof.
  intros H. apply main_Ret_inv in H. destruct H as (r0 & p0 & Hstart & Hloop).
  exists r0, p0. split; [exact Hstart|].
  destruct (startup_Ret_inv W argv p p0 r0 Hstart) as (args & _ & Hbuild).
  apply build_Ret_inv in Hbuild.
  destruct Hbuild as (root & trf & tef & cls & _ & _ & _ & _ & _ & _ & _ & Hr0 & _).
  unfold epoch_loop in Hloop. apply for_each_output in Hloop.
  destruct Hloop as (_ & B1 & B2 & B3 & B4 & B5 & B6 & B7 & B8).
  repeat split; try assumption.
  - rewrite B5. subst r0. reflexivity.
  - rewrite B7, B2. subst r0. reflexivity.
  - rewrite B8, B1. unfold py_range.
    destruct (Z.leb_spec (Namespace.epochs (run_args r0)) 0) as [Hle|Hgt].
    + replace (Z.to_nat (Namespace.epochs (run_args r0) + 1 - 1)) with 0%nat by lia.
      subst r0. reflexivity.
    + destruct (Z.to_nat (Namespace.epochs (run_args r0) + 1 - 1)) eqn:E; [lia|].
      reflexivity.
Qed.

End MoreEpochFacts.

(** ** The order in which the startup can fail *)

Section StartupStages.
Context `{B : Backend}.

Lemma bind_raise_run {A C} (m : M A) (k : A -> M C) (p p1 : Proc) (e : Exn) :
  m p = (Raise e, p1) -> bind m k p = (Raise e, p1).
Proof. intros H. unfold bind. rewrite H. reflexivity. Qed.

Lemma ImageFolder_run (W : World) (root : string) (tf : list Transform) (p : Proc) :
  ImageFolder W root tf p
  = (match image_folder W root with
     | Some (x :: l) => Ret (MkDataset (x :: l) tf)
     | _ => Raise (FileNotFoundError root)
     end,
     MkProc (environ p) (cudnn_deterministic p) (cudnn_benchmark p) (rng p)
            (log p ++ [EImageFolder root tf])).
Proof.
  unfold ImageFolder, bind, emit. destruct (image_folder W root) as [[|x l]|]; reflexivity.
Qed.

Lemma ImageFolder_bind {C} (W : World) (root : string) (tf : list Transform)
    (k : Dataset -> M C) (p : Proc) :
  bind (ImageFolder W root tf) k p
  = let p1 := MkProc (environ p) (cudnn_deterministic p) (cudnn_benchmark p) (rng p)
                     (log p ++ [EImageFolder root tf]) in
    match image_folder W root with
    | Some (x :: l) => k (MkDataset (x :: l) tf) p1
    | _ => (Raise (FileNotFoundError root), p1)
    end.
Proof.
  unfold bind at 1. rewrite ImageFolder_run.
  destruct (image_folder W root) as [[|x l]|]; reflexivity.
Qed.

Lemma DataLoader_new_bind {C} (ds : Dataset) (kw : gmap string KwVal) (n m : Z)
    (sh pm : bool) (k : DataLoader -> M C) (p : Proc) :
  kw !! "batch_size" = Some (KInt n) ->
  kw !! "shuffle" = (if sh then Some (KBool true) else None) ->
  kw !! "num_workers" = (if sh then Some (KInt m) else None) ->
  kw !! "pin_memory" = (if pm then Some (KBool true) else None) ->
  bind (DataLoader_new ds kw) k p
  = if n <=? 0
    then (Raise (ValueError "batch_size should be a positive integer value"), p)
    else k (MkDataLoader ds n sh (if sh then m else 0) pm)
           (MkProc (environ p) (cudnn_deterministic p) (cudnn_benchmark p) (rng p)
                   (log p ++ [EDataLoader n sh (if sh then m else 0) pm])).
Proof.
  intros Hbs Hsh Hnw Hpm. unfold bind at 1.
  rewrite (DataLoader_new_run ds kw n m sh pm p Hbs Hsh Hnw Hpm).
  destruct (n <=? 0); reflexivity.
Qed.

Lemma construct_bind {C} (cls : ModelClass) (k : Model -> M C) (p : Proc) :
  bind (construct cls) k p
  = k (MkModel (init_call cls) (fst (hub_load (init_call cls) (rng p))) zero_grads true Cpu)
      (MkProc (environ p) (cudnn_deterministic p) (cudnn_benchmark p)
              (snd (hub_load (init_call cls) (rng p)))
              (log p ++ [EHubLoad (init_call cls)])).
Proof.
  unfold construct, bind, emit, with_rng, ret.
  cbn [environ cudnn_deterministic cudnn_benchmark rng log].
  destruct (hub_load (init_call cls) (rng p)) as [w g]. reflexivity.
Qed.

Lemma device_lines_run (args : Namespace.t) (c : bool) (n : Z) (p : Proc) :
  (c = true -> py_int (Namespace.gpu_num args) = Some n) ->
  (if c then
     match py_int (Namespace.gpu_num args) with
     | Some n => emit [EPrintVGA n]
     | None => raise (ValueError "invalid literal for int()")
     end
   else ret tt)
    (MkProc (environ p) (cudnn_deterministic p) (cudnn_benchmark p) (rng p)
            (log p ++ [EPrintDevice (if c then Cuda else Cpu)]))
  = (Ret tt, MkProc (environ p) (cudnn_deterministic p) (cudnn_benchmark p) (rng p)
                    (log p ++ device_lines c n)).
Proof.
  intros Hn. destruct c.
  - rewrite (Hn eq_refl). unfold emit, device_lines. cbn [log environ cudnn_deterministic
      cudnn_benchmark rng]. rewrite <- app_assoc. reflexivity.
  - reflexivity.
Qed.

(** [build], stage by stage. *)
Lemma build_stages (W : World) (args : Namespace.t) (c : bool) (p : Proc)
    (root : string) (cls : ModelClass) (n : Z) :
  Namespace.data args = Some root ->
  dict_get MODEL_MAP (Namespace.model args) = Some cls ->
  (c = true -> py_int (Namespace.gpu_num args) = Some n) ->
  let x := build W args c p in
  let out := appended (length (log p)) (log (snd x)) in
  if negb (has_images W (path_join root "train")) then
    raised x = Some (FileNotFoundError (path_join root "train"))
    /\ out = device_lines c n ++ [EImageFolder (path_join root "train") train_transforms]
    /\ rng (snd x) = rng p
  else if negb (has_images W (path_join root "val")) then
    raised x = Some (FileNotFoundError (path_join root "val"))
    /\ out = device_lines c n ++ folder_events root
    /\ rng (snd x) = rng p
  else if Namespace.batch_size args <=? 0 then
    raised x = Some (ValueError "batch_size should be a positive integer value")
    /\ out = device_lines c n ++ folder_events root
    /\ rng (snd x) = rng p
  else if Namespace.test_batch_size args <=? 0 then
    raised x = Some (ValueError "batch_size should be a positive integer value")
    /\ out = device_lines c n ++ folder_events root
               ++ [loader_event c (Namespace.batch_size args)]
    /\ rng (snd x) = rng p
  else
    (if Qle_bool 0 (Namespace.lr args) then
       exists (r : Run) (p' : Proc),
         x = (Ret r, p')
         /\ len_dataset (run_train_loader r) <> 0
         /\ len_dataset (run_test_loader r) <> 0
     else raised x = Some (ValueError "Invalid learning rate"))
    /\ out = device_lines c n ++ folder_events root
               ++ [loader_event c (Namespace.batch_size args);
                   loader_event c (Namespace.test_batch_size args);
                   EHubLoad (init_call cls)]
    /\ rng (snd x) = snd (hub_load (init_call cls) (rng p)).
Proof.
  intros Hdata Hcls Hn x out. unfold out. clear out.
  assert (Hx : x = build W args c p) by reflexivity. clearbody x.
  unfold build in Hx.
  rewrite (bind_run _ _ _ _ _ (emit_run _ p)) in Hx.
  rewrite (bind_run _ _ _ _ _ (device_lines_run args c n p Hn)) in Hx.
  rewrite Hdata in Hx. unfold bind at 1 in Hx. cbn [ret] in Hx.
  rewrite (ImageFolder_bind W (path_join root "train")) in Hx.
  cbn [environ cudnn_deterministic cudnn_benchmark rng log] in Hx.
  unfold has_images.
  destruct (image_folder W (path_join root "train")) as [[|x3 l3]|]; cbn [negb].
  1,3: subst x; cbn [raised fst snd log rng]; rewrite <- app_assoc, appended_app; auto.
  rewrite (ImageFolder_bind W (path_join root "val")) in Hx.
  cbn [environ cudnn_deterministic cudnn_benchmark rng log] in Hx.
  destruct (image_folder W (path_join root "val")) as [[|x4 l4]|]; cbn [negb].
  1,3: subst x; cbn [raised fst snd log rng]; rewrite <- !app_assoc, appended_app; auto.
  destruct (train_kwargs_lookup c args) as (K1 & K2 & K3 & K4).
  rewrite (DataLoader_new_bind _ _ _ 2 c c _ _ K1 K2 K3 K4) in Hx.
  cbn [environ cudnn_deterministic cudnn_benchmark rng log] in Hx.
  destruct (Namespace.batch_size args <=? 0).
  { subst x. cbn [raised fst snd log rng]. rewrite <- !app_assoc, appended_app. auto. }
  destruct (test_kwargs_lookup c args) as (T1 & T2 & T3 & T4).
  rewrite (DataLoader_new_bind _ _ _ 2 c c _ _ T1 T2 T3 T4) in Hx.
  cbn [environ cudnn_deterministic cudnn_benchmark rng log] in Hx.
  destruct (Namespace.test_batch_size args <=? 0).
  { subst x. cbn [raised fst snd log rng]. rewrite <- !app_assoc, appended_app. auto. }
  rewrite Hcls in Hx. unfold bind at 1 in Hx. cbn [ret] in Hx.
  rewrite construct_bind in Hx.
  cbn [environ cudnn_deterministic cudnn_benchmark rng log] in Hx.
  unfold bind, Adadelta in Hx. cbn [to_device weights] in Hx.
  destruct (Qle_bool 0 (Namespace.lr args)).
  - cbn [ret] in Hx. rewrite StepLR_new_run in Hx. unfold ret in Hx. subst x.
    cbn [succeeded raised fst snd log rng]. rewrite <- !app_assoc, appended_app.
    split; [|auto]. eexists. eexists. split; [reflexivity|].
    cbn [run_train_loader run_test_loader]. unfold len_dataset.
    cbn [dataset samples length]. split; lia.
  - unfold raise in Hx. subst x.
    cbn [succeeded raised fst snd log rng]. rewrite <- !app_assoc, appended_app. auto.
Qed.

(** X13.  After the arguments are parsed the startup can fail at five
    places, met in the order of the source, and what has been done by then
    differs: a [train] folder that is missing or holds no image raises
    FileNotFoundError before the [val] folder is looked at; a [val] folder
    that is missing or holds no image raises after both were; a batch size
    that is not positive raises ValueError only after both folders have
    been read, the training one before the evaluation one; in none of
    these cases the model has been loaded, and the generators are as
    seeded.  A negative learning rate is refused by the optimizer last,
    after both loaders exist and the model has been loaded from the hub,
    which drew from the seeded generators.  Otherwise the startup returns,
    having printed and loaded the same, and neither dataset is empty: the
    divisions by the dataset size in [train] and [test] are then
    defined. *)
Theorem X13_startup_fails_in_source_order
    (W : World) (argv : list Arg) (args : Namespace.t) (p : Proc) (n : Z) :
  parse_args argv = Ret args ->
  (use_cuda_of W args (configured_environ args (environ p)) = true ->
   py_int (Namespace.gpu_num args) = Some n) ->
  exists (root : string) (cls : ModelClass),
    Namespace.data args = Some root
    /\ dict_get MODEL_MAP (Namespace.model args) = Some cls
    /\ let c := use_cuda_of W args (configured_environ args (environ p)) in
       let x := startup W argv p in
       let out := appended (length (log p)) (log (snd x)) in
       let pre := seed_events ++ device_lines c n in
       if negb (has_images W (path_join root "train")) then
         raised x = Some (FileNotFoundError (path_join root "train"))
         /\ out = pre ++ [EImageFolder (path_join root "train") train_transforms]
         /\ rng (snd x) = seeded_rng
       else if negb (has_images W (path_join root "val")) then
         raised x = Some (FileNotFoundError (path_join root "val"))
         /\ out = pre ++ folder_events root
         /\ rng (snd x) = seeded_rng
       else if Namespace.batch_size args <=? 0 then
         raised x = Some (ValueError "batch_size should be a positive integer value")
         /\ out = pre ++ folder_events root
         /\ rng (snd x) = seeded_rng
       else if Namespace.test_batch_size args <=? 0 then
         raised x = Some (ValueError "batch_size should be a positive integer value")
         /\ out = pre ++ folder_events root
                    ++ [loader_event c (Namespace.batch_size args)]
         /\ rng (snd x) = seeded_rng
       else
         (if Qle_bool 0 (Namespace.lr args) then
            exists (r : Run) (p' : Proc),
              x = (Ret r, p')
              /\ len_dataset (run_train_loader r) <> 0
              /\ len_dataset (run_test_loader r) <> 0
          else raised x = Some (ValueError "Invalid learning rate"))
         /\ out = pre ++ folder_events root
                    ++ [loader_event c (Namespace.batch_size args);
                        loader_event c (Namespace.test_batch_size args);
                        EHubLoad (init_call cls)]
         /\ rng (snd x) = snd (hub_load (init_call cls) seeded_rng).
Proof.
  intros Hparse Hn.
  destruct (parse_args_Ret_inv argv args Hparse) as (_ & root & Hdata).
  destruct (parse_model_registered argv args Hparse) as (cls & Hcls).
  exists root, cls. split; [exact Hdata|]. split; [exact Hcls|].
  cbv zeta. rewrite (startup_run W argv args p Hparse).
  set (c := use_cuda_of W args (configured_environ args (environ p))) in *.
  set (q := MkProc _ _ _ _ _).
  pose proof (build_stages W args c q root cls n Hdata Hcls Hn) as H. cbv zeta in H.
  assert (Hout : forall evs : list Event,
             appended (length (log q)) (log (snd (build W args c q))) = evs ->
             appended (length (log p)) (log (snd (build W args c q))) = seed_events ++ evs).
  { intros evs He.
    destruct (logs_build W args c q) as (evs' & Hlog & _).
    rewrite Hlog, appended_app in He. subst evs'. rewrite Hlog. subst q. cbn [log].
    rewrite <- app_assoc. apply appended_app. }
  change (rng q) with seeded_rng in H.
  destruct (negb (has_images W (path_join root "train")));
    [|destruct (negb (has_images W (path_join root "val")));
      [|destruct (Namespace.batch_size args <=? 0);
        [|destruct (Namespace.test_batch_size args <=? 0)]]];
    destruct H as (H1 & H2 & H3); (split; [exact H1|]);
    (split; [rewrite <- app_assoc; apply Hout; exact H2 | exact H3]).
Qed.

End StartupStages.

(** ** The further properties on the small backend *)

Example toy_train_returns :
  succeeded (train defaults (set_training false (Toy.model 1)) Cpu (Toy.loader 2 false)
                   (Toy.optimizer 1) ReduceSum 1 (Toy.proc 0)) = true.
Proof. vm_compute. reflexivity. Qed.

Example toy_bad_batch_size :
  raised (main Toy.world [ArgData "d"; ArgBatchSize "0"] (Toy.proc 0))
  = Some (ValueError "batch_size should be a positive integer value").
Proof. vm_compute. reflexivity. Qed.

Example toy_extra_word :
  forallb (acceptable (B := Toy.backend)) [ArgData "d"; ArgExtra "zzz"] = true
  /\ last_word sel_data [ArgData "d"; ArgExtra "zzz"] = Some "d"
  /\ extra_words [ArgData "d"; ArgExtra "zzz"] = ["zzz"].
Proof. repeat split; vm_compute; reflexivity. Qed.

Lemma X1_witness :
  0 < batch_size (Toy.loader 2 false)
  /\ Zsum (pbar_updates
             (appended (length (log (Toy.proc 0)))
                (log (snd (train defaults (Toy.model 1) Cpu (Toy.loader 2 false)
                                 (Toy.optimizer 1) ReduceSum 1 (Toy.proc 0))))))
     = len_dataset (Toy.loader 2 false).
Proof.
  assert (H1 : 0 < batch_size (Toy.loader 2 false)) by reflexivity.
  exact (conj H1 (X1_progress_bar_ends_full defaults (Toy.model 1) Cpu (Toy.loader 2 false)
                    (Toy.optimizer 1) ReduceSum 1 (Toy.proc 0) H1)).
Defined.

Lemma X2_witness :
  len_dataset Toy.empty_loader = 0
  /\ raised (train defaults (Toy.model 1) Cpu Toy.empty_loader (Toy.optimizer 1)
                   ReduceSum 1 (Toy.proc 0)) = Some ZeroDivisionError
  /\ raised (test (Toy.model 1) Cpu Toy.empty_loader ReduceSum (Toy.proc 0))
     = Some ZeroDivisionError.
Proof.
  assert (H0 : len_dataset Toy.empty_loader = 0) by reflexivity.
  destruct (X2_empty_dataset_divides_by_zero defaults (Toy.model 1) Cpu Toy.empty_loader
              (Toy.optimizer 1) ReduceSum 1 (Toy.proc 0)) as [Hempty _].
  destruct (Hempty H0) as (Htrain & _ & Htest & _).
  exact (conj H0 (conj Htrain Htest)).
Defined.

Lemma X3_witness :
  exists (m' : Model) (o' : Optimizer) (p' : Proc),
    train defaults (set_training false (Toy.model 1)) Cpu (Toy.loader 2 false)
          (Toy.optimizer 1) ReduceSum 1 (Toy.proc 0) = (Ret (m', o'), p')
    /\ training m' = true
    /\ lr o' = lr (Toy.optimizer 1).
Proof.
  destruct (succeeded_inv _ toy_train_returns) as ([m' o'] & p' & H).
  destruct (X3_train_returns_the_model_in_training_mode _ _ _ _ _ _ _ _ _ _ _ H)
    as (Hmode & _ & _ & Hlr & _).
  exact (ex_intro _ m' (ex_intro _ o' (ex_intro _ p' (conj H (conj Hmode Hlr))))).
Defined.

Lemma X4_witness :
  exists (avg avg2 pct pct2 : Q) (hits : Z),
    appended (length (log (Toy.proc 0)))
             (log (snd (test (Toy.model 2) Cpu (Toy.loader 2 false) ReduceSum (Toy.proc 0))))
    = [EPrintTest avg hits (len_dataset (Toy.loader 2 false)) pct; EPrintTestTime]
    /\ appended (length (log (Toy.proc 0)))
                (log (snd (test (Toy.model 2) Cpu (Toy.loader 5 false) ReduceSum
                                (Toy.proc 0))))
       = [EPrintTest avg2 hits (len_dataset (Toy.loader 2 false)) pct2; EPrintTestTime]
    /\ (avg == avg2)%Q
    /\ (pct == pct2)%Q.
Proof.
  destruct (X4_evaluation_is_independent_of_the_batch_size (B := Toy.backend)
              Toy.row (Toy.model 2) Cpu
              (Toy.loader 2 false) (Toy.loader 5 false) (Toy.proc 0)
              (fun w xs => eq_refl) eq_refl eq_refl eq_refl eq_refl
              ltac:(discriminate))
    as (avg & avg2 & pct & pct2 & hits & H1 & H2 & H3 & H4 & _).
  exact (ex_intro _ avg (ex_intro _ avg2 (ex_intro _ pct (ex_intro _ pct2 (ex_intro _ hits
           (conj H1 (conj H2 (conj H3 H4)))))))).
Defined.

Lemma X5_witness :
  parse_args (B := Toy.backend) [ArgData "d"; ArgEpochs "1"] = Ret (Toy.args_of 1)
  /\ Namespace.data (Toy.args_of 1) = last_word sel_data [ArgData "d"; ArgEpochs "1"]
  /\ Namespace.no_cuda (Toy.args_of 1) = existsb is_no_cuda [ArgData "d"; ArgEpochs "1"].
Proof.
  destruct (X5_options_take_their_last_occurrence (B := Toy.backend)
              [ArgData "d"; ArgEpochs "1"] (Toy.args_of 1) (proj1 toy_parse_epochs))
    as (Hdata & _ & _ & _ & _ & _ & _ & Hnc).
  exact (conj (proj1 toy_parse_epochs) (conj Hdata Hnc)).
Defined.

Lemma X6_witness :
  forallb (acceptable (B := Toy.backend)) [ArgData "d"; ArgExtra "zzz"] = true
  /\ last_word sel_data [ArgData "d"; ArgExtra "zzz"] <> None
  /\ extra_words [ArgData "d"; ArgExtra "zzz"] <> []
  /\ parse_args (B := Toy.backend) [ArgData "d"; ArgExtra "zzz"]
     = Raise (ArgparseError (Unrecognized (extra_words [ArgData "d"; ArgExtra "zzz"]))).
Proof.
  destruct toy_extra_word as (Hacc & Hdata & Hextra).
  assert (Hd : last_word sel_data [ArgData "d"; ArgExtra "zzz"] <> None)
    by (rewrite Hdata; discriminate).
  assert (He : extra_words [ArgData "d"; ArgExtra "zzz"] <> [])
    by (rewrite Hextra; discriminate).
  destruct (X6_what_the_parser_accepts (B := Toy.backend) [ArgData "d"; ArgExtra "zzz"])
    as (_ & _ & _ & Hleft).
  exact (conj Hacc (conj Hd (conj He (Hleft Hacc Hd He)))).
Defined.

Lemma X7_witness :
  parse_args (B := Toy.backend) [ArgData "d"; ArgEpochs "1"] = Ret (Toy.args_of 1)
  /\ environ (snd (main Toy.world [ArgData "d"; ArgEpochs "1"] (Toy.proc 0)))
       !! "CUDA_VISIBLE_DEVICES"
     = Some (Namespace.gpu_num (Toy.args_of 1))
  /\ cudnn_deterministic (snd (main Toy.world [ArgData "d"; ArgEpochs "1"] (Toy.proc 0)))
     = true.
Proof.
  destruct (X7_process_settings Toy.world [ArgData "d"; ArgEpochs "1"] (Toy.proc 0))
    as (Hset & _).
  destruct (Hset (Toy.args_of 1) (proj1 toy_parse_epochs)) as (_ & Hvis & _ & Hdet & _).
  exact (conj (proj1 toy_parse_epochs) (conj Hvis Hdet)).
Defined.

Lemma X8_witness :
  exists (r : Run) (p' : Proc),
    startup Toy.world [ArgData "d"] (Toy.proc 0) = (Ret r, p')
    /\ placed_on (run_model r) = run_device r
    /\ batch_size (run_train_loader r) = Namespace.batch_size (run_args r)
    /\ 0 < batch_size (run_test_loader r).
Proof.
  destruct (succeeded_inv _ (proj1 toy_cuda_startup)) as (r & p' & H).
  destruct (X8_device_and_loader_settings _ _ _ _ _ H)
    as (_ & _ & Hplaced & Hbs & _ & _ & Htbs & _).
  exact (ex_intro _ r (ex_intro _ p' (conj H (conj Hplaced (conj Hbs Htbs))))).
Defined.

Lemma X9_witness :
  parse_args (B := Toy.backend) [ArgData "d"; ArgEpochs "1"] = Ret (Toy.args_of 1)
  /\ match use_cuda_of Toy.cpu_world (Toy.args_of 1)
             (configured_environ (Toy.args_of 1) (environ (Toy.proc 0))),
           py_int (Backend := Toy.backend) (Namespace.gpu_num (Toy.args_of 1)) with
     | false, _ =>
         exists rest : list Event,
           appended (length (log (Toy.proc 0)))
                    (log (snd (main Toy.cpu_world [ArgData "d"; ArgEpochs "1"] (Toy.proc 0))))
           = seed_events ++ EPrintDevice Cpu :: rest
           /\ count_events is_vga_line rest = 0%nat
     | true, Some n =>
         exists rest : list Event,
           appended (length (log (Toy.proc 0)))
                    (log (snd (main Toy.cpu_world [ArgData "d"; ArgEpochs "1"] (Toy.proc 0))))
           = seed_events ++ EPrintDevice Cuda :: EPrintVGA n :: rest
           /\ count_events is_vga_line rest = 0%nat
     | true, None =>
         main Toy.cpu_world [ArgData "d"; ArgEpochs "1"] (Toy.proc 0)
         = (Raise (ValueError "invalid literal for int()"),
            MkProc (configured_environ (Toy.args_of 1) (environ (Toy.proc 0))) true false
                   seeded_rng
                   (log (Toy.proc 0) ++ seed_events ++ [EPrintDevice Cuda]))
     end.
Proof.
  exact (conj (proj1 toy_parse_epochs)
           (X9_gpu_num_is_read_on_the_accelerator_only Toy.cpu_world
              [ArgData "d"; ArgEpochs "1"] (Toy.args_of 1) (Toy.proc 0)
              (proj1 toy_parse_epochs))).
Defined.

Lemma X10_witness :
  exists (r' : Run) (p' : Proc),
    main Toy.cpu_world [ArgData "d"; ArgEpochs "2"; ArgBatchSize "2"] (Toy.proc 0)
    = (Ret r', p')
    /\ epoch_numbers (appended (length (log (Toy.proc 0))) (log p'))
       = py_range 1 (Namespace.epochs (run_args r') + 1)
    /\ count_events is_test_summary (appended (length (log (Toy.proc 0))) (log p'))
       = Z.to_nat (Namespace.epochs (run_args r')).
Proof.
  destruct (succeeded_inv _ toy_two_epochs) as (r' & p' & H).
  destruct (X10_what_the_epochs_print (B := Toy.backend)) as (_ & Hmain).
  destruct (Hmain _ _ _ _ _ H) as (Hnum & _ & Hsum & _).
  exact (ex_intro _ r' (ex_intro _ p' (conj H (conj Hnum Hsum)))).
Defined.

Lemma X11_witness :
  exists (r' : Run) (p' : Proc),
    main Toy.cpu_world [ArgData "d"; ArgEpochs "2"; ArgBatchSize "2"] (Toy.proc 0)
    = (Ret r', p')
    /\ run_criterion r' = ReduceSum
    /\ placed_on (run_model r') = run_device r'
    /\ training (run_model r') = (Namespace.epochs (run_args r') <=? 0).
Proof.
  destruct (succeeded_inv _ toy_two_epochs) as (r' & p' & H).
  destruct (X11_what_the_epochs_keep _ _ _ _ _ H)
    as (r0 & p0 & _ & _ & _ & _ & _ & Hcrit & _ & Hplaced & Hmode).
  exact (ex_intro _ r' (ex_intro _ p' (conj H (conj Hcrit (conj Hplaced Hmode))))).
Defined.

Lemma X12_witness :
  raised (main Toy.world [ArgData "d"; ArgBatchSize "0"] (Toy.proc 0))
  = Some (ValueError "batch_size should be a positive integer value")
  /\ expected_exn (ValueError "batch_size should be a positive integer value") = true.
Proof.
  exact (conj toy_bad_batch_size
           (proj1 (X12_no_key_or_type_error Toy.world [ArgData "d"; ArgBatchSize "0"]
                     (Toy.proc 0) _ toy_bad_batch_size))).
Defined.

Example toy_parse_batch_size :
  parse_args (B := Toy.backend) [ArgData "d"; ArgBatchSize "0"] = Ret Toy.bad_batch_args.
Proof. vm_compute. reflexivity. Qed.

Lemma X13_witness :
  parse_args (B := Toy.backend) [ArgData "d"; ArgBatchSize "0"] = Ret Toy.bad_batch_args
  /\ exists root : string,
       Namespace.data Toy.bad_batch_args = Some root
       /\ raised (startup Toy.cpu_world [ArgData "d"; ArgBatchSize "0"] (Toy.proc 0))
          = Some (ValueError "batch_size should be a positive integer value")
       /\ appended (length (log (Toy.proc 0)))
                   (log (snd (startup Toy.cpu_world [ArgData "d"; ArgBatchSize "0"]
                                      (Toy.proc 0))))
          = (seed_events ++ device_lines false 0) ++ folder_events root.
Proof.
  destruct (X13_startup_fails_in_source_order Toy.cpu_world [ArgData "d"; ArgBatchSize "0"]
              Toy.bad_batch_args (Toy.proc 0) 0 toy_parse_batch_size
              (fun H => False_ind _ (Bool.diff_false_true H)))
    as (root & cls & Hdata & _ & Hraised & Hout & _).
  exact (conj toy_parse_batch_size (ex_intro _ root (conj Hdata (conj Hraised Hout)))).
Defined.
